(** * seo_analysis.py: the retry wrapper, the query facades, the plots and [main]

    A shallow embedding of [src/seo_analysis.py].  Python code that may raise
    and that acts on shared objects is written in a state-and-error monad.

    - Errors are instances of [Exception], which is what the handlers of the
      program catch.
    - Floats are binary64 numbers, with the operations of the Standard
      Library's IEEE-754 specification.
    - The random generator is a stream of 53-bit integers, one for each call
      of [random()].
    - The provider client (pytrends) and the plotting library (plotly) are
      collaborators: their answers are parameters of the model, and every
      call made to them is logged with its arguments.
    - A [DataFrame] is an object on a heap and is handed around by reference,
      so that a change made in place is seen by every holder.
    - The trace of a run records what it printed, the sleeps it requested and
      each invocation of the operation wrapped by [async_retry]. *)

From Stdlib Require Import ZArith List Lia Bool.
From Stdlib Require Import Floats.SpecFloat.
From stdpp Require Import base gmap strings list pretty.

(** ** Python floats: IEEE-754 binary64 *)

Module F64.
Local Open Scope Z_scope.

Definition prec : Z := 53.
Definition emax : Z := 1024.

Definition float := spec_float.

(** [float(z)] for an int [z], as in [z + x] for a float [x]: the nearest
    binary64 number, ties to even.  (For ints beyond the binary64 range
    Python raises [OverflowError]; the program has no such int.) *)
Definition of_int (z : Z) : float := binary_normalize prec emax z 0 false.

Definition add : float -> float -> float := SFadd prec emax.
Definition mul : float -> float -> float := SFmul prec emax.
Definition ltb : float -> float -> bool := SFltb.
Definition leb : float -> float -> bool := SFleb.

(** [n / d] rounded to the nearest integer, ties to even ([d > 0]). *)
Definition round_half_even (n d : Z) : Z :=
  let q := n / d in
  match 2 * (n mod d) ?= d with
  | Lt => q
  | Gt => q + 1
  | Eq => if Z.even q then q else q + 1
  end.

Definition two_digits (n : Z) : string :=
  if n <? 10 then "0" +:+ pretty n else pretty n.

(** [format(x, '.2f')]: the exact binary value rounded to two decimals. *)
Definition format_2f (x : float) : string :=
  match x with
  | S754_nan => "nan"
  | S754_infinity s => if s then "-inf" else "inf"
  | S754_zero s => if s then "-0.00" else "0.00"
  | S754_finite s m e =>
      let hundredths :=
        match e with
        | Zneg p => round_half_even (Zpos m * 100) (2 ^ Zpos p)
        | _ => Zpos m * 2 ^ e * 100
        end in
      (if s then "-" else "") +:+ pretty (hundredths / 100) +:+ "."
        +:+ two_digits (hundredths mod 100)
  end.
End F64.

Abbreviation float := F64.float.

(** ** The [random] module

    [random.random()] returns [k * 2**-53] for a 53-bit integer [k] taken from
    the generator; [random.uniform(a, b)] is [a + (b - a) * random()]. *)

Module Random.
Local Open Scope Z_scope.

Definition random (k : Z) : float :=
  binary_normalize F64.prec F64.emax (k mod 2 ^ 53) (-53) false.

Definition uniform (a b : Z) (k : Z) : float :=
  F64.add (F64.of_int a) (F64.mul (F64.of_int (b - a)) (random k)).
End Random.

(** ** Exceptions and the state-and-error monad *)

(** An instance of Python's [Exception]: its class name and [str(e)]. *)
Record exn := Exn { exc_type : string; exc_str : string }.

Inductive outcome (A : Type) : Type :=
| Ret (a : A)
| Raise (e : exn).
Arguments Ret {A} a.
Arguments Raise {A} e.

(** A computation over a state [St] that returns or raises. *)
Definition act (St A : Type) : Type := St -> outcome A * St.

Definition ret {St A} (a : A) : act St A := fun s => (Ret a, s).

Definition raise {St A} (e : exn) : act St A := fun s => (Raise e, s).

Definition bind {St A B} (m : act St A) (k : A -> act St B) : act St B :=
  fun s =>
    match m s with
    | (Ret a, s') => k a s'
    | (Raise e, s') => (Raise e, s')
    end.

(** [try: m  except Exception as e: handler e]. *)
Definition try_except {St A} (m : act St A) (handler : exn -> act St A) : act St A :=
  fun s =>
    match m s with
    | (Ret a, s') => (Ret a, s')
    | (Raise e, s') => handler e s'
    end.

Declare Scope py_scope.
Delimit Scope py_scope with py.
Notation "x <- c1 ;; c2" := (bind c1 (fun x => c2))
  (at level 100, c1 at next level, right associativity) : py_scope.
Notation "c1 ;; c2" := (bind c1 (fun _ => c2))
  (at level 100, right associativity) : py_scope.

(** ** What a run of [async_retry] leaves behind *)

Inductive event : Type :=
| EvCall (attempt : Z)          (* the wrapped operation is awaited *)
| EvPrint (line : string)       (* a line written to standard output *)
| EvSleep (seconds : float).    (* [await asyncio.sleep(seconds)] *)

(** The state the retry wrapper runs in: the environment [St] the wrapped
    operation acts on, the random generator (its output stream and the number
    of draws made so far) and the trace of events, oldest first. *)
Record world (St : Type) : Type := World {
  w_env : St;
  w_rng : nat -> Z;
  w_draws : nat;
  w_trace : list event
}.
Arguments World {St} _ _ _ _.
Arguments w_env {St} _.
Arguments w_rng {St} _.
Arguments w_draws {St} _.
Arguments w_trace {St} _.

Section World.
Context {St : Type}.

Definition emit (ev : event) : act (world St) unit :=
  fun w => (Ret tt, World (w_env w) (w_rng w) (w_draws w) (w_trace w ++ [ev])).

Definition print (line : string) : act (world St) unit := emit (EvPrint line).

Definition asyncio_sleep (seconds : float) : act (world St) unit :=
  emit (EvSleep seconds).

(** [random.uniform(a, b)]: one draw from the generator. *)
Definition random_uniform (a b : Z) : act (world St) float :=
  fun w => (Ret (Random.uniform a b (w_rng w (w_draws w))),
            World (w_env w) (w_rng w) (S (w_draws w)) (w_trace w)).

(** Run a computation on the environment inside the world. *)
Definition on_env {A} (m : act St A) : act (world St) A :=
  fun w =>
    let '(o, e') := m (w_env w) in
    (o, World e' (w_rng w) (w_draws w) (w_trace w)).
End World.

(** ** [GoogleTrendsSEOAsync.async_retry]

    [func] is called with the forwarded arguments [args]; [retries] is an
    int; [delay] is the number added to the jitter, as a binary64 number (the
    default [5] is converted by the addition). *)

Definition py_range (n : Z) : list Z := map Z.of_nat (seq 0 (Z.to_nat n)).

Definition retrying_line (sleep_time : float) (attempt : Z) : string :=
  "Retrying in " +:+ F64.format_2f sleep_time +:+ "s... (Attempt "
    +:+ pretty (attempt + 1)%Z +:+ ")".

Definition max_retries_line (e : exn) : string :=
  "Max retries reached. Last error: " +:+ exc_str e.

Section AsyncRetry.
Context {St A Args : Type}.
Local Open Scope py_scope.

(** [await func(...)] with the forwarded arguments, at loop index [attempt]. *)
Definition await_func (func : Args -> act St A) (args : Args) (attempt : Z)
  : act (world St) A :=
  emit (EvCall attempt) ;; on_env (func args).

(** The body of [for attempt in range(retries)], over the indices left. *)
Fixpoint retry_loop (func : Args -> act St A) (retries : Z) (delay : float)
    (args : Args) (attempts : list Z) : act (world St) (option A) :=
  match attempts with
  | [] => ret None
  | attempt :: rest =>
      try_except
        (v <- await_func func args attempt ;; ret (Some v))
        (fun e =>
           if (attempt <? retries - 1)%Z then
             jitter <- random_uniform 0 2 ;;
             let sleep_time := F64.add delay jitter in
             print (retrying_line sleep_time attempt) ;;
             asyncio_sleep sleep_time ;;
             retry_loop func retries delay args rest
           else
             print (max_retries_line e) ;;
             raise e)
  end.

Definition async_retry (func : Args -> act St A) (retries : Z) (delay : float)
    (args : Args) : act (world St) (option A) :=
  retry_loop func retries delay args (py_range retries).
End AsyncRetry.

(** ** pandas: the part of [DataFrame] the program touches *)

Inductive cell : Type :=
| CInt (z : Z)
| CBool (b : bool)
| CStr (s : string).

(** A frame with a single-level index: the index, its name (if any), and the
    columns in order, each with its values. *)
Record DataFrame : Type := Frame {
  df_index_name : option string;
  df_index : list cell;
  df_cols : list (string * list cell)
}.

Definition columns (d : DataFrame) : list string := map fst (df_cols d).

(** [d.empty]: some axis has length 0. *)
Definition empty (d : DataFrame) : bool :=
  (length (df_index d) =? 0)%nat || (length (df_cols d) =? 0)%nat.

(** [RangeIndex(n)]: the labels [0 .. n-1]. *)
Definition range_index (n : nat) : list cell :=
  map (fun i => CInt (Z.of_nat i)) (seq 0 n).

Definition mem_string (s : string) (l : list string) : bool :=
  bool_decide (s ∈ l).

(** The name [reset_index] gives the column that receives the old index. *)
Definition index_label (d : DataFrame) : string :=
  match df_index_name d with
  | Some name => name
  | None => if mem_string "index" (columns d) then "level_0" else "index"
  end.

(** The frame [d.reset_index(inplace=True)] turns [d] into: the old index
    becomes the first column and the index becomes [RangeIndex]; pandas
    raises [ValueError] when the new column's name is already taken. *)
Definition reset_index (d : DataFrame) : outcome DataFrame :=
  let name := index_label d in
  if mem_string name (columns d) then
    Raise (Exn "ValueError" ("cannot insert " +:+ name +:+ ", already exists"))
  else
    Ret (Frame None (range_index (length (df_index d)))
               ((name, df_index d) :: df_cols d)).

(** [cols[:-1]]. *)
Definition all_but_last {T} (l : list T) : list T := removelast l.

(** ** The collaborators: pytrends and plotly *)

(** [related_queries()]: per keyword, the "top" and "rising" tables. *)
Definition related : Type :=
  list (string * (option DataFrame * option DataFrame)).

(** The provider client [TrendReq], acting on the state [X] of the outside
    world (session, rate limits, the payload last built). *)
Record TrendReq (X : Type) : Type := {
  tr_init : string -> Z -> act X unit;
  tr_build_payload : list string -> option string -> string -> act X unit;
  tr_interest_over_time : act X DataFrame;
  tr_interest_by_region : string -> act X DataFrame;
  tr_related_queries : act X related
}.
Arguments tr_init {X} _ _ _ _.
Arguments tr_build_payload {X} _ _ _ _ _.
Arguments tr_interest_over_time {X} _ _.
Arguments tr_interest_by_region {X} _ _ _.
Arguments tr_related_queries {X} _ _.

Inductive color_scale : Type := Viridis.   (* [px.colors.sequential.Viridis] *)

Inductive layout : Type :=
| AxisTitles (xaxis_title yaxis_title : string)
| Geo (showframe showcoastlines : bool).

(** A call made to a collaborator, with the arguments it receives. *)
Inductive ext_call : Type :=
| CallTrendReq (hl : string) (tz : Z)
| CallBuildPayload (kw_list : list string) (timeframe : option string) (geo : string)
| CallInterestOverTime
| CallInterestByRegion (resolution : string)
| CallRelatedQueries
| CallLine (data : DataFrame) (x : string) (y : list string) (title : string)
| CallChoropleth (data : DataFrame) (locations : list cell)
    (locationmode : string) (color : string) (title : string)
    (color_continuous_scale : color_scale)
| CallUpdateLayout (kwargs : layout)
| CallShow.

(** plotly: each call either goes through or raises. *)
Definition Plotly (X : Type) : Type := ext_call -> act X unit.

(** ** The environment: the outside world, the heap of frames, the calls made *)

Definition loc : Type := nat.

Record env (X : Type) : Type := Env {
  e_ext : X;
  e_heap : gmap loc DataFrame;
  e_next : loc;
  e_calls : list ext_call
}.
Arguments Env {X} _ _ _ _.
Arguments e_ext {X} _.
Arguments e_heap {X} _.
Arguments e_next {X} _.
Arguments e_calls {X} _.

Section Env.
Context {X : Type}.

(** Hand a call to a collaborator and record it. *)
Definition external {A} (c : ext_call) (m : act X A) : act (env X) A :=
  fun e =>
    let '(o, x') := m (e_ext e) in
    (o, Env x' (e_heap e) (e_next e) (e_calls e ++ [c])).

(** A frame returned by the provider is a new object. *)
Definition new_frame (d : DataFrame) : act (env X) loc :=
  fun e => (Ret (e_next e),
            Env (e_ext e) (<[e_next e := d]> (e_heap e)) (S (e_next e))
                (e_calls e)).

(** The frame behind a reference.  The references the program holds come
    from [new_frame] and are never dangling; the error case is there to make
    the lookup total. *)
Definition read_frame (l : loc) : act (env X) DataFrame :=
  fun e =>
    match e_heap e !! l with
    | Some d => (Ret d, e)
    | None => (Raise (Exn "ReferenceError" "no such object"), e)
    end.

Definition write_frame (l : loc) (d : DataFrame) : act (env X) unit :=
  fun e => (Ret tt, Env (e_ext e) (<[l := d]> (e_heap e)) (e_next e) (e_calls e)).

Definition lift_outcome {A} (o : outcome A) : act (env X) A := fun e => (o, e).
End Env.

(** ** The class [GoogleTrendsSEOAsync] *)

Definition default_retries : Z := 3.
Definition default_delay : float := F64.of_int 5.

Section GoogleTrendsSEOAsync.
Context {X : Type} (pytrends : TrendReq X) (px : Plotly X).
Local Open Scope py_scope.

(** [__init__]: [self.pytrends = TrendReq(hl='en-US', tz=360)]. *)
Definition init : act (env X) unit :=
  external (CallTrendReq "en-US" 360) (tr_init pytrends "en-US" 360).

Definition build_payload (kw_list : list string) (timeframe : option string)
    (geo : string) : act (env X) unit :=
  external (CallBuildPayload kw_list timeframe geo)
           (tr_build_payload pytrends kw_list timeframe geo).

Definition interest_over_time : act (env X) loc :=
  d <- external CallInterestOverTime (tr_interest_over_time pytrends) ;;
  new_frame d.

Definition interest_by_region (resolution : string) : act (env X) loc :=
  d <- external (CallInterestByRegion resolution)
                (tr_interest_by_region pytrends resolution) ;;
  new_frame d.

Definition related_queries : act (env X) related :=
  external CallRelatedQueries (tr_related_queries pytrends).

(** The closures [fetch] of the three facades. *)
Definition fetch_interest_over_time (keywords : list string)
    (timeframe geo : string) (_ : unit) : act (env X) loc :=
  build_payload keywords (Some timeframe) geo ;;
  interest_over_time.

Definition fetch_interest_by_region (keyword resolution geo : string)
    (_ : unit) : act (env X) loc :=
  build_payload [keyword] None geo ;;
  interest_by_region resolution.

Definition fetch_related_queries (keyword geo : string) (_ : unit)
  : act (env X) related :=
  build_payload [keyword] None geo ;;
  related_queries.

(** The facades: [return await self.async_retry(fetch)]. *)
Definition get_interest_over_time (keywords : list string)
    (timeframe geo : string) : act (world (env X)) (option loc) :=
  async_retry (fetch_interest_over_time keywords timeframe geo)
              default_retries default_delay tt.

Definition get_interest_by_region (keyword resolution geo : string)
  : act (world (env X)) (option loc) :=
  async_retry (fetch_interest_by_region keyword resolution geo)
              default_retries default_delay tt.

Definition get_related_queries (keyword geo : string)
  : act (world (env X)) (option related) :=
  async_retry (fetch_related_queries keyword geo)
              default_retries default_delay tt.

(** [data.reset_index(inplace=True)]: the object [data] itself changes. *)
Definition reset_index_inplace (data : loc) : act (env X) unit :=
  d <- read_frame data ;;
  d' <- lift_outcome (reset_index d) ;;
  write_frame data d'.

Definition plotly (c : ext_call) : act (env X) unit := external c (px c).

Definition plot_interest_over_time (data : loc) (title : string)
  : act (env X) unit :=
  reset_index_inplace data ;;
  d <- read_frame data ;;
  plotly (CallLine d "date" (all_but_last (columns d)) title) ;;
  plotly (CallUpdateLayout (AxisTitles "Date" "Search Interest")) ;;
  plotly CallShow.

Definition plot_interest_by_region (data : loc) (keyword title : string)
  : act (env X) unit :=
  reset_index_inplace data ;;
  d <- read_frame data ;;
  plotly (CallChoropleth d (df_index d) "country names" keyword title Viridis) ;;
  plotly (CallUpdateLayout (Geo false false)) ;;
  plotly CallShow.

(** ** [main] *)

Definition none_has_no_empty : exn :=
  Exn "AttributeError" "'NoneType' object has no attribute 'empty'".

(** The [try] block of step 1 ("Analyze Trends"). *)
Definition analyze_trends_try (keywords : list string) (timeframe geo : string)
  : act (world (env X)) unit :=
  interest_over_time <- get_interest_over_time keywords timeframe geo ;;
  match interest_over_time with
  | None => raise none_has_no_empty
  | Some data =>
      d <- on_env (read_frame data) ;;
      if empty d then print "No data retrieved for interest over time."
      else on_env (plot_interest_over_time data "Emerging Trends in the US")
  end.

Definition analyze_trends (keywords : list string) (timeframe geo : string)
  : act (world (env X)) unit :=
  try_except (analyze_trends_try keywords timeframe geo)
    (fun e => print ("Failed to fetch interest over time: " +:+ exc_str e)).

(** The [try] block of step 2 ("Regional Analysis"); [resolution] is left
    at its default ['COUNTRY']. *)
Definition regional_analysis_try (geo : string) : act (world (env X)) unit :=
  region_interest <- get_interest_by_region "Holiday Sales" "COUNTRY" geo ;;
  match region_interest with
  | None => raise none_has_no_empty
  | Some data =>
      d <- on_env (read_frame data) ;;
      if empty d then print "No data retrieved for regional interest."
      else on_env (plot_interest_by_region data "Holiday Sales"
                                           "Regional Interest in the US")
  end.

Definition regional_analysis (geo : string) : act (world (env X)) unit :=
  try_except (regional_analysis_try geo)
    (fun e => print ("Failed to fetch regional interest: " +:+ exc_str e)).

Definition main : act (world (env X)) unit :=
  on_env init ;;
  let keywords := ["Black Friday Deals"; "Cyber Monday Deals"; "Holiday Sales"] in
  let geo := "US" in
  let timeframe := "today 12-m" in
  analyze_trends keywords timeframe geo ;;
  regional_analysis geo.
End GoogleTrendsSEOAsync.

(** ** Reading a run of the retry wrapper *)

Definition is_call (ev : event) : bool :=
  match ev with EvCall _ => true | _ => false end.

Definition is_sleep (ev : event) : bool :=
  match ev with EvSleep _ => true | _ => false end.

(** How many times the wrapped operation was invoked, how many backoff sleeps
    were requested, and the requested durations in order. *)
Definition calls_in (t : list event) : nat := length (filter is_call t).

Definition sleeps_in (t : list event) : nat := length (filter is_sleep t).

Fixpoint sleep_times (t : list event) : list float :=
  match t with
  | [] => []
  | EvSleep s :: t' => s :: sleep_times t'
  | _ :: t' => sleep_times t'
  end.

(** The events a run added to the trace. *)
Definition new_events {St} (w w' : world St) : list event :=
  drop (length (w_trace w)) (w_trace w').

(** The backoff requested after a failure, when [draws] values have already
    been taken from the generator [rng]. *)
Definition sleep_time (delay : float) (rng : nat -> Z) (draws : nat) : float :=
  F64.add delay (Random.uniform 0 2 (rng draws)).

(** The events of consecutive failed attempts that are each followed by a
    backoff. *)
Fixpoint backoff_events (delay : float) (rng : nat -> Z) (draws : nat)
    (attempts : list Z) : list event :=
  match attempts with
  | [] => []
  | attempt :: rest =>
      EvCall attempt
        :: EvPrint (retrying_line (sleep_time delay rng draws) attempt)
        :: EvSleep (sleep_time delay rng draws)
        :: backoff_events delay rng (S draws) rest
  end.

Section Invocations.
Context {St A Args : Type} (func : Args -> act St A) (args : Args).

(** The environment after [n] invocations of the operation, and the
    outcome of invocation number [n] (counting from 0). *)
Fixpoint env_after (n : nat) (e : St) : St :=
  match n with
  | O => e
  | S n' => env_after n' (snd (func args e))
  end.

Definition outcome_at (n : nat) (e : St) : outcome A :=
  fst (func args (env_after n e)).
End Invocations.

(** ** Reading the calls made to the collaborators *)

(** The calls one run of a facade's closure makes: the payload is built and,
    when that went through, the result is asked for. *)
Definition attempt_calls (kw_list : list string) (timeframe : option string)
    (geo : string) (retrieval : ext_call) (block : list ext_call) : Prop :=
  block = [CallBuildPayload kw_list timeframe geo]
  \/ block = [CallBuildPayload kw_list timeframe geo; retrieval].

Definition is_render (c : ext_call) : bool :=
  match c with
  | CallLine _ _ _ _ | CallChoropleth _ _ _ _ _ _ | CallUpdateLayout _ | CallShow => true
  | _ => false
  end.

Definition is_choropleth (c : ext_call) : bool :=
  match c with CallChoropleth _ _ _ _ _ _ => true | _ => false end.

(** The heap after [reset_index(inplace=True)] on the object at [data]. *)
Definition heap_after_reset (data : loc) (h : gmap loc DataFrame)
  : gmap loc DataFrame :=
  match h !! data with
  | Some d =>
      match reset_index d with
      | Ret d' => <[data := d']> h
      | Raise _ => h
      end
  | None => h
  end.

(** ** Reading a facade's result *)

(** What the provider answers to a time-series request: the payload is built
    and the table is asked for. *)
Definition provider_over_time {X} (pytrends : TrendReq X)
    (keywords : list string) (timeframe geo : string) : act X DataFrame :=
  bind (tr_build_payload pytrends keywords (Some timeframe) geo)
       (fun _ => tr_interest_over_time pytrends).

(** A deterministic collaborator: its answer does not depend on its state. *)
Definition deterministic {X A} (m : act X A) : Prop :=
  forall x x', fst (m x) = fst (m x').

(** The content of what a facade returned: the table behind the reference,
    [None], or the error. *)
Definition fetched {X} (o : outcome (option loc)) (e : env X)
  : outcome (option DataFrame) :=
  match o with
  | Ret (Some data) => Ret (e_heap e !! data)
  | Ret None => Ret None
  | Raise x => Raise x
  end.

(** ** Reading an error message *)

(** [needle in text]: the substring test of Python. *)
Fixpoint mentions (needle text : string) : bool :=
  String.prefix needle text
  || match text with
     | EmptyString => false
     | String _ rest => mentions needle rest
     end.

(** ** The allocator's invariant *)

(** No object lives at the next free location or beyond it, so that the
    reference [new_frame] hands out is one that no object had before. *)
Definition heap_ok {X} (e : env X) : Prop :=
  forall l : loc, e_next e <= l -> e_heap e !! l = None.

(** ** Reading binary64 numbers as integers

    The non-negative binary64 numbers are multiples of [2^-1074];
    [represents x v] says that [x] is the number of value [v * 2^-1074]:
    [+0.0], a normal number (53-bit mantissa) or a subnormal one (shorter
    mantissa at the lowest exponent). *)

Module Dyadic.
Local Open Scope Z_scope.

Definition scale : Z := 1074.

Inductive represents : float -> Z -> Prop :=
| represents_zero : represents (S754_zero false) 0
| represents_finite (m : positive) (e : Z) :
    Zpos (digits2_pos m) = 53 ->
    - scale <= e ->
    represents (S754_finite false m e) (Zpos m * 2 ^ (e + scale))
| represents_subnormal (m : positive) :
    Zpos (digits2_pos m) < 53 ->
    represents (S754_finite false m (- scale)) (Zpos m).

(** [V] is [X] rounded to 53 bits: [X] itself, or, with [2^t] the unit in
    the last place of the binade of [X], the multiple of [2^t] just below
    [X] or (when [X] is not a multiple) just above it. *)
Definition rounded (X V : Z) : Prop :=
  V = X
  \/ exists t, 0 <= t
       /\ 2 ^ 52 * 2 ^ t <= X < 2 ^ 53 * 2 ^ t
       /\ (V = X / 2 ^ t * 2 ^ t
           \/ (V = (X / 2 ^ t + 1) * 2 ^ t /\ X mod 2 ^ t <> 0)).

(** Where a remainder [rem] lies in a unit [2^i]: at zero, below the
    middle, at the middle, above it. *)
Definition location_of (rem unit : Z) : location :=
  if rem =? 0 then loc_Exact else loc_Inexact (2 * rem ?= unit).

(** The record after [i] right shifts of the mantissa [M]: the quotient,
    whether a non-zero bit was shifted out, and where the bits shifted out
    lie in the unit [2^i]. *)
Definition shifted (M i : Z) (mrs : shr_record) : Prop :=
  shr_m mrs = M / 2 ^ i
  /\ (shr_r mrs || shr_s mrs = negb (M mod 2 ^ i =? 0))
  /\ loc_of_shr_record mrs = location_of (M mod 2 ^ i) (2 ^ i).

(** The unit in the last place of the 53-bit numbers of the binade of [X],
    and [X] rounded to the nearest multiple of it, ties to even. *)
Definition ulp (X : Z) : Z := 2 ^ Z.max 0 (Z.log2 X - 52).

Definition nearest (X : Z) : Z := F64.round_half_even X (ulp X) * ulp X.
End Dyadic.

(** ** Reading a run made with the default parameters *)

(** A run [r] of a facade from [w] that stays within what [retries=3] and
    [delay=5] allow: a result or an error but not [None], one to three
    attempts, one sleep between two attempts, each sleep in [[5, 7]]. *)
Definition within_default_budget {St A} (w : world St)
    (r : outcome (option A) * world St) : Prop :=
  fst r <> Ret None
  /\ 1 <= calls_in (new_events w (snd r)) <= 3
  /\ sleeps_in (new_events w (snd r)) = calls_in (new_events w (snd r)) - 1
  /\ Forall (fun s => F64.leb (F64.of_int 5) s = true
                      /\ F64.leb s (F64.of_int 7) = true)
            (sleep_times (new_events w (snd r))).

(** The frame [reset_index] makes of [d] when the label for the old index is
    free: the old index in front of the columns, [0 .. n-1] as index. *)
Definition reset_frame (d : DataFrame) : DataFrame :=
  Frame None (range_index (length (df_index d)))
        ((index_label d, df_index d) :: df_cols d).

(** ** Test doubles

    Small operations and worlds on which the statements below are run. *)

Module Double.
(** An operation over a call counter that raises on its first [failures]
    invocations and returns its payload afterwards. *)
Definition flaky (failures : nat) (_ : unit) : act nat string :=
  fun count =>
    (if (count <? failures)%nat
     then Raise (Exn "ConnectionError" ("attempt " +:+ pretty count +:+ " failed"))
     else Ret "payload",
     S count).

(** An operation that raises on every invocation; the message tells the
    invocations apart. *)
Definition always_fails (_ : unit) : act nat string :=
  fun count =>
    (Raise (Exn "ConnectionError" ("attempt " +:+ pretty count +:+ " failed")),
     S count).

(** A world whose generator always draws [k]. *)
Definition world_drawing {St} (k : Z) (e : St) : world St :=
  World e (fun _ => k) 0 [].

(** Tables as the provider shapes them. *)
Definition trend_frame : DataFrame :=
  Frame (Some "date") [CStr "2024-11-24"; CStr "2024-12-01"]
        [("Holiday Sales", [CInt 62; CInt 100]);
         ("isPartial", [CBool false; CBool true])].

Definition region_frame : DataFrame :=
  Frame (Some "geoName") [CStr "Canada"; CStr "United States"]
        [("Holiday Sales", [CInt 40; CInt 100])].

Definition no_data : DataFrame := Frame None [] [].

(** A provider whose retrievals raise [failures] times and answer with
    fixed tables afterwards; its state counts the retrievals. *)
Definition retrieval {T} (failures : nat) (answer : T) : act nat T :=
  fun count =>
    (if (count <? failures)%nat
     then Raise (Exn "ResponseError" "The request failed: Google returned a response with code 429")
     else Ret answer,
     S count).

Definition fake_pytrends (failures : nat) (over_time by_region : DataFrame)
  : TrendReq nat :=
  {| tr_init := fun _ _ => ret tt;
     tr_build_payload := fun _ _ _ => ret tt;
     tr_interest_over_time := retrieval failures over_time;
     tr_interest_by_region := fun _ => retrieval failures by_region;
     tr_related_queries := retrieval failures [] |}.

(** A renderer that accepts every call. *)
Definition fake_plotly : Plotly nat := fun _ => ret tt.

(** An environment that holds the single frame [d], at location 0. *)
Definition env_holding (d : DataFrame) : env nat :=
  Env 0 {[ 0 := d ]} 1 [].

Definition fresh_env : env nat := Env 0 ∅ 0 [].

(** A regional table for the keyword "geoName": its index label is also the
    name of its column. *)
Definition clashing_frame : DataFrame :=
  Frame (Some "geoName") [CStr "Canada"; CStr "United States"]
        [("geoName", [CInt 40; CInt 100])].

(** A renderer whose chart constructors raise. *)
Definition no_chart : exn :=
  Exn "ValueError" "Value of 'color' is not the name of a column in 'data_frame'".

Definition failing_plotly : Plotly nat :=
  fun c =>
    match c with
    | CallLine _ _ _ _ | CallChoropleth _ _ _ _ _ _ => raise no_chart
    | _ => ret tt
    end.

(** A provider that refuses every payload. *)
Definition rate_limited : exn :=
  Exn "ResponseError" "The request failed: Google returned a response with code 429".

Definition down_pytrends : TrendReq nat :=
  {| tr_init := fun _ _ => ret tt;
     tr_build_payload := fun _ _ _ => raise rate_limited;
     tr_interest_over_time := retrieval 0 no_data;
     tr_interest_by_region := fun _ => retrieval 0 no_data;
     tr_related_queries := retrieval 0 [] |}.
End Double.

(** * Properties of the program *)

(** ** The model at work *)

Example format_2f_rounds_to_two_decimals :
  F64.format_2f (F64.of_int 7) = "7.00"
  /\ F64.format_2f (Random.uniform 0 2 (2 ^ 52 + 2 ^ 45)) = "1.01"
  /\ F64.format_2f (F64.add default_delay (Random.uniform 0 2 (2 ^ 53 - 1))) = "7.00".
Proof. vm_compute. auto. Qed.

(** The index of a time-series table becomes its first column; a second
    reset adds a column named "index". *)
Example reset_index_of_a_trend_table :
  reset_index Double.trend_frame
  = Ret (Frame None [CInt 0; CInt 1]
           [("date", [CStr "2024-11-24"; CStr "2024-12-01"]);
            ("Holiday Sales", [CInt 62; CInt 100]);
            ("isPartial", [CBool false; CBool true])])
  /\ bind (fun _ => (reset_index Double.trend_frame, tt))
          (fun d _ => (reset_index d, tt)) tt
     = (Ret (Frame None [CInt 0; CInt 1]
               [("index", [CInt 0; CInt 1]);
                ("date", [CStr "2024-11-24"; CStr "2024-12-01"]);
                ("Holiday Sales", [CInt 62; CInt 100]);
                ("isPartial", [CBool false; CBool true])]), tt).
Proof. vm_compute. auto. Qed.

(** Scenario A, with [D = 0] and a generator that draws [random() = 0.5]:
    three attempts, two sleeps of one second, the last error handed on. *)
Example scenario_A_run :
  let w := Double.world_drawing (2 ^ 52) 0 in
  let r := async_retry Double.always_fails 3 (F64.of_int 0) tt w in
  fst r = Raise (Exn "ConnectionError" "attempt 2 failed")
  /\ new_events w (snd r)
     = [EvCall 0; EvPrint "Retrying in 1.00s... (Attempt 1)"; EvSleep (F64.of_int 1);
        EvCall 1; EvPrint "Retrying in 1.00s... (Attempt 2)"; EvSleep (F64.of_int 1);
        EvCall 2; EvPrint "Max retries reached. Last error: attempt 2 failed"].
Proof. vm_compute. auto. Qed.

(** [main] against a provider whose first three retrievals fail: the first
    step gives up and reports, the second step fetches and plots. *)
Example main_with_a_failing_first_step :
  let w := Double.world_drawing (2 ^ 52) Double.fresh_env in
  let r := main (Double.fake_pytrends 3 Double.trend_frame Double.region_frame)
                Double.fake_plotly w in
  fst r = Ret tt
  /\ filter (fun ev => negb (is_sleep ev)) (w_trace (snd r))
     = [EvCall 0; EvPrint "Retrying in 6.00s... (Attempt 1)";
        EvCall 1; EvPrint "Retrying in 6.00s... (Attempt 2)";
        EvCall 2;
        EvPrint "Max retries reached. Last error: The request failed: Google returned a response with code 429";
        EvPrint "Failed to fetch interest over time: The request failed: Google returned a response with code 429";
        EvCall 0]
  /\ filter is_render (e_calls (w_env (snd r)))
     = [CallChoropleth
          (Frame None [CInt 0; CInt 1]
             [("geoName", [CStr "Canada"; CStr "United States"]);
              ("Holiday Sales", [CInt 40; CInt 100])])
          [CInt 0; CInt 1] "country names" "Holiday Sales"
          "Regional Interest in the US" Viridis;
        CallUpdateLayout (Geo false false); CallShow].
Proof. vm_compute. auto. Qed.

(** ** Binary64 arithmetic on the values the backoff works with *)

Section Binary64.
Local Open Scope Z_scope.
Import Dyadic.

(** *** Digits *)

Lemma digits2_pos_size (p : positive) : digits2_pos p = Pos.size p.
Proof. induction p; simpl; congruence. Qed.

Lemma digits_bounds (p : positive) :
  2 ^ (Zpos (digits2_pos p) - 1) <= Zpos p < 2 ^ Zpos (digits2_pos p).
Proof.
  rewrite digits2_pos_size. split.
  - pose proof (Pos.size_le p) as H.
    apply (Pos2Z.pos_le_pos) in H. rewrite Pos2Z.inj_pow in H.
    replace (Zpos (Pos.size p)) with (Zpos (Pos.size p) - 1 + 1) in H by lia.
    rewrite Z.pow_add_r in H by lia. lia.
  - pose proof (Pos.size_gt p) as H.
    apply (Pos2Z.pos_lt_pos) in H. by rewrite Pos2Z.inj_pow in H.
Qed.

Lemma digits_unique (p : positive) (k : Z) :
  2 ^ (k - 1) <= Zpos p < 2 ^ k -> Zpos (digits2_pos p) = k.
Proof.
  intros [Hlo Hhi]. pose proof (digits_bounds p) as [Hlo' Hhi'].
  assert (0 < k).
  { destruct (Z.lt_ge_cases 0 k); [done|].
    assert (2 ^ k <= 2 ^ 0) by (apply Z.pow_le_mono_r; lia). simpl in *. lia. }
  destruct (Z.lt_trichotomy (Zpos (digits2_pos p)) k) as [Hlt | [Heq | Hgt]];
    [|done|].
  - assert (2 ^ Zpos (digits2_pos p) <= 2 ^ (k - 1))
      by (apply Z.pow_le_mono_r; lia). lia.
  - assert (2 ^ k <= 2 ^ (Zpos (digits2_pos p) - 1))
      by (apply Z.pow_le_mono_r; lia). lia.
Qed.

(** *** Shifting a mantissa right *)

Lemma iter_pos_invariant {T : Type} (f : T -> T) (P : Z -> T -> Prop) :
  (forall i x, 0 <= i -> P i x -> P (i + 1) (f x)) ->
  forall (n : positive) (i : Z) (x : T),
    0 <= i -> P i x -> P (i + Zpos n) (SpecFloat.iter_pos f n x).
Proof.
  intros Hstep. induction n as [n IH | n IH |]; intros i x Hi HP; simpl.
  - replace (i + Zpos n~1) with (i + 1 + Zpos n + Zpos n) by lia.
    apply IH; [lia|]. apply IH; [lia|]. by apply Hstep.
  - replace (i + Zpos n~0) with (i + Zpos n + Zpos n) by lia.
    apply IH; [lia|]. by apply IH.
  - by apply Hstep.
Qed.

Lemma shr_1_spec (m : Z) (r s : bool) :
  0 <= m ->
  shr_1 (Build_shr_record m r s) = Build_shr_record (m / 2) (Z.odd m) (r || s).
Proof.
  intros Hm. destruct m as [|p|p]; [done| |lia].
  destruct p as [p|p|]; simpl; f_equal.
  - rewrite Pos2Z.inj_xI. apply Z.div_unique with (r := 1); lia.
  - rewrite Pos2Z.inj_xO. apply Z.div_unique with (r := 0); lia.
Qed.

Lemma shifted_step (M i : Z) (mrs : shr_record) :
  0 <= M -> 0 <= i -> shifted M i mrs -> shifted M (i + 1) (shr_1 mrs).
Proof.
  intros HM Hi (Hm & Hflags & _). destruct mrs as [m r s]. simpl in Hm, Hflags.
  assert (Hpow : 0 < 2 ^ i) by (apply Z.pow_pos_nonneg; lia).
  rewrite shr_1_spec by (subst m; apply Z.div_pos; lia).
  unfold shifted, location_of.
  rewrite Z.pow_add_r, Z.pow_1_r by lia.
  cbn [shr_m shr_r shr_s loc_of_shr_record].
  rewrite Hflags, Z.rem_mul_r by lia. subst m.
  rewrite (Zmod_odd (M / 2 ^ i)).
  pose proof (Z.mod_pos_bound M (2 ^ i) Hpow).
  split; [by rewrite Z.div_div by lia|].
  destruct (Z.odd (M / 2 ^ i));
    destruct (Z.eqb_spec (M mod 2 ^ i) 0);
    match goal with |- context [?a =? 0] => destruct (Z.eqb_spec a 0) end;
    simpl; try lia; (split; [reflexivity|]); f_equal; symmetry;
    first [apply Z.compare_eq_iff | apply Z.compare_lt_iff
          | apply Z.compare_gt_iff]; lia.
Qed.

Lemma shr_spec (M : positive) (E : Z) (n : positive) :
  exists mrs,
    shr (Build_shr_record (Zpos M) false false) E (Zpos n) = (mrs, E + Zpos n)
    /\ shifted (Zpos M) (Zpos n) mrs.
Proof.
  eexists. split; [reflexivity|].
  apply (iter_pos_invariant shr_1 (shifted (Zpos M))
           (fun i x Hi => shifted_step (Zpos M) i x ltac:(lia) Hi) n 0);
    [lia|].
  unfold location_of.
  repeat split; simpl; by rewrite ?Z.div_1_r, ?Z.mod_1_r.
Qed.

(** *** Rounding to 53 bits *)

Lemma fexp_normal (x : Z) : -1021 <= x -> fexp 53 1024 x = x - 53.
Proof. unfold fexp, emin. lia. Qed.

Lemma shr_fexp_spec (M : positive) (E : Z) :
  53 <= Zpos (digits2_pos M) ->
  -1021 <= Zpos (digits2_pos M) + E ->
  exists mrs,
    shr_fexp 53 1024 (Zpos M) E loc_Exact
    = (mrs, E + (Zpos (digits2_pos M) - 53))
    /\ shifted (Zpos M) (Zpos (digits2_pos M) - 53) mrs.
Proof.
  intros Hdg Hlo. unfold shr_fexp, Zdigits2.
  rewrite fexp_normal by lia.
  replace (Zpos (digits2_pos M) + E - 53 - E)
    with (Zpos (digits2_pos M) - 53) by lia.
  destruct (Zpos (digits2_pos M) - 53) as [|n|n] eqn:Hn; [|apply shr_spec|lia].
  eexists. split; [simpl; by rewrite Z.add_0_r|].
  unfold location_of.
  repeat split; simpl; by rewrite ?Z.div_1_r, ?Z.mod_1_r.
Qed.

Lemma round_nearest_even_spec (mrs : shr_record) :
  round_nearest_even (shr_m mrs) (loc_of_shr_record mrs) = shr_m mrs
  \/ (round_nearest_even (shr_m mrs) (loc_of_shr_record mrs) = shr_m mrs + 1
      /\ shr_r mrs || shr_s mrs = true).
Proof.
  destruct mrs as [m [] []]; simpl; auto.
  destruct (Z.even m); auto.
Qed.

(** Rounding the shifted mantissa is rounding [M / 2^n] to the nearest
    integer, ties to even. *)
Lemma round_nearest_even_exact (M n : Z) (mrs : shr_record) :
  0 <= n -> shifted M n mrs ->
  round_nearest_even (shr_m mrs) (loc_of_shr_record mrs)
  = F64.round_half_even M (2 ^ n).
Proof.
  intros Hn (Hq & _ & Hloc). rewrite Hloc, Hq.
  unfold location_of, F64.round_half_even.
  assert (Hpow : 0 < 2 ^ n) by (apply Z.pow_pos_nonneg; lia).
  destruct (Z.eqb_spec (M mod 2 ^ n) 0) as [Hz | Hnz].
  - rewrite Hz. cbn [round_nearest_even].
    by replace (2 * 0 ?= 2 ^ n) with Lt
      by (symmetry; apply Z.compare_lt_iff; lia).
  - cbn [round_nearest_even]. by destruct (2 * (M mod 2 ^ n) ?= 2 ^ n).
Qed.

(** [binary_round_aux] on a mantissa of at least 53 bits, away from the
    subnormal and the overflow range: the result has a 53-bit mantissa and
    is, in units of the last place kept, the quotient or (only when bits
    were lost) the quotient plus one. *)
Lemma binary_round_aux_spec (M : positive) (E : Z) :
  53 <= Zpos (digits2_pos M) ->
  -1021 <= Zpos (digits2_pos M) + E <= 1023 ->
  exists (m : positive) (e : Z),
    binary_round_aux 53 1024 false (Zpos M) E loc_Exact = S754_finite false m e
    /\ Zpos (digits2_pos m) = 53
    /\ E + (Zpos (digits2_pos M) - 53) <= e
    /\ (Zpos m * 2 ^ (e - (E + (Zpos (digits2_pos M) - 53)))
        = Zpos M / 2 ^ (Zpos (digits2_pos M) - 53)
        \/ (Zpos m * 2 ^ (e - (E + (Zpos (digits2_pos M) - 53)))
            = Zpos M / 2 ^ (Zpos (digits2_pos M) - 53) + 1
            /\ Zpos M mod 2 ^ (Zpos (digits2_pos M) - 53) <> 0))
    /\ Zpos m * 2 ^ (e - (E + (Zpos (digits2_pos M) - 53)))
       = F64.round_half_even (Zpos M) (2 ^ (Zpos (digits2_pos M) - 53)).
Proof.
  intros Hdg [Hlo Hhi].
  destruct (shr_fexp_spec M E Hdg Hlo) as (mrs & Hshr & Hshifted).
  pose proof (round_nearest_even_exact (Zpos M) (Zpos (digits2_pos M) - 53) mrs
                ltac:(lia) Hshifted) as Hexact.
  destruct Hshifted as (Hq & Hflags & _).
  unfold binary_round_aux. rewrite Hshr.
  set (n := Zpos (digits2_pos M) - 53) in *.
  pose proof (digits_bounds M) as [HMlo HMhi].
  assert (Hpow : 0 < 2 ^ n) by (apply Z.pow_pos_nonneg; lia).
  assert (Hqlo : 2 ^ 52 <= Zpos M / 2 ^ n).
  { apply Z.div_le_lower_bound; [lia|].
    rewrite <- Z.pow_add_r by lia.
    replace (n + 52) with (Zpos (digits2_pos M) - 1) by lia. done. }
  assert (Hqhi : Zpos M / 2 ^ n < 2 ^ 53).
  { apply Z.div_lt_upper_bound; [lia|].
    rewrite <- Z.pow_add_r by lia.
    replace (n + 53) with (Zpos (digits2_pos M)) by lia. done. }
  assert (Hround :
            round_nearest_even (shr_m mrs) (loc_of_shr_record mrs)
            = Zpos M / 2 ^ n
            \/ (round_nearest_even (shr_m mrs) (loc_of_shr_record mrs)
                = Zpos M / 2 ^ n + 1
                /\ Zpos M mod 2 ^ n <> 0)).
  { destruct (round_nearest_even_spec mrs) as [Hr | [Hr Hlost]];
      rewrite Hr, Hq; [by left|right].
    split; [done|]. rewrite Hflags in Hlost.
    by destruct (Z.eqb_spec (Zpos M mod 2 ^ n) 0). }
  set (r := round_nearest_even (shr_m mrs) (loc_of_shr_record mrs)) in *.
  assert (Hr : 2 ^ 52 <= r <= 2 ^ 53) by lia.
  destruct r as [|rp|rp] eqn:Hrp; [lia| |lia].
  destruct (Z.eq_dec (Zpos rp) (2 ^ 53)) as [Hcarry | Hcarry].
  - (* the rounding carried into the next binade *)
    assert (rp = 9007199254740992%positive) as ->
      by (change (2 ^ 53) with (Zpos 9007199254740992) in Hcarry; congruence).
    exists (Z.to_pos (2 ^ 52)), (E + n + 1).
    split; [|split; [reflexivity|split; [lia|]]].
    + unfold shr_fexp, Zdigits2.
      change (digits2_pos 9007199254740992) with 54%positive.
      rewrite fexp_normal by lia.
      replace (54 + (E + n) - 53 - (E + n)) with 1 by lia.
      simpl shr. cbn [shr_m].
      replace (E + n + 1 <=? 1024 - 53) with true; [done|].
      symmetry. apply Z.leb_le. lia.
    + replace (E + n + 1 - (E + n)) with 1 by lia.
      change (Zpos (Z.to_pos (2 ^ 52)) * 2 ^ 1) with (2 ^ 53).
      split; [lia|]. by rewrite <- Hexact.
  - (* the rounded mantissa still has 53 bits *)
    exists rp, (E + n).
    assert (Hdigits : Zpos (digits2_pos rp) = 53)
      by (apply digits_unique; change (53 - 1) with 52; lia).
    split; [|split; [done|split; [lia|]]].
    + unfold shr_fexp, Zdigits2. rewrite Hdigits.
      rewrite fexp_normal by lia.
      replace (53 + (E + n) - 53 - (E + n)) with 0 by lia.
      simpl shr. cbn [shr_m].
      replace (E + n <=? 1024 - 53) with true; [done|].
      symmetry. apply Z.leb_le. lia.
    + replace (E + n - (E + n)) with 0 by lia. rewrite Z.pow_0_r, Z.mul_1_r.
      split; [lia|exact Hexact].
Qed.

(** *** Working with [rounded] and [represents] *)

Lemma pow2_pos (t : Z) : 0 <= t -> 0 < 2 ^ t.
Proof. intros. apply Z.pow_pos_nonneg; lia. Qed.

Lemma pow2_split (a b : Z) : 0 <= b <= a -> 2 ^ a = 2 ^ (a - b) * 2 ^ b.
Proof. intros. rewrite <- Z.pow_add_r by lia. f_equal. lia. Qed.

Lemma represents_bounds (m : positive) (e : Z) :
  Zpos (digits2_pos m) = 53 -> - scale <= e ->
  2 ^ 52 * 2 ^ (e + scale) <= Zpos m * 2 ^ (e + scale)
                           < 2 * 2 ^ 52 * 2 ^ (e + scale).
Proof.
  intros Hdg He. pose proof (digits_bounds m) as [Hlo Hhi].
  rewrite Hdg in Hlo, Hhi. change (53 - 1) with 52 in Hlo.
  change (2 ^ 53) with (2 * 2 ^ 52) in Hhi.
  pose proof (pow2_pos (e + scale) ltac:(lia)).
  split.
  - apply Z.mul_le_mono_nonneg_r; lia.
  - apply Z.mul_lt_mono_pos_r; lia.
Qed.

Lemma represents_nonneg (x : float) (v : Z) : represents x v -> 0 <= v.
Proof.
  intros [|m e Hdg He|m Hdg]; [lia| |lia].
  pose proof (pow2_pos (e + scale) ltac:(lia)). lia.
Qed.

(** The two shapes of a represented number, seen as one: a mantissa below
    [2^53] that is at least [2^52] unless the exponent is the lowest. *)
Lemma represents_canonical (x : float) (v : Z) :
  represents x v ->
  (x = S754_zero false /\ v = 0)
  \/ exists m e,
       x = S754_finite false m e
       /\ v = Zpos m * 2 ^ (e + scale)
       /\ - scale <= e
       /\ Zpos m < 2 ^ 53
       /\ (e = - scale \/ 2 ^ 52 <= Zpos m).
Proof.
  intros [|m e Hdg He|m Hdg]; [by left|right..].
  - pose proof (digits_bounds m) as Hm. rewrite Hdg in Hm.
    change (53 - 1) with 52 in Hm.
    exists m, e. split; [done|]. split; [done|]. split; [done|].
    split; [lia|right; lia].
  - pose proof (digits_bounds m) as [_ Hm].
    assert (2 ^ Zpos (digits2_pos m) <= 2 ^ 52)
      by (apply Z.pow_le_mono_r; lia).
    assert (2 ^ 52 < 2 ^ 53) by done.
    exists m, (- scale). rewrite Z.add_opp_diag_l, Z.pow_0_r.
    split; [done|]. split; [lia|]. split; [lia|]. split; [lia|by left].
Qed.

(** The unit of a lower binade is at most half the unit of a higher one. *)
Lemma pow2_double (a b : Z) : 0 <= a < b -> 2 * 2 ^ a <= 2 ^ b.
Proof.
  intros. replace (2 * 2 ^ a) with (2 ^ (a + 1))
    by (rewrite Z.pow_add_r, Z.pow_1_r by lia; lia).
  apply Z.pow_le_mono_r; lia.
Qed.

(** A number with at most 53 significant bits is not changed. *)
Lemma rounded_exact (X V A s : Z) :
  rounded X V -> X = A * 2 ^ s -> 0 < A < 2 ^ 53 -> 0 <= s -> V = X.
Proof.
  intros [-> | (t & Ht & [Hlo Hhi] & HV)] HX HA Hs; [done|].
  pose proof (pow2_pos s Hs) as Hps. pose proof (pow2_pos t Ht) as Hpt.
  change (2 ^ 53) with (2 * 2 ^ 52) in *.
  assert (Hc : 0 < 2 ^ 52) by done.
  set (c := 2 ^ 52) in *. clearbody c.
  assert (Hts : t <= s).
  { destruct (Z.le_gt_cases t s) as [|Hgt]; [done|].
    pose proof (pow2_double s t ltac:(lia)).
    assert (A * 2 ^ s < c * (2 * 2 ^ s)) by nia.
    assert (c * (2 * 2 ^ s) <= c * 2 ^ t) by (apply Z.mul_le_mono_nonneg_l; lia).
    lia. }
  assert (Hdiv : X mod 2 ^ t = 0).
  { rewrite HX, (pow2_split s t) by lia.
    rewrite Z.mul_assoc. apply Z.mod_mul. lia. }
  destruct HV as [-> | [_ Hne]]; [|done].
  rewrite (Z.div_mod X (2 ^ t)) at 2 by lia. lia.
Qed.

(** *** Rounding to the nearest 53-bit number *)

Lemma round_half_even_scaled (M u c : Z) :
  0 < u -> 0 < c ->
  F64.round_half_even (M * c) (u * c) = F64.round_half_even M u.
Proof.
  intros Hu Hc. unfold F64.round_half_even.
  rewrite Z.div_mul_cancel_r, Z.mul_mod_distr_r by lia.
  replace (2 * (M mod u * c) ?= u * c) with (2 * (M mod u) ?= u); [done|].
  rewrite Z.mul_assoc. apply Zmult_compare_compat_r. lia.
Qed.

(** A mantissa of [53 + n] bits at the exponent [k]: the unit is [2^(n+k)]. *)
Lemma nearest_scaled (M n k : Z) :
  0 <= n -> 0 <= k ->
  2 ^ (52 + n) <= M < 2 ^ (53 + n) ->
  nearest (M * 2 ^ k) = F64.round_half_even M (2 ^ n) * 2 ^ (n + k).
Proof.
  intros Hn Hk [Hlo Hhi].
  pose proof (Z.pow_pos_nonneg 2 k ltac:(lia) Hk) as Hpk.
  pose proof (Z.pow_pos_nonneg 2 n ltac:(lia) Hn) as Hpn.
  pose proof (Z.pow_pos_nonneg 2 (52 + n) ltac:(lia) ltac:(lia)) as Hpl.
  assert (Hlog : Z.log2 (M * 2 ^ k) = 52 + n + k).
  { apply Z.log2_unique; [lia|]. split.
    - rewrite Z.pow_add_r by lia. apply Z.mul_le_mono_nonneg_r; lia.
    - replace (Z.succ (52 + n + k)) with (53 + n + k) by lia.
      rewrite Z.pow_add_r by lia. apply Z.mul_lt_mono_pos_r; lia. }
  unfold nearest, ulp. rewrite Hlog.
  replace (Z.max 0 (52 + n + k - 52)) with (n + k) by lia.
  rewrite (Z.pow_add_r 2 n k) by lia.
  by rewrite round_half_even_scaled by lia.
Qed.

Lemma round_half_even_unit (M : Z) : F64.round_half_even M 1 = M.
Proof.
  unfold F64.round_half_even. rewrite Z.div_1_r, Z.mod_1_r. done.
Qed.

(** *** The value of a rounded mantissa *)

Lemma binary_round_aux_value (M : positive) (E : Z) :
  53 <= Zpos (digits2_pos M) ->
  - scale <= E ->
  Zpos (digits2_pos M) + E <= 1023 ->
  exists V,
    represents (binary_round_aux 53 1024 false (Zpos M) E loc_Exact) V
    /\ rounded (Zpos M * 2 ^ (E + scale)) V
    /\ V = nearest (Zpos M * 2 ^ (E + scale)).
Proof.
  intros Hdg HE Hhi. unfold scale in *.
  destruct (binary_round_aux_spec M E Hdg ltac:(lia))
    as (m & e & -> & Hm & He & Hval & Hexact).
  set (n := Zpos (digits2_pos M) - 53) in *.
  pose proof (digits_bounds M) as [HMlo HMhi].
  pose proof (pow2_pos n ltac:(lia)) as Hpn.
  pose proof (pow2_pos (E + 1074) ltac:(lia)) as HpE.
  exists (Zpos m * 2 ^ (e + scale)). unfold scale.
  split; [apply represents_finite; unfold scale; lia|].
  split; cycle 1.
  { rewrite (nearest_scaled (Zpos M) n (E + 1074)); [|lia|lia|].
    - rewrite <- Hexact, <- Z.mul_assoc, <- Z.pow_add_r by lia.
      do 2 f_equal. lia.
    - replace (52 + n) with (Zpos (digits2_pos M) - 1) by lia.
      replace (53 + n) with (Zpos (digits2_pos M)) by lia. done. }
  right. exists (E + n + 1074). split; [lia|].
  assert (Hunit : 2 ^ (E + n + 1074) = 2 ^ n * 2 ^ (E + 1074))
    by (rewrite <- Z.pow_add_r by lia; f_equal; lia).
  split.
  - rewrite Hunit, !Z.mul_assoc. split.
    + apply Z.mul_le_mono_nonneg_r; [lia|].
      rewrite <- Z.pow_add_r by lia.
      replace (52 + n) with (Zpos (digits2_pos M) - 1) by lia. done.
    + apply Z.mul_lt_mono_pos_r; [lia|].
      rewrite <- Z.pow_add_r by lia.
      replace (53 + n) with (Zpos (digits2_pos M)) by lia. done.
  - replace (2 ^ (e + 1074)) with (2 ^ (e - (E + n)) * 2 ^ (E + n + 1074))
      by (rewrite <- Z.pow_add_r by lia; f_equal; lia).
    rewrite Z.mul_assoc.
    assert (Hdiv : (Zpos M * 2 ^ (E + 1074)) / 2 ^ (E + n + 1074) = Zpos M / 2 ^ n)
      by (rewrite Hunit; apply Z.div_mul_cancel_r; lia).
    assert (Hmod : (Zpos M * 2 ^ (E + 1074)) mod 2 ^ (E + n + 1074)
                   = Zpos M mod 2 ^ n * 2 ^ (E + 1074))
      by (rewrite Hunit; apply Z.mul_mod_distr_r; lia).
    rewrite Hdiv, Hmod.
    destruct Hval as [-> | [-> Hne]]; [by left|right].
    split; [done|lia].
Qed.

Lemma iter_xO (m d : positive) : Zpos (Pos.iter xO m d) = Zpos m * 2 ^ Zpos d.
Proof.
  induction d as [|d IH] using Pos.peano_ind.
  - simpl. lia.
  - rewrite Pos.iter_succ, Pos2Z.inj_xO, IH, Pos2Z.inj_succ, Z.pow_succ_r; lia.
Qed.

Lemma shl_align_spec (m : positive) (e e' : Z) :
  e' <= e ->
  exists m', shl_align m e e' = (m', e') /\ Zpos m' = Zpos m * 2 ^ (e - e').
Proof.
  intros Hle. unfold shl_align.
  destruct (e' - e) as [|d|d] eqn:Hd; [|lia|].
  - exists m. assert (e = e') as -> by lia.
    rewrite Z.sub_diag, Z.pow_0_r. split; [done|lia].
  - eexists. split; [done|].
    rewrite iter_xO. f_equal. f_equal. lia.
Qed.

(** [binary_round] away from the subnormal and the overflow range. *)
Lemma binary_round_value (M : positive) (E : Z) :
  - scale <= E ->
  - scale <= E + Zpos (digits2_pos M) - 53 ->
  Zpos (digits2_pos M) + E <= 1023 ->
  exists V,
    represents (binary_round 53 1024 false M E) V
    /\ rounded (Zpos M * 2 ^ (E + scale)) V
    /\ V = nearest (Zpos M * 2 ^ (E + scale)).
Proof.
  intros HE He Hhi. unfold scale in *. unfold binary_round.
  rewrite fexp_normal by lia.
  pose proof (digits_bounds M) as [HMlo HMhi].
  destruct (Z.le_gt_cases 53 (Zpos (digits2_pos M))) as [Hdg | Hdg].
  - (* nothing to shift in *)
    assert (Hsame : shl_align M E (Zpos (digits2_pos M) + E - 53) = (M, E)).
    { unfold shl_align.
      by destruct (Zpos (digits2_pos M) + E - 53 - E) eqn:Hd; [| |lia]. }
    rewrite Hsame. by apply binary_round_aux_value.
  - (* the mantissa is shifted left to 53 bits: nothing is lost *)
    destruct (shl_align_spec M E (Zpos (digits2_pos M) + E - 53) ltac:(lia))
      as (M' & -> & HM').
    replace (E - (Zpos (digits2_pos M) + E - 53))
      with (53 - Zpos (digits2_pos M)) in HM' by lia.
    set (k := 53 - Zpos (digits2_pos M)) in *.
    pose proof (pow2_pos k ltac:(lia)) as Hpk.
    assert (HdgM' : Zpos (digits2_pos M') = 53).
    { apply digits_unique. rewrite HM'. change (53 - 1) with 52. split.
      - rewrite (pow2_split 52 k) by lia.
        replace (52 - k) with (Zpos (digits2_pos M) - 1) by lia.
        apply Z.mul_le_mono_nonneg_r; lia.
      - rewrite (pow2_split 53 k) by lia.
        replace (53 - k) with (Zpos (digits2_pos M)) by lia.
        apply Z.mul_lt_mono_pos_r; lia. }
    destruct (binary_round_aux_value M' (Zpos (digits2_pos M) + E - 53))
      as (V & Hrep & Hround & Hnear); unfold scale; [lia..|].
    exists V. split; [done|].
    replace (Zpos M * 2 ^ (E + 1074))
      with (Zpos M' * 2 ^ (Zpos (digits2_pos M) + E - 53 + scale)); [done|].
    unfold scale. rewrite HM', <- Z.mul_assoc, <- Z.pow_add_r by lia.
    do 2 f_equal. lia.
Qed.

(** *** Comparison *)

Lemma compare_finite (mx my : positive) (ex ey : Z) :
  - scale <= ex -> - scale <= ey ->
  Zpos mx < 2 ^ 53 -> Zpos my < 2 ^ 53 ->
  ex = - scale \/ 2 ^ 52 <= Zpos mx ->
  ey = - scale \/ 2 ^ 52 <= Zpos my ->
  SFcompare (S754_finite false mx ex) (S754_finite false my ey)
  = Some (Zpos mx * 2 ^ (ex + scale) ?= Zpos my * 2 ^ (ey + scale)).
Proof.
  intros Hex Hey Hmx Hmy Hnx Hny. cbn [SFcompare].
  change (2 ^ 53) with (2 * 2 ^ 52) in *.
  assert (Hc : 0 < 2 ^ 52) by done.
  set (c := 2 ^ 52) in *. clearbody c.
  pose proof (pow2_pos (ex + scale) ltac:(lia)) as Hpx.
  pose proof (pow2_pos (ey + scale) ltac:(lia)) as Hpy.
  f_equal. symmetry.
  destruct (Z.compare_spec ex ey) as [-> | Hlt | Hgt].
  - rewrite <- Zmult_compare_compat_r by lia. done.
  - apply Z.compare_lt_iff.
    pose proof (pow2_double (ex + scale) (ey + scale) ltac:(lia)).
    assert (c * (2 * 2 ^ (ex + scale)) <= c * 2 ^ (ey + scale))
      by (apply Z.mul_le_mono_nonneg_l; lia).
    assert (Zpos mx * 2 ^ (ex + scale) < 2 * c * 2 ^ (ex + scale))
      by (apply Z.mul_lt_mono_pos_r; lia).
    assert (c * 2 ^ (ey + scale) <= Zpos my * 2 ^ (ey + scale))
      by (apply Z.mul_le_mono_nonneg_r; lia).
    lia.
  - apply Z.compare_gt_iff.
    pose proof (pow2_double (ey + scale) (ex + scale) ltac:(lia)).
    assert (c * (2 * 2 ^ (ey + scale)) <= c * 2 ^ (ex + scale))
      by (apply Z.mul_le_mono_nonneg_l; lia).
    assert (Zpos my * 2 ^ (ey + scale) < 2 * c * 2 ^ (ey + scale))
      by (apply Z.mul_lt_mono_pos_r; lia).
    assert (c * 2 ^ (ex + scale) <= Zpos mx * 2 ^ (ex + scale))
      by (apply Z.mul_le_mono_nonneg_r; lia).
    lia.
Qed.

Lemma compare_represented (x y : float) (vx vy : Z) :
  represents x vx -> represents y vy -> SFcompare x y = Some (vx ?= vy).
Proof.
  intros Hx Hy.
  destruct (represents_canonical x vx Hx)
    as [[-> ->] | (mx & ex & -> & -> & Hex & Hmx & Hnx)];
    destruct (represents_canonical y vy Hy)
      as [[-> ->] | (my & ey & -> & -> & Hey & Hmy & Hny)].
  - done.
  - pose proof (pow2_pos (ey + scale) ltac:(lia)). cbn [SFcompare].
    symmetry. f_equal. apply Z.compare_lt_iff. lia.
  - pose proof (pow2_pos (ex + scale) ltac:(lia)). cbn [SFcompare].
    symmetry. f_equal. apply Z.compare_gt_iff. lia.
  - by apply compare_finite.
Qed.

Lemma leb_represented (x y : float) (vx vy : Z) :
  represents x vx -> represents y vy -> vx <= vy -> F64.leb x y = true.
Proof.
  intros Hx Hy Hle. unfold F64.leb, SFleb.
  rewrite (compare_represented x y vx vy Hx Hy).
  destruct (Z.compare_spec vx vy); [done..|lia].
Qed.

Lemma ltb_represented (x y : float) (vx vy : Z) :
  represents x vx -> represents y vy -> F64.ltb x y = (vx <? vy).
Proof.
  intros Hx Hy. unfold F64.ltb, SFltb.
  rewrite (compare_represented x y vx vy Hx Hy). unfold Z.ltb.
  by destruct (vx ?= vy).
Qed.

Lemma represents_eq (x : float) (v v' : Z) :
  represents x v -> v = v' -> represents x v'.
Proof. by intros H <-. Qed.

(** *** The numbers of the program *)

Lemma digits_at_most (p : positive) (k : Z) :
  Zpos p < 2 ^ k -> Zpos (digits2_pos p) <= k.
Proof.
  intros Hlt. pose proof (digits_bounds p) as [Hlo _].
  destruct (Z.le_gt_cases (Zpos (digits2_pos p)) k) as [|Hgt]; [done|].
  assert (2 ^ k <= 2 ^ (Zpos (digits2_pos p) - 1))
    by (apply Z.pow_le_mono_r; lia).
  lia.
Qed.

(** [float(z)] is exact for [0 <= z <= 2^53]. *)
Lemma of_int_represents (z : Z) :
  0 <= z <= 2 ^ 53 -> represents (F64.of_int z) (z * 2 ^ scale).
Proof.
  intros [Hlo Hhi]. destruct z as [|p|p]; [apply represents_zero| |lia].
  unfold F64.of_int, binary_normalize, F64.prec, F64.emax.
  assert (Hdg : Zpos (digits2_pos p) <= 54)
    by (apply digits_at_most; change (2 ^ 54) with (2 * 2 ^ 53); lia).
  destruct (binary_round_value p 0) as (V & Hrep & Hround & Hnear);
    unfold scale; [lia..|].
  apply (represents_eq _ V); [done|]. unfold scale in *. simpl (0 + 1074) in *.
  destruct (Z.eq_dec (Zpos p) (2 ^ 53)) as [Heq | Hne].
  - apply (rounded_exact _ V (2 ^ 52) 1075 Hround); [|done|lia].
    rewrite Heq. done.
  - apply (rounded_exact _ V (Zpos p) 1074 Hround); [done|lia|lia].
Qed.

(** [random()] is [k * 2^-53] for the 53-bit [k] drawn. *)
Lemma random_represents (k : Z) :
  represents (Random.random k) (k mod 2 ^ 53 * 2 ^ (scale - 53)).
Proof.
  unfold Random.random, F64.prec, F64.emax.
  pose proof (Z.mod_pos_bound k (2 ^ 53) ltac:(done)) as [Hlo Hhi].
  destruct (k mod 2 ^ 53) as [|p|p]; [apply represents_zero| |lia].
  pose proof (digits_at_most p 53 Hhi) as Hdg.
  unfold binary_normalize.
  destruct (binary_round_value p (-53)) as (V & Hrep & Hround & Hnear);
    unfold scale; [lia..|].
  apply (represents_eq _ V); [done|]. unfold scale in *.
  simpl (-53 + 1074) in *. simpl (1074 - 53).
  apply (rounded_exact _ V (Zpos p) 1021 Hround); [done|lia|lia].
Qed.

(** Doubling a number of [[2^-53, 1)] is exact. *)
Lemma mul_two_represents (u : float) (v : Z) :
  represents u v ->
  v = 0 \/ 2 ^ (scale - 53) <= v ->
  v < 2 ^ scale ->
  represents (F64.mul (F64.of_int 2) u) (2 * v).
Proof.
  intros Hu Hlow Hone.
  change (F64.of_int 2) with (S754_finite false 4503599627370496 (-51)).
  destruct Hu as [|mu eu Hdg Heu|mu Hdg]; [apply represents_zero| |].
  2: { exfalso. pose proof (digits_bounds mu) as [_ Hmu].
       assert (2 ^ Zpos (digits2_pos mu) <= 2 ^ 52)
         by (apply Z.pow_le_mono_r; lia).
       assert (2 ^ 52 < 2 ^ (scale - 53)) by done.
       lia. }
  unfold scale in *.
  pose proof (represents_bounds mu eu Hdg ltac:(unfold scale; lia)) as [Hvlo Hvhi].
  unfold scale in *.
  pose proof (pow2_pos (eu + 1074) ltac:(lia)) as Hp.
  destruct Hlow as [Hzero | Hlow]; [lia|].
  assert (Heu_hi : eu < 0).
  { destruct (Z.lt_ge_cases eu 0) as [|Hge]; [done|].
    assert (2 ^ 1074 <= 2 ^ (eu + 1074)) by (apply Z.pow_le_mono_r; lia).
    assert (1 * 2 ^ (eu + 1074) <= 2 ^ 52 * 2 ^ (eu + 1074))
      by (apply Z.mul_le_mono_nonneg_r; lia).
    lia. }
  assert (Heu_lo : -106 < eu).
  { destruct (Z.lt_ge_cases (-106) eu) as [|Hge]; [done|].
    assert (2 ^ (eu + 1074) <= 2 ^ 968) by (apply Z.pow_le_mono_r; lia).
    assert (2 * 2 ^ 52 * 2 ^ (eu + 1074) <= 2 * 2 ^ 52 * 2 ^ 968)
      by (apply Z.mul_le_mono_nonneg_l; lia).
    change (2 * 2 ^ 52 * 2 ^ 968) with (2 ^ (1074 - 53)) in *. lia. }
  unfold F64.mul, SFmul, F64.prec, F64.emax. cbn [xorb].
  pose proof (digits_bounds mu) as [Hmlo Hmhi]. rewrite Hdg in Hmlo, Hmhi.
  change (53 - 1) with 52 in Hmlo.
  assert (HdgM : Zpos (digits2_pos (4503599627370496 * mu)) = 105).
  { apply digits_unique. rewrite Pos2Z.inj_mul.
    change (Zpos 4503599627370496) with (2 ^ 52).
    change (2 ^ (105 - 1)) with (2 ^ 52 * 2 ^ 52).
    change (2 ^ 105) with (2 ^ 52 * 2 ^ 53). split.
    - apply Z.mul_le_mono_nonneg_l; lia.
    - apply Z.mul_lt_mono_pos_l; lia. }
  destruct (binary_round_aux_value (4503599627370496 * mu) (-51 + eu))
    as (V & Hrep & Hround & Hnear); unfold scale; [lia..|].
  apply (represents_eq _ V); [done|].
  assert (Hvalue : Zpos (4503599627370496 * mu) * 2 ^ (-51 + eu + 1074)
                   = Zpos mu * 2 ^ (eu + 1075)).
  { rewrite Pos2Z.inj_mul. change (Zpos 4503599627370496) with (2 ^ 52).
    rewrite (Z.mul_comm (2 ^ 52)), <- Z.mul_assoc, <- Z.pow_add_r by lia.
    do 2 f_equal. lia. }
  unfold scale in Hround. rewrite Hvalue in Hround.
  rewrite (rounded_exact _ V (Zpos mu) (eu + 1075) Hround); [|done|lia|lia].
  replace (eu + 1075) with (eu + 1074 + 1) by lia.
  rewrite Z.pow_add_r, Z.pow_1_r by lia. lia.
Qed.

Lemma add_zero_l (y : float) (v : Z) :
  represents y v -> F64.add (S754_zero false) y = y.
Proof. by intros []. Qed.

(** The jitter [random.uniform(0, 2)] is [k * 2^-52] for the [k] drawn. *)
Lemma uniform_represents (k : Z) :
  represents (Random.uniform 0 2 k) (k mod 2 ^ 53 * 2 ^ (scale - 52)).
Proof.
  unfold Random.uniform.
  change (F64.of_int 0) with (S754_zero false). change (2 - 0) with 2.
  pose proof (Z.mod_pos_bound k (2 ^ 53) ltac:(done)) as [Hlo Hhi].
  assert (Hdouble : represents (F64.mul (F64.of_int 2) (Random.random k))
                      (k mod 2 ^ 53 * 2 ^ (scale - 52))).
  { apply (represents_eq _ (2 * (k mod 2 ^ 53 * 2 ^ (scale - 53)))).
    - apply mul_two_represents; [apply random_represents|..]; unfold scale.
      + change (1074 - 53) with 1021.
        pose proof (pow2_pos 1021 ltac:(lia)).
        destruct (Z.eq_dec (k mod 2 ^ 53) 0) as [-> | Hne]; [by left|right].
        assert (1 * 2 ^ 1021 <= k mod 2 ^ 53 * 2 ^ 1021)
          by (apply Z.mul_le_mono_nonneg_r; lia).
        lia.
      + change (2 ^ 1074) with (2 ^ 53 * 2 ^ (1074 - 53)).
        apply Z.mul_lt_mono_pos_r; [done|lia].
    - unfold scale. change (2 ^ (1074 - 52)) with (2 * 2 ^ (1074 - 53)). lia. }
  by rewrite (add_zero_l _ _ Hdouble).
Qed.

(** A binary64 number is its own nearest number. *)
Lemma nearest_represented (x : float) (v : Z) : represents x v -> nearest v = v.
Proof.
  intros [|m e Hdg He|m Hdg]; [done| |].
  - pose proof (digits_bounds m) as Hm. rewrite Hdg in Hm.
    rewrite (nearest_scaled (Zpos m) 0 (e + scale)); [|lia|lia|done].
    by rewrite Z.pow_0_r, round_half_even_unit.
  - pose proof (digits_bounds m) as [_ Hm].
    assert (2 ^ Zpos (digits2_pos m) <= 2 ^ 52)
      by (apply Z.pow_le_mono_r; lia).
    assert (Hlog : Z.log2 (Zpos m) < 52) by (apply Z.log2_lt_pow2; lia).
    unfold nearest, ulp.
    replace (Z.max 0 (Z.log2 (Zpos m) - 52)) with 0 by lia.
    rewrite Z.pow_0_r, round_half_even_unit. lia.
Qed.

(** Rounding to a multiple of [u] is monotone. *)
Lemma round_half_even_mono (X Y u : Z) :
  0 < u -> X <= Y -> F64.round_half_even X u <= F64.round_half_even Y u.
Proof.
  intros Hu Hle. unfold F64.round_half_even.
  pose proof (Z.div_mod X u ltac:(lia)) as HX.
  pose proof (Z.div_mod Y u ltac:(lia)) as HY.
  pose proof (Z.mod_pos_bound X u Hu) as HrX.
  pose proof (Z.mod_pos_bound Y u Hu) as HrY.
  pose proof (Z.div_le_mono X Y u Hu Hle) as Hq.
  destruct (Z.eq_dec (X / u) (Y / u)) as [Heq | Hne].
  - rewrite <- Heq in *.
    assert (Hr : X mod u <= Y mod u) by lia.
    destruct (Z.compare_spec (2 * (X mod u)) u);
      destruct (Z.compare_spec (2 * (Y mod u)) u);
      destruct (Z.even (X / u)); lia.
  - destruct (Z.compare_spec (2 * (X mod u)) u);
      destruct (Z.compare_spec (2 * (Y mod u)) u);
      destruct (Z.even (X / u)); destruct (Z.even (Y / u)); lia.
Qed.

(** The nearest number lies in the binade of the number rounded. *)
Lemma nearest_in_binade (X : Z) :
  0 < X -> 2 ^ Z.log2 X <= nearest X <= 2 ^ (Z.log2 X + 1).
Proof.
  intros HX. pose proof (Z.log2_spec X HX) as [Hlo Hhi].
  pose proof (Z.log2_nonneg X) as Hl.
  replace (Z.succ (Z.log2 X)) with (Z.log2 X + 1) in Hhi by lia.
  unfold nearest, ulp. set (t := Z.max 0 (Z.log2 X - 52)).
  assert (Ht : 0 <= t <= Z.log2 X) by lia.
  pose proof (pow2_pos t ltac:(lia)) as Hpt.
  assert (Hbot : 2 ^ Z.log2 X = 2 ^ (Z.log2 X - t) * 2 ^ t)
    by (apply pow2_split; lia).
  assert (Htop : 2 ^ (Z.log2 X + 1) = 2 ^ (Z.log2 X + 1 - t) * 2 ^ t)
    by (apply pow2_split; lia).
  assert (Hexact : forall a, F64.round_half_even (a * 2 ^ t) (2 ^ t) = a).
  { intros a. unfold F64.round_half_even.
    rewrite Z.div_mul, Z.mod_mul by lia.
    by replace (2 * 0 ?= 2 ^ t) with Lt
      by (symmetry; apply Z.compare_lt_iff; lia). }
  split.
  - rewrite Hbot. apply Z.mul_le_mono_nonneg_r; [lia|].
    rewrite <- (Hexact (2 ^ (Z.log2 X - t))).
    apply round_half_even_mono; lia.
  - rewrite Htop. apply Z.mul_le_mono_nonneg_r; [lia|].
    rewrite <- (Hexact (2 ^ (Z.log2 X + 1 - t))).
    apply round_half_even_mono; lia.
Qed.

(** Rounding to the nearest binary64 number is monotone. *)
Lemma nearest_mono (X Y : Z) : 0 <= X <= Y -> nearest X <= nearest Y.
Proof.
  intros [HX Hle].
  destruct (Z.eq_dec X 0) as [-> | HX0].
  { change (nearest 0) with 0.
    destruct (Z.eq_dec Y 0) as [-> | HY0]; [done|].
    pose proof (nearest_in_binade Y ltac:(lia)) as [Hlo _].
    pose proof (pow2_pos (Z.log2 Y) (Z.log2_nonneg Y)). lia. }
  pose proof (Z.log2_le_mono X Y Hle) as Hlog.
  destruct (Z.eq_dec (Z.log2 X) (Z.log2 Y)) as [Heq | Hne].
  - unfold nearest, ulp. rewrite Heq.
    set (t := Z.max 0 (Z.log2 Y - 52)).
    pose proof (pow2_pos t ltac:(lia)) as Hpt.
    apply Z.mul_le_mono_nonneg_r; [lia|].
    apply round_half_even_mono; lia.
  - pose proof (nearest_in_binade X ltac:(lia)) as [_ Hhi].
    pose proof (nearest_in_binade Y ltac:(lia)) as [Hlo _].
    assert (2 ^ (Z.log2 X + 1) <= 2 ^ Z.log2 Y)
      by (apply Z.pow_le_mono_r; lia).
    lia.
Qed.

(** The sum of two represented numbers is their exact sum, rounded to the
    nearest binary64 number, when that sum is zero, one of the two, or in
    the normal range. *)
Lemma add_represents (x y : float) (vx vy : Z) :
  represents x vx -> represents y vy ->
  vx = 0 \/ vy = 0 \/ 2 ^ 52 <= vx + vy ->
  vx + vy < 2 ^ (1023 + scale) ->
  represents (F64.add x y) (nearest (vx + vy)).
Proof.
  intros Hx Hy Hnormal Hmax.
  pose proof (nearest_represented x vx Hx) as Hnx.
  pose proof (nearest_represented y vy Hy) as Hny.
  destruct (represents_canonical x vx Hx)
    as [[-> ->] | (mx & ex & -> & Hvx & Hex & Hmx & _)].
  { rewrite (add_zero_l y vy Hy), Z.add_0_l, Hny. exact Hy. }
  destruct (represents_canonical y vy Hy)
    as [[-> ->] | (my & ey & -> & Hvy & Hey & Hmy & _)].
  { rewrite Z.add_0_r, Hnx. exact Hx. }
  pose proof (pow2_pos (ex + scale) ltac:(lia)) as Hpvx.
  pose proof (pow2_pos (ey + scale) ltac:(lia)) as Hpvy.
  assert (Hsum_lo : 2 ^ 52 <= vx + vy) by (subst vx vy; lia).
  clear Hnormal Hnx Hny Hx Hy.
  unfold F64.add, SFadd, F64.prec, F64.emax. cbn [cond_Zopp].
  set (ez := Z.min ex ey).
  destruct (shl_align_spec mx ex ez ltac:(lia)) as (mx' & -> & Hmx').
  destruct (shl_align_spec my ey ez ltac:(lia)) as (my' & -> & Hmy').
  cbn [fst]. change (Zpos mx' + Zpos my') with (Zpos (mx' + my')).
  unfold binary_normalize. unfold scale in *.
  pose proof (pow2_pos (ez + 1074) ltac:(lia)) as Hpz.
  assert (Hsum : Zpos (mx' + my') * 2 ^ (ez + 1074) = vx + vy).
  { rewrite Hvx, Hvy, Pos2Z.inj_add, Hmx', Hmy', Z.mul_add_distr_r.
    rewrite <- !Z.mul_assoc, <- !Z.pow_add_r by lia.
    by replace (ex - ez + (ez + 1074)) with (ex + 1074) by lia;
       replace (ey - ez + (ez + 1074)) with (ey + 1074) by lia. }
  pose proof (digits_bounds (mx' + my')) as [Hlo Hhi].
  set (dg := Zpos (digits2_pos (mx' + my'))) in *.
  assert (Hdg_pos : 0 < dg) by done.
  assert (Hdg_lo : -1074 <= ez + dg - 53).
  { destruct (Z.le_gt_cases 53 (ez + dg + 1074)) as [|Hgt]; [lia|].
    assert (Zpos (mx' + my') * 2 ^ (ez + 1074) < 2 ^ dg * 2 ^ (ez + 1074))
      by (apply Z.mul_lt_mono_pos_r; lia).
    assert (2 ^ dg * 2 ^ (ez + 1074) <= 2 ^ 52).
    { rewrite <- Z.pow_add_r by lia. apply Z.pow_le_mono_r; lia. }
    lia. }
  assert (Hdg_hi : dg + ez <= 1023).
  { destruct (Z.le_gt_cases (dg + ez) 1023) as [|Hgt]; [done|].
    assert (2 ^ (1023 + 1074) <= 2 ^ (dg - 1) * 2 ^ (ez + 1074)).
    { rewrite <- Z.pow_add_r by lia. apply Z.pow_le_mono_r; lia. }
    assert (2 ^ (dg - 1) * 2 ^ (ez + 1074)
            <= Zpos (mx' + my') * 2 ^ (ez + 1074))
      by (apply Z.mul_le_mono_nonneg_r; lia).
    lia. }
  destruct (binary_round_value (mx' + my') ez) as (V & Hrep & _ & Hnear);
    unfold scale; try (fold dg; lia).
  unfold scale in Hnear. rewrite Hsum in Hnear. by rewrite <- Hnear.
Qed.

(** *** The jitter and the sleep *)

Lemma jitter_in_range (k : Z) :
  F64.leb (F64.of_int 0) (Random.uniform 0 2 k) = true
  /\ F64.ltb (Random.uniform 0 2 k) (F64.of_int 2) = true.
Proof.
  pose proof (uniform_represents k) as Hj.
  pose proof (Z.mod_pos_bound k (2 ^ 53) ltac:(done)) as [Hlo Hhi].
  pose proof (pow2_pos (scale - 52) ltac:(done)) as Hp.
  split.
  - apply (leb_represented _ _ 0 _ (of_int_represents 0 ltac:(done)) Hj).
    apply Z.mul_nonneg_nonneg; lia.
  - rewrite (ltb_represented _ _ _ _ Hj (of_int_represents 2 ltac:(done))).
    apply Z.ltb_lt. unfold scale.
    change (2 * 2 ^ 1074) with (2 ^ 53 * 2 ^ (1074 - 52)).
    apply Z.mul_lt_mono_pos_r; [done|lia].
Qed.

(** Facts about the jitter as an integer. *)
Lemma jitter_value (k : Z) :
  let vj := k mod 2 ^ 53 * 2 ^ (scale - 52) in
  0 <= vj < 2 * 2 ^ scale /\ (vj = 0 \/ 2 ^ 52 <= vj).
Proof.
  intros vj. subst vj.
  pose proof (Z.mod_pos_bound k (2 ^ 53) ltac:(done)) as [Hklo Hkhi].
  assert (Hp : 0 < 2 ^ (scale - 52)) by done.
  split; [split|].
  - apply Z.mul_nonneg_nonneg; lia.
  - unfold scale. change (2 * 2 ^ 1074) with (2 ^ 53 * 2 ^ (1074 - 52)).
    apply Z.mul_lt_mono_pos_r; [done|lia].
  - destruct (Z.eq_dec (k mod 2 ^ 53) 0) as [-> | Hne]; [by left|right].
    assert (1 * 2 ^ (scale - 52) <= k mod 2 ^ 53 * 2 ^ (scale - 52))
      by (apply Z.mul_le_mono_nonneg_r; lia).
    assert (2 ^ 52 <= 2 ^ (scale - 52)) by done.
    lia.
Qed.

(** The sleep for a represented delay [D] whose sum with 2 stays below
    [2^1023]: it lies between [D] and the binary64 sum [D + 2]. *)
Lemma sleep_between (D : float) (v k : Z) :
  represents D v ->
  v + 2 * 2 ^ scale < 2 ^ (1023 + scale) ->
  F64.leb D (F64.add D (Random.uniform 0 2 k)) = true
  /\ F64.leb (F64.add D (Random.uniform 0 2 k)) (F64.add D (F64.of_int 2))
     = true.
Proof.
  intros HD Hmax.
  pose proof (uniform_represents k) as Hj.
  pose proof (jitter_value k) as [[Hjlo Hjhi] Hjn]. cbn zeta in *.
  set (vj := k mod 2 ^ 53 * 2 ^ (scale - 52)) in *.
  pose proof (of_int_represents 2 ltac:(done)) as H2.
  pose proof (represents_nonneg D v HD) as Hv.
  assert (Hps : 0 < 2 ^ scale) by done.
  assert (H52 : 2 ^ 52 <= 2 * 2 ^ scale) by done.
  pose proof (add_represents D _ v vj HD Hj ltac:(lia) ltac:(lia)) as Hs.
  pose proof (add_represents D _ v (2 * 2 ^ scale) HD H2 ltac:(lia) ltac:(lia))
    as Hs2.
  split.
  - apply (leb_represented _ _ _ _ HD Hs).
    rewrite <- (nearest_represented D v HD) at 1. apply nearest_mono. lia.
  - apply (leb_represented _ _ _ _ Hs Hs2). apply nearest_mono. lia.
Qed.

Lemma sleep_in_closed_range (d k : Z) :
  0 <= d <= 2 ^ 53 - 2 ->
  F64.leb (F64.of_int d) (F64.add (F64.of_int d) (Random.uniform 0 2 k)) = true
  /\ F64.leb (F64.add (F64.of_int d) (Random.uniform 0 2 k)) (F64.of_int (d + 2))
     = true.
Proof.
  intros [Hdlo Hdhi].
  pose proof (of_int_represents d ltac:(lia)) as HD.
  pose proof (of_int_represents (d + 2) ltac:(lia)) as HD2.
  pose proof (uniform_represents k) as Hj.
  pose proof (jitter_value k) as [[Hjlo Hjhi] Hjn]. cbn zeta in *.
  set (vj := k mod 2 ^ 53 * 2 ^ (scale - 52)) in *.
  assert (Hps : 0 < 2 ^ scale) by done.
  assert (Hbound : (d + 2) * 2 ^ scale < 2 ^ (1023 + scale)).
  { assert ((d + 2) * 2 ^ scale <= 2 ^ 53 * 2 ^ scale)
      by (apply Z.mul_le_mono_nonneg_r; lia).
    assert (2 ^ 53 * 2 ^ scale < 2 ^ (1023 + scale)) by done.
    lia. }
  pose proof (add_represents _ _ _ vj HD Hj ltac:(lia) ltac:(lia)) as Hs.
  split.
  - apply (leb_represented _ _ _ _ HD Hs).
    rewrite <- (nearest_represented _ _ HD) at 1. apply nearest_mono.
    pose proof (represents_nonneg _ _ HD). lia.
  - apply (leb_represented _ _ _ _ Hs HD2).
    rewrite <- (nearest_represented _ _ HD2). apply nearest_mono.
    pose proof (represents_nonneg _ _ HD). lia.
Qed.

(** *** Delays as Python passes them *)

Lemma of_int_top_binade :
  F64.of_int (2 ^ 1023) = S754_finite false 4503599627370496 971.
Proof. vm_compute. reflexivity. Qed.

(** A binary64 number [D] with [0 <= D < 2^1023] is [-0.0] or a represented
    number, and adding 2 to it stays below [2^1023]. *)
Lemma delay_represented (D : float) :
  valid_binary F64.prec F64.emax D = true ->
  F64.leb (F64.of_int 0) D = true ->
  F64.ltb D (F64.of_int (2 ^ 1023)) = true ->
  D = S754_zero true
  \/ exists v, represents D v /\ v + 2 * 2 ^ scale < 2 ^ (1023 + scale).
Proof.
  intros Hvalid Hlo Hhi. rewrite of_int_top_binade in Hhi.
  change (F64.of_int 0) with (S754_zero false) in Hlo.
  destruct D as [[]|[]| |[] m e]; try discriminate.
  - by left.
  - right. exists 0. split; [constructor|done].
  - right. clear Hlo.
    unfold valid_binary, bounded, canonical_mantissa, fexp, emin,
      F64.prec, F64.emax in Hvalid.
    apply andb_prop in Hvalid as [Hcanon _].
    apply Z.eqb_eq in Hcanon.
    pose proof (digits_bounds m) as [Hmlo Hmhi].
    set (dg := Zpos (digits2_pos m)) in *.
    assert (Hdg : 0 < dg) by done.
    assert (Hshape : (dg = 53 /\ -1074 <= e) \/ (dg < 53 /\ e = -1074)) by lia.
    assert (He : e <= 970).
    { unfold F64.ltb, SFltb in Hhi. cbn [SFcompare] in Hhi.
      destruct (Z.compare_spec e 971) as [-> | Hlt | Hgt];
        [|lia|discriminate].
      destruct (Pos.compare_cont Eq m 4503599627370496) eqn:Hcmp;
        try discriminate.
      assert (Hlt : (m < 4503599627370496)%positive) by exact Hcmp.
      assert (Zpos m < 2 ^ 52) by (apply Pos2Z.pos_lt_pos in Hlt; exact Hlt).
      assert (Hfull : dg = 53) by (clear - Hshape; lia).
      rewrite Hfull in Hmlo. change (2 ^ (53 - 1)) with (2 ^ 52) in Hmlo.
      clear - H Hmlo. lia. }
    assert (Hsmall : 2 * 2 ^ scale < 2 ^ (970 + scale)) by done.
    assert (Htop : 2 ^ (1023 + scale) = 2 ^ 53 * 2 ^ (970 + scale)) by done.
    destruct Hshape as [[Hnormal Hemin] | [Hsub ->]].
    + exists (Zpos m * 2 ^ (e + scale)). split; [by constructor|].
      subst dg. rewrite Hnormal in Hmhi.
      pose proof (pow2_pos (e + scale) ltac:(unfold scale; lia)) as Hpe.
      assert (Hexp : 2 ^ (e + scale) <= 2 ^ (970 + scale))
        by (apply Z.pow_le_mono_r; lia).
      assert (Hv1 : Zpos m * 2 ^ (e + scale) <= (2 ^ 53 - 1) * 2 ^ (e + scale))
        by (apply Z.mul_le_mono_nonneg_r; lia).
      assert (Hv2 : (2 ^ 53 - 1) * 2 ^ (e + scale)
                    <= (2 ^ 53 - 1) * 2 ^ (970 + scale))
        by (apply Z.mul_le_mono_nonneg_l; lia).
      assert (Hps : 0 < 2 ^ scale) by done.
      rewrite Htop.
      set (P := 2 ^ (970 + scale)) in *. set (Q := 2 ^ scale) in *.
      set (v := Zpos m * 2 ^ (e + scale)) in *.
      set (u := 2 ^ (e + scale)) in *.
      clearbody P Q v u. clear - Hv1 Hv2 Hsmall Hps. lia.
    + exists (Zpos m). split; [by apply (represents_subnormal m)|].
      assert (Hdg52 : 2 ^ dg <= 2 ^ 52) by (apply Z.pow_le_mono_r; lia).
      assert (Hroom : 2 ^ 52 + 2 * 2 ^ scale < 2 ^ (1023 + scale)) by done.
      set (T := 2 ^ (1023 + scale)) in *. set (Q := 2 ^ scale) in *.
      set (c := 2 ^ 52) in *. set (p := 2 ^ dg) in *.
      clearbody T Q c p. clear - Hmhi Hdg52 Hroom. lia.
Qed.

Lemma ltb_leb (x y : float) : F64.ltb x y = true -> F64.leb x y = true.
Proof.
  unfold F64.ltb, F64.leb, SFltb, SFleb.
  by destruct (SFcompare x y) as [[]|].
Qed.

(** The sleep for a delay [D] that is a binary64 number with
    [0 <= D < 2^1023]: it lies between [D] and the binary64 sum [D + 2]. *)
Lemma sleep_in_float_range (D : float) (k : Z) :
  valid_binary F64.prec F64.emax D = true ->
  F64.leb (F64.of_int 0) D = true ->
  F64.ltb D (F64.of_int (2 ^ 1023)) = true ->
  F64.leb D (F64.add D (Random.uniform 0 2 k)) = true
  /\ F64.leb (F64.add D (Random.uniform 0 2 k)) (F64.add D (F64.of_int 2))
     = true.
Proof.
  intros Hvalid Hlo Hhi.
  destruct (delay_represented D Hvalid Hlo Hhi) as [-> | (v & HD & Hmax)];
    [|by apply (sleep_between D v)].
  pose proof (jitter_in_range k) as [_ Hj2].
  pose proof (uniform_represents k) as Hj.
  change (F64.add (S754_zero true) (F64.of_int 2)) with (F64.of_int 2).
  destruct (represents_canonical _ _ Hj) as [[Heq _] | (m & e & Heq & _)];
    rewrite Heq in *.
  - by vm_compute.
  - split; [done|]. by apply ltb_leb.
Qed.
End Binary64.

(** ** Traces *)

Lemma new_events_app {St} (w w' : world St) (evs : list event) :
  w_trace w' = w_trace w ++ evs -> new_events w w' = evs.
Proof. unfold new_events. intros ->. apply drop_app_length. Qed.

Lemma calls_in_app (t1 t2 : list event) :
  calls_in (t1 ++ t2) = calls_in t1 + calls_in t2.
Proof. unfold calls_in. by rewrite filter_app, length_app. Qed.

Lemma sleeps_in_app (t1 t2 : list event) :
  sleeps_in (t1 ++ t2) = sleeps_in t1 + sleeps_in t2.
Proof. unfold sleeps_in. by rewrite filter_app, length_app. Qed.

Lemma sleep_times_app (t1 t2 : list event) :
  sleep_times (t1 ++ t2) = sleep_times t1 ++ sleep_times t2.
Proof.
  induction t1 as [|[a|l|s] t1 IH]; simpl; auto. by rewrite IH.
Qed.

Lemma sleeps_in_sleep_times (t : list event) :
  sleeps_in t = length (sleep_times t).
Proof.
  unfold sleeps_in.
  induction t as [|[a|l|s] t IH]; [done|..]; rewrite filter_cons; simpl;
    by rewrite ?IH.
Qed.

Lemma calls_in_backoff delay rng draws attempts :
  calls_in (backoff_events delay rng draws attempts) = length attempts.
Proof.
  revert draws. induction attempts as [|a rest IH]; intros draws; [done|].
  simpl. unfold calls_in in *. rewrite !filter_cons. simpl. by rewrite IH.
Qed.

Lemma sleep_times_backoff delay rng draws attempts :
  sleep_times (backoff_events delay rng draws attempts)
  = map (fun i => sleep_time delay rng (draws + i)) (seq 0 (length attempts)).
Proof.
  revert draws. induction attempts as [|a rest IH]; intros draws; [done|].
  simpl. rewrite Nat.add_0_r. f_equal. rewrite IH, <- seq_shift, map_map.
  apply map_ext. intros i. f_equal. lia.
Qed.

Lemma sleeps_in_backoff delay rng draws attempts :
  sleeps_in (backoff_events delay rng draws attempts) = length attempts.
Proof.
  by rewrite sleeps_in_sleep_times, sleep_times_backoff, length_map, length_seq.
Qed.

Lemma backoff_events_app delay rng draws done rest :
  backoff_events delay rng draws (done ++ rest)
  = backoff_events delay rng draws done
      ++ backoff_events delay rng (draws + length done) rest.
Proof.
  revert draws. induction done as [|a done IH]; intros draws; simpl.
  - by rewrite Nat.add_0_r.
  - rewrite IH. replace (draws + S (length done))
      with (S draws + length done) by lia. done.
Qed.

Lemma py_range_split (R : Z) (k : nat) :
  k <= Z.to_nat R ->
  py_range R = py_range (Z.of_nat k) ++ map Z.of_nat (seq k (Z.to_nat R - k)).
Proof.
  intros Hk. unfold py_range. rewrite Nat2Z.id, <- map_app, <- seq_app.
  do 2 f_equal. lia.
Qed.

Lemma py_range_below (k : nat) (bound : Z) :
  (Z.of_nat k <= bound)%Z -> Forall (fun a => (a < bound)%Z) (py_range (Z.of_nat k)).
Proof.
  intros Hk. unfold py_range. rewrite Nat2Z.id, Forall_map, Forall_forall.
  intros i Hi. apply elem_of_seq in Hi. simpl. lia.
Qed.

Lemma length_py_range (k : nat) : length (py_range (Z.of_nat k)) = k.
Proof. unfold py_range. by rewrite length_map, length_seq, Nat2Z.id. Qed.

Create Rewrite HintDb trace.
#[global] Hint Rewrite calls_in_app sleeps_in_app calls_in_backoff
  sleeps_in_backoff length_py_range @last_app : trace.

(** ** One turn of the retry loop *)

Section RetryLoop.
Context {St A Args : Type} (func : Args -> act St A) (args : Args).
Context (retries : Z) (delay : float).

Lemma await_func_eq (attempt : Z) (w : world St) :
  await_func func args attempt w
  = (fst (func args (w_env w)),
     World (snd (func args (w_env w))) (w_rng w) (w_draws w)
           (w_trace w ++ [EvCall attempt])).
Proof.
  unfold await_func, bind, emit, on_env. simpl.
  by destruct (func args (w_env w)).
Qed.

Lemma retry_loop_returns attempt rest w v :
  fst (func args (w_env w)) = Ret v ->
  retry_loop func retries delay args (attempt :: rest) w
  = (Ret (Some v),
     World (snd (func args (w_env w))) (w_rng w) (w_draws w)
           (w_trace w ++ [EvCall attempt])).
Proof.
  intros Hv. simpl. unfold try_except, bind at 1.
  by rewrite await_func_eq, Hv.
Qed.

Lemma retry_loop_backs_off attempt rest w x :
  fst (func args (w_env w)) = Raise x ->
  (attempt < retries - 1)%Z ->
  retry_loop func retries delay args (attempt :: rest) w
  = retry_loop func retries delay args rest
      (World (snd (func args (w_env w))) (w_rng w) (S (w_draws w))
             (w_trace w ++ backoff_events delay (w_rng w) (w_draws w) [attempt])).
Proof.
  intros Hx Hlt. simpl. unfold try_except, bind at 1.
  rewrite await_func_eq, Hx.
  apply Z.ltb_lt in Hlt. rewrite Hlt.
  unfold bind, random_uniform, print, asyncio_sleep, emit. simpl.
  by rewrite <- !app_assoc.
Qed.

Lemma retry_loop_gives_up attempt rest w x :
  fst (func args (w_env w)) = Raise x ->
  ~ (attempt < retries - 1)%Z ->
  retry_loop func retries delay args (attempt :: rest) w
  = (Raise x,
     World (snd (func args (w_env w))) (w_rng w) (w_draws w)
           (w_trace w ++ [EvCall attempt; EvPrint (max_retries_line x)])).
Proof.
  intros Hx Hge. simpl. unfold try_except, bind at 1.
  rewrite await_func_eq, Hx.
  apply Z.ltb_nlt in Hge. rewrite Hge.
  unfold bind, print, emit, raise. simpl.
  by rewrite <- !app_assoc.
Qed.

(** Attempts that fail before the last index are each followed by one
    backoff, and the loop goes on with the indices left. *)
Lemma retry_loop_failures (done rest : list Z) (w : world St) :
  (forall j, j < length done -> exists x, outcome_at func args j (w_env w) = Raise x) ->
  Forall (fun a => (a < retries - 1)%Z) done ->
  retry_loop func retries delay args (done ++ rest) w
  = retry_loop func retries delay args rest
      (World (env_after func args (length done) (w_env w)) (w_rng w)
             (w_draws w + length done)
             (w_trace w ++ backoff_events delay (w_rng w) (w_draws w) done)).
Proof.
  revert w. induction done as [|a done IH]; intros w Hfail Hlt.
  - destruct w. simpl. by rewrite Nat.add_0_r, app_nil_r.
  - apply Forall_cons in Hlt as [Ha Hlt].
    destruct (Hfail 0) as [x Hx]; [simpl; lia|].
    unfold outcome_at in Hx. simpl in Hx.
    rewrite <- app_comm_cons, (retry_loop_backs_off _ _ _ x Hx Ha), IH; auto.
    + simpl. rewrite <- app_assoc. do 2 f_equal. lia.
    + intros j Hj. simpl. apply (Hfail (S j)). simpl. lia.
Qed.
End RetryLoop.

(** ** The shape of any run of the loop *)

Section RetryShape.
Context {St A Args : Type} (func : Args -> act St A) (args : Args).
Context (retries : Z) (delay : float).

(** Whatever the operation does, a run consists of some failed attempts,
    each followed by one backoff that takes the next value from the
    generator, and of a closing part without any sleep: nothing, a
    successful call, or a failed call and the "max retries" line. *)
Lemma retry_loop_shape (attempts : list Z) (w : world St) :
  exists (done : list Z) (closing : list event),
    w_trace (snd (retry_loop func retries delay args attempts w))
    = w_trace w ++ backoff_events delay (w_rng w) (w_draws w) done ++ closing
    /\ sleep_times closing = []
    /\ w_env (snd (retry_loop func retries delay args attempts w))
       = env_after func args (length done + calls_in closing) (w_env w)
    /\ (attempts <> [] -> 1 <= length done + calls_in closing)
    /\ w_draws (snd (retry_loop func retries delay args attempts w))
       = w_draws w + length done.
Proof.
  revert w. induction attempts as [|a rest IH]; intros w.
  - exists [], []. simpl. rewrite app_nil_r.
    repeat split; auto; try lia; congruence.
  - destruct (fst (func args (w_env w))) as [v|x] eqn:Hout.
    + exists [], [EvCall a]. rewrite (retry_loop_returns _ _ _ _ _ _ _ v Hout).
      simpl. repeat split; auto.
    + destruct (Z.lt_ge_cases a (retries - 1)) as [Hlt|Hge].
      * rewrite (retry_loop_backs_off _ _ _ _ _ _ _ x Hout Hlt).
        destruct (IH (World (snd (func args (w_env w))) (w_rng w)
                            (S (w_draws w))
                            (w_trace w ++ backoff_events delay (w_rng w) (w_draws w) [a])))
          as (done & closing & Htrace & Hsleep & Henv & _ & Hdraws).
        exists (a :: done), closing. rewrite Htrace, Henv, Hdraws. simpl.
        rewrite <- !app_assoc. simpl. repeat split; auto; lia.
      * exists [], [EvCall a; EvPrint (max_retries_line x)].
        rewrite (retry_loop_gives_up _ _ _ _ _ _ _ x Hout) by lia.
        simpl. repeat split; auto.
Qed.

(** The number of invocations of a run is read off its trace. *)
Lemma retry_loop_env (attempts : list Z) (w : world St) :
  let w' := snd (retry_loop func retries delay args attempts w) in
  w_env w' = env_after func args (calls_in (new_events w w')) (w_env w)
  /\ (attempts <> [] -> 1 <= calls_in (new_events w w')).
Proof.
  destruct (retry_loop_shape attempts w)
    as (done & closing & Htrace & _ & Henv & Hpos & _).
  simpl. rewrite (new_events_app _ _ _ Htrace), calls_in_app, calls_in_backoff.
  auto.
Qed.

(** A log kept in the environment that every invocation extends by one
    block is extended by one block per invocation. *)
Lemma env_after_log {C : Type} (log : St -> list C) (Q : list C -> Prop) :
  (forall e, exists block, log (snd (func args e)) = log e ++ block /\ Q block) ->
  forall n e, exists blocks,
    log (env_after func args n e) = log e ++ concat blocks
    /\ length blocks = n /\ Forall Q blocks.
Proof.
  intros Hstep. induction n as [|n IH]; intros e.
  - exists []. simpl. by rewrite app_nil_r.
  - destruct (Hstep e) as (block & Hblock & HQ).
    destruct (IH (snd (func args e))) as (blocks & Hlog & Hlen & HQs).
    exists (block :: blocks). simpl. rewrite Hlog, Hblock, <- app_assoc.
    repeat split; auto.
Qed.

End RetryShape.

(** ** The retry wrapper *)

Section AsyncRetryFacts.
Context {St A Args : Type} (func : Args -> act St A) (args : Args).

(** The run of [async_retry] when the first [n] invocations raise and
    [n + 1 <= R]: [n] backoffs, then the loop stands at index [n]. *)
Lemma async_retry_after_failures (R : Z) (D : float) (w : world St) (n : nat) :
  n < Z.to_nat R ->
  (forall j, j < n -> exists x, outcome_at func args j (w_env w) = Raise x) ->
  async_retry func R D args w
  = retry_loop func R D args (map Z.of_nat (seq n (Z.to_nat R - n)))
      (World (env_after func args n (w_env w)) (w_rng w) (w_draws w + n)
             (w_trace w
                ++ backoff_events D (w_rng w) (w_draws w) (py_range (Z.of_nat n)))).
Proof.
  intros Hn Hfail. unfold async_retry.
  rewrite (py_range_split R n) by lia.
  rewrite retry_loop_failures.
  - by rewrite length_py_range.
  - by rewrite length_py_range.
  - apply py_range_below. lia.
Qed.
End AsyncRetryFacts.

(** ** Every run of the retry wrapper *)

Section RetryRuns.
Context {St A Args : Type} (func : Args -> act St A) (args : Args).
Context (retries : Z) (delay : float).

(** The loop over the last [m + 1] indices of [range(retries)]: it stops at
    the first invocation that returns, or at the last index. *)
Lemma retry_loop_last_indices (m i : nat) (w : world St) :
  i + S m = Z.to_nat retries ->
  exists (n : nat) (added : list event),
    1 <= n <= S m
    /\ fst (retry_loop func retries delay args (map Z.of_nat (seq i (S m))) w)
       = match outcome_at func args (n - 1) (w_env w) with
         | Ret v => Ret (Some v)
         | Raise x => Raise x
         end
    /\ w_trace (snd (retry_loop func retries delay args
                       (map Z.of_nat (seq i (S m))) w))
       = w_trace w ++ added
    /\ calls_in added = n
    /\ sleeps_in added = n - 1
    /\ (forall j, j < n - 1 -> exists x, outcome_at func args j (w_env w) = Raise x)
    /\ ((exists x, outcome_at func args (n - 1) (w_env w) = Raise x) -> n = S m).
Proof.
  revert i w. induction m as [|m IH]; intros i w Hlen.
  - change (map Z.of_nat (seq i 1)) with [Z.of_nat i].
    destruct (fst (func args (w_env w))) as [v|x] eqn:Hout.
    + exists 1, [EvCall (Z.of_nat i)].
      rewrite (retry_loop_returns _ _ _ _ _ _ _ v Hout).
      unfold outcome_at. simpl. rewrite Hout.
      repeat split; auto; intros; lia.
    + exists 1, [EvCall (Z.of_nat i); EvPrint (max_retries_line x)].
      rewrite (retry_loop_gives_up _ _ _ _ _ _ _ x Hout) by lia.
      unfold outcome_at. simpl. rewrite Hout.
      repeat split; auto; intros; lia.
  - change (map Z.of_nat (seq i (S (S m))))
      with (Z.of_nat i :: map Z.of_nat (seq (S i) (S m))).
    destruct (fst (func args (w_env w))) as [v|x] eqn:Hout.
    + exists 1, [EvCall (Z.of_nat i)].
      rewrite (retry_loop_returns _ _ _ _ _ _ _ v Hout).
      unfold outcome_at. simpl. rewrite Hout.
      repeat split; auto; try (intros; lia).
      intros [x Hx]. discriminate.
    + rewrite (retry_loop_backs_off _ _ _ _ _ _ _ x Hout) by lia.
      set (w1 := World _ _ _ _).
      destruct (IH (S i) w1 ltac:(lia))
        as (n & added & Hn & Hres & Htrace & Hcalls & Hsleeps & Hfail & Hlast).
      exists (S n), (backoff_events delay (w_rng w) (w_draws w) [Z.of_nat i] ++ added).
      rewrite Hres, Htrace. subst w1. simpl w_env in *. simpl w_trace.
      replace (S n - 1) with (S (n - 1)) by lia.
      unfold outcome_at in *. simpl env_after.
      rewrite calls_in_app, sleeps_in_app, Hcalls, Hsleeps, <- app_assoc.
      repeat split; auto; try (unfold calls_in, sleeps_in; simpl; lia).
      intros [|j] Hj; [exists x; exact Hout|]. apply Hfail. lia.
Qed.

(** For [retries >= 1], the whole run. *)
Lemma async_retry_run (w : world St) :
  (1 <= retries)%Z ->
  exists (n : nat) (added : list event),
    1 <= n <= Z.to_nat retries
    /\ fst (async_retry func retries delay args w)
       = match outcome_at func args (n - 1) (w_env w) with
         | Ret v => Ret (Some v)
         | Raise x => Raise x
         end
    /\ w_trace (snd (async_retry func retries delay args w)) = w_trace w ++ added
    /\ calls_in added = n
    /\ sleeps_in added = n - 1
    /\ (forall j, j < n - 1 -> exists x, outcome_at func args j (w_env w) = Raise x)
    /\ ((exists x, outcome_at func args (n - 1) (w_env w) = Raise x)
        -> n = Z.to_nat retries).
Proof.
  intros HR. unfold async_retry, py_range.
  destruct (Z.to_nat retries) as [|m] eqn:Hm; [lia|].
  apply retry_loop_last_indices. lia.
Qed.
End RetryRuns.

(** C1, as the code has it.  For every [R >= 1], an operation that raises on
    every invocation is invoked exactly [R] times by [async_retry] (with
    [R - 1] backoffs in between); the error that reaches the caller is the
    one raised by the last invocation, unchanged, and the last thing written
    to standard output is the line "Max retries reached. Last error: ..."
    that carries it. *)
Theorem async_retry_exhausts {St A Args : Type} (func : Args -> act St A)
    (args : Args) (R : Z) (D : float) (w : world St) :
  (1 <= R)%Z ->
  (forall i : nat, exists x, outcome_at func args i (w_env w) = Raise x) ->
  exists (last_error : exn) (w' : world St),
    async_retry func R D args w = (Raise last_error, w')
    /\ outcome_at func args (Z.to_nat R - 1) (w_env w) = Raise last_error
    /\ calls_in (new_events w w') = Z.to_nat R
    /\ sleeps_in (new_events w w') = Z.to_nat R - 1
    /\ last (new_events w w') = Some (EvPrint (max_retries_line last_error)).
Proof.
  intros HR Hfail.
  destruct (Hfail (Z.to_nat R - 1)) as [x Hx].
  eexists x, _. split.
  - rewrite (async_retry_after_failures func args R D w (Z.to_nat R - 1));
      [|lia|by auto].
    replace (Z.to_nat R - (Z.to_nat R - 1)) with 1 by lia.
    cbn [map seq]. apply retry_loop_gives_up; [exact Hx | lia].
  - split; [exact Hx|]. simpl.
    erewrite new_events_app by (rewrite <- app_assoc; reflexivity).
    autorewrite with trace.
    repeat split; simpl; try done; unfold calls_in, sleeps_in; simpl; lia.
Qed.

(** Scenario A: the operation always raises, [R = 3], [D = 0]. *)
Lemma async_retry_exhausts_scenario_A :
  (1 <= 3)%Z
  /\ (forall i : nat, exists x, outcome_at Double.always_fails tt i 0 = Raise x)
  /\ exists (last_error : exn) (w' : world nat),
      async_retry Double.always_fails 3 (F64.of_int 0) tt (Double.world_drawing 0 0)
      = (Raise last_error, w')
      /\ outcome_at Double.always_fails tt (Z.to_nat 3 - 1) 0 = Raise last_error
      /\ calls_in (new_events (Double.world_drawing 0 0) w') = Z.to_nat 3
      /\ sleeps_in (new_events (Double.world_drawing 0 0) w') = Z.to_nat 3 - 1
      /\ last (new_events (Double.world_drawing 0 0) w')
         = Some (EvPrint (max_retries_line last_error)).
Proof.
  split; [lia|].
  split; [intros i; eexists; reflexivity|].
  apply (async_retry_exhausts Double.always_fails tt 3 (F64.of_int 0)
           (Double.world_drawing 0 0)).
  - lia.
  - intros i. eexists. reflexivity.
Defined.

(** C1, as stated, fails: the error that reaches the caller is the very error
    of the last invocation, and its message says nothing of the retries.
    The words "Max retries reached" are only in the line that is printed
    before the error is raised again. *)
Lemma raised_error_has_no_retry_context :
  let w := Double.world_drawing 0 0 in
  let r := async_retry Double.always_fails 3 (F64.of_int 0) tt w in
  outcome_at Double.always_fails tt 2 (w_env w)
  = Raise (Exn "ConnectionError" "attempt 2 failed")
  /\ fst r = Raise (Exn "ConnectionError" "attempt 2 failed")
  /\ (exists e, fst r = Raise e
                /\ mentions "Max retries reached" (exc_str e) = false
                /\ mentions "max retries reached" (exc_str e) = false
                /\ mentions "retries" (exc_str e) = false)
  /\ last (new_events w (snd r))
     = Some (EvPrint "Max retries reached. Last error: attempt 2 failed").
Proof.
  vm_compute. split; [reflexivity|]. split; [reflexivity|]. split; [|reflexivity].
  exists (Exn "ConnectionError" "attempt 2 failed"). repeat split.
Qed.

(** C2. For every [R >= 1], if the operation raises on its first [k - 1]
    invocations and returns [v] on the [k]-th, with [1 <= k <= R], then
    [async_retry] invokes it exactly [k] times and returns [v]; it requests
    [k - 1] backoff sleeps, one after each failure, and nothing follows the
    successful invocation: that call is the last event of the run. *)
Theorem async_retry_first_success {St A Args : Type} (func : Args -> act St A)
    (args : Args) (R : Z) (D : float) (w : world St) (k : nat) (v : A) :
  1 <= k ->
  (Z.of_nat k <= R)%Z ->
  (forall i, i < k - 1 -> exists x, outcome_at func args i (w_env w) = Raise x) ->
  outcome_at func args (k - 1) (w_env w) = Ret v ->
  exists w' : world St,
    async_retry func R D args w = (Ret (Some v), w')
    /\ calls_in (new_events w w') = k
    /\ sleeps_in (new_events w w') = k - 1
    /\ last (new_events w w') = Some (EvCall (Z.of_nat k - 1))
    /\ w_env w' = env_after func args k (w_env w).
Proof.
  intros Hk HR Hfail Hv.
  eexists. split.
  - rewrite (async_retry_after_failures func args R D w (k - 1)); [|lia|by auto].
    destruct (Z.to_nat R - (k - 1)) as [|m] eqn:Hm; [lia|].
    cbn [map seq]. apply retry_loop_returns. exact Hv.
  - simpl.
    erewrite new_events_app by (rewrite <- app_assoc; reflexivity).
    autorewrite with trace.
    repeat split; simpl; try done; unfold calls_in, sleeps_in; simpl; try lia.
    + do 2 f_equal. lia.
    + replace k with (S (k - 1)) at 2 by lia.
      clear. generalize (k - 1) as n, (w_env w) as e.
      induction n as [|n IH]; intros e; simpl; [done|]. apply IH.
Qed.

(** Scenario C: the operation fails once and then succeeds, [R = 3]: two
    attempts, one backoff, the payload is returned. *)
Lemma async_retry_first_success_scenario_C :
  1 <= 2
  /\ (Z.of_nat 2 <= 3)%Z
  /\ (forall i, i < 2 - 1 ->
        exists x, outcome_at (Double.flaky 1) tt i 0 = Raise x)
  /\ outcome_at (Double.flaky 1) tt (2 - 1) 0 = Ret "payload"
  /\ exists w' : world nat,
      async_retry (Double.flaky 1) 3 default_delay tt (Double.world_drawing 0 0)
      = (Ret (Some "payload"), w')
      /\ calls_in (new_events (Double.world_drawing 0 0) w') = 2
      /\ sleeps_in (new_events (Double.world_drawing 0 0) w') = 2 - 1
      /\ last (new_events (Double.world_drawing 0 0) w')
         = Some (EvCall (Z.of_nat 2 - 1))
      /\ w_env w' = env_after (Double.flaky 1) tt 2 0.
Proof.
  assert (Hfail : forall i, i < 2 - 1 ->
            exists x, outcome_at (Double.flaky 1) tt i 0 = Raise x).
  { intros i Hi. assert (i = 0) as -> by lia. eexists. reflexivity. }
  split; [lia|]. split; [lia|]. split; [exact Hfail|]. split; [reflexivity|].
  apply (async_retry_first_success (Double.flaky 1) tt 3 default_delay
           (Double.world_drawing 0 0) 2 "payload").
  - lia.
  - lia.
  - exact Hfail.
  - reflexivity.
Defined.

(** C3, as the code has it.  For every delay [D], the backoff sleeps
    requested by a run are, in order, the binary64 sums [D + j] where the
    [i]-th sleep takes its jitter [j = random.uniform(0, 2)] from the [i]-th
    value the run draws from the generator: one new draw per retry.  Every
    jitter lies in [[0, 2)].  When [D] is a binary64 number with
    [0 <= D < 2^1023], every sleep lies in the closed interval from [D] to
    the binary64 sum [D + 2]; the upper end is included because the sum is
    rounded.  For an integer delay [0 <= d <= 2^53 - 2] that upper end is
    the integer [d + 2]. *)
Theorem backoff_sleeps_are_delay_plus_jitter {St A Args : Type}
    (func : Args -> act St A) (args : Args) (R : Z) (D : float) (w : world St) :
  let w' := snd (async_retry func R D args w) in
  sleep_times (new_events w w')
  = map (fun i => F64.add D (Random.uniform 0 2 (w_rng w (w_draws w + i))))
        (seq 0 (sleeps_in (new_events w w')))
  /\ w_draws w' = w_draws w + sleeps_in (new_events w w')
  /\ (forall k, F64.leb (F64.of_int 0) (Random.uniform 0 2 k) = true
                /\ F64.ltb (Random.uniform 0 2 k) (F64.of_int 2) = true)
  /\ (valid_binary F64.prec F64.emax D = true ->
      F64.leb (F64.of_int 0) D = true ->
      F64.ltb D (F64.of_int (2 ^ 1023)) = true ->
      Forall (fun s => F64.leb D s = true
                       /\ F64.leb s (F64.add D (F64.of_int 2)) = true)
             (sleep_times (new_events w w')))
  /\ (forall d : Z,
        (0 <= d <= 2 ^ 53 - 2)%Z ->
        D = F64.of_int d ->
        Forall (fun s => F64.leb D s = true
                         /\ F64.leb s (F64.of_int (d + 2)) = true)
               (sleep_times (new_events w w'))).
Proof.
  intros w'. subst w'. unfold async_retry.
  destruct (retry_loop_shape func args R D (py_range R) w)
    as (done & closing & Htrace & Hquiet & _ & _ & Hdraws).
  rewrite (new_events_app _ _ _ Htrace), Hdraws.
  rewrite sleeps_in_app, sleeps_in_backoff, (sleeps_in_sleep_times closing),
    sleep_times_app, sleep_times_backoff, Hquiet, app_nil_r, Nat.add_0_r.
  split; [done|]. split; [done|]. split; [apply jitter_in_range|]. split.
  - intros Hvalid Hlo Hhi. apply Forall_map, Forall_forall. intros i _.
    by apply sleep_in_float_range.
  - intros d Hd ->. apply Forall_map, Forall_forall. intros i _.
    by apply sleep_in_closed_range.
Qed.

(** The statement at work: default delay 5, three attempts that all fail. *)
Lemma backoff_sleeps_with_default_delay :
  let w := Double.world_drawing 0 0 in
  let D := F64.of_int 5 in
  let w' := snd (async_retry Double.always_fails 3 D tt w) in
  valid_binary F64.prec F64.emax D = true
  /\ F64.leb (F64.of_int 0) D = true
  /\ F64.ltb D (F64.of_int (2 ^ 1023)) = true
  /\ (0 <= 5 <= 2 ^ 53 - 2)%Z
  /\ sleep_times (new_events w w')
     = map (fun i => F64.add D (Random.uniform 0 2 (w_rng w (w_draws w + i))))
           (seq 0 (sleeps_in (new_events w w')))
  /\ w_draws w' = w_draws w + sleeps_in (new_events w w')
  /\ (forall k, F64.leb (F64.of_int 0) (Random.uniform 0 2 k) = true
                /\ F64.ltb (Random.uniform 0 2 k) (F64.of_int 2) = true)
  /\ Forall (fun s => F64.leb D s = true
                      /\ F64.leb s (F64.add D (F64.of_int 2)) = true)
            (sleep_times (new_events w w'))
  /\ Forall (fun s => F64.leb D s = true
                      /\ F64.leb s (F64.of_int (5 + 2)) = true)
            (sleep_times (new_events w w')).
Proof.
  intros w D w'.
  assert (Hvalid : valid_binary F64.prec F64.emax D = true)
    by (vm_compute; reflexivity).
  assert (Hlo : F64.leb (F64.of_int 0) D = true) by (vm_compute; reflexivity).
  assert (Hhi : F64.ltb D (F64.of_int (2 ^ 1023)) = true)
    by (vm_compute; reflexivity).
  assert (Hd : (0 <= 5 <= 2 ^ 53 - 2)%Z) by (split; discriminate).
  destruct (backoff_sleeps_are_delay_plus_jitter Double.always_fails tt 3 D w)
    as (Hsleeps & Hdraws & Hjitter & Hfloat & Hint).
  split; [exact Hvalid|]. split; [exact Hlo|]. split; [exact Hhi|].
  split; [exact Hd|]. split; [exact Hsleeps|]. split; [exact Hdraws|].
  split; [exact Hjitter|]. split.
  - exact (Hfloat Hvalid Hlo Hhi).
  - exact (Hint 5%Z Hd eq_refl).
Defined.

(** C3, as stated, fails: with the default delay 5 and the largest value the
    generator can draw, the jitter is [2 - 2^-52] and the sleep requested is
    exactly 7.0, which is not below [D + 2]. *)
Lemma sleep_can_reach_delay_plus_two :
  let w := Double.world_drawing (2 ^ 53 - 1) 0 in
  let w' := snd (async_retry Double.always_fails 2 (F64.of_int 5) tt w) in
  sleep_times (new_events w w') = [F64.of_int 7]
  /\ F64.ltb (Random.uniform 0 2 (2 ^ 53 - 1)) (F64.of_int 2) = true
  /\ F64.ltb (F64.of_int 7) (F64.of_int (5 + 2)) = false
  /\ F64.ltb (F64.of_int 7) (F64.add (F64.of_int 5) (F64.of_int 2)) = false.
Proof. vm_compute. auto. Qed.

(** Two retries of one run take two draws, and their sleeps differ when the
    draws do. *)
Example two_retries_two_jitters :
  let w := World 0 (fun i => Z.of_nat i * 2 ^ 52)%Z 0 [] in
  let w' := snd (async_retry Double.always_fails 3 (F64.of_int 5) tt w) in
  sleep_times (new_events w w') = [F64.of_int 5; F64.of_int 6].
Proof. vm_compute. reflexivity. Qed.

(** C9. With [retries = 0] the loop body never runs: [async_retry] returns
    [None] without raising, and the world is left as it was (the operation is
    not invoked, nothing is printed, no sleep is requested). *)
Theorem async_retry_zero_retries {St A Args : Type} (func : Args -> act St A)
    (args : Args) (D : float) (w : world St) :
  async_retry func 0 D args w = (Ret None, w)
  /\ calls_in (new_events w (snd (async_retry func 0 D args w))) = 0.
Proof.
  split; [reflexivity|]. simpl. unfold new_events. by rewrite drop_all.
Qed.

(** ** The facades *)

Section FacadeFacts.
Context {X : Type} (pytrends : TrendReq X).

Lemma external_eq {A} (c : ext_call) (m : act X A) (e : env X) :
  external c m e
  = (fst (m (e_ext e)),
     Env (snd (m (e_ext e))) (e_heap e) (e_next e) (e_calls e ++ [c])).
Proof. unfold external. by destruct (m (e_ext e)). Qed.

(** A closure that builds the payload and then asks for a result adds one
    block of calls to the log. *)
Lemma closure_calls {B} kw_list timeframe geo (c : ext_call)
    (retrieve : act (env X) B) (e : env X) :
  (forall e1, e_calls (snd (retrieve e1)) = e_calls e1 ++ [c]) ->
  exists block,
    e_calls (snd (bind (build_payload pytrends kw_list timeframe geo)
                       (fun _ => retrieve) e))
    = e_calls e ++ block
    /\ attempt_calls kw_list timeframe geo c block.
Proof.
  intros Hr. unfold bind, build_payload. rewrite external_eq.
  destruct (tr_build_payload pytrends kw_list timeframe geo (e_ext e))
    as [[[]|x] x1]; simpl.
  - rewrite Hr. simpl. rewrite <- app_assoc. eexists. split; [done|by right].
  - eexists. split; [done|by left].
Qed.

Lemma new_frame_after_calls (c : ext_call) (m : act X DataFrame) (e : env X) :
  e_calls (snd (bind (external c m) new_frame e)) = e_calls e ++ [c].
Proof.
  unfold bind. rewrite external_eq. by destruct (m (e_ext e)) as [[d|x] x1].
Qed.


Lemma fetch_interest_by_region_calls keyword resolution geo u (e : env X) :
  exists block,
    e_calls (snd (fetch_interest_by_region pytrends keyword resolution geo u e))
    = e_calls e ++ block
    /\ attempt_calls [keyword] None geo (CallInterestByRegion resolution) block.
Proof. apply closure_calls. intros e1. apply new_frame_after_calls. Qed.


(** Through [async_retry], a closure's blocks of calls are as many as its
    invocations. *)
Lemma async_retry_calls {B} (fetch : unit -> act (env X) B)
    (Q : list ext_call -> Prop) (R : Z) (D : float) (w : world (env X)) :
  (forall e, exists block, e_calls (snd (fetch tt e)) = e_calls e ++ block /\ Q block) ->
  let w' := snd (async_retry fetch R D tt w) in
  exists blocks,
    e_calls (w_env w') = e_calls (w_env w) ++ concat blocks
    /\ length blocks = calls_in (new_events w w')
    /\ Forall Q blocks.
Proof.
  intros Hstep w'. subst w'. unfold async_retry.
  destruct (retry_loop_env fetch tt R D (py_range R) w) as [Henv _].
  simpl in Henv. rewrite Henv.
  apply (env_after_log fetch tt e_calls Q Hstep).
Qed.

End FacadeFacts.

(** ** The plots *)

Section PlotFacts.
Context {X : Type} (px : Plotly X).

Lemma reset_index_inplace_eq (data : loc) (e : env X) :
  reset_index_inplace data e
  = match e_heap e !! data with
    | Some d =>
        match reset_index d with
        | Ret d' => (Ret tt, Env (e_ext e) (<[data := d']> (e_heap e))
                                 (e_next e) (e_calls e))
        | Raise x => (Raise x, e)
        end
    | None => (Raise (Exn "ReferenceError" "no such object"), e)
    end.
Proof.
  unfold reset_index_inplace, bind, read_frame, lift_outcome, write_frame.
  destruct (e_heap e !! data) as [d|]; [|done]. by destruct (reset_index d).
Qed.

Lemma plotly_eq (c : ext_call) (e : env X) :
  plotly px c e
  = (fst (px c (e_ext e)),
     Env (snd (px c (e_ext e))) (e_heap e) (e_next e) (e_calls e ++ [c])).
Proof. unfold plotly. by rewrite external_eq. Qed.

(** A plot after the index reset: three calls to plotly, heap untouched. *)
Lemma render_heap (c1 c2 c3 : ext_call) (e : env X) :
  e_heap (snd (bind (plotly px c1) (fun _ => bind (plotly px c2)
                      (fun _ => plotly px c3)) e)) = e_heap e.
Proof.
  unfold bind. rewrite plotly_eq.
  destruct (px c1 (e_ext e)) as [[[]|x] x1]; simpl; [|done].
  rewrite plotly_eq. simpl.
  destruct (px c2 x1) as [[[]|x] x2]; simpl; [|done].
  by rewrite plotly_eq.
Qed.

Lemma render_calls (c1 c2 c3 : ext_call) (e : env X) :
  exists rest,
    e_calls (snd (bind (plotly px c1) (fun _ => bind (plotly px c2)
                         (fun _ => plotly px c3)) e))
    = e_calls e ++ c1 :: rest
    /\ (rest = [] \/ rest = [c2] \/ rest = [c2; c3]).
Proof.
  unfold bind. rewrite plotly_eq.
  destruct (px c1 (e_ext e)) as [[[]|x] x1]; simpl; [|by exists []; auto].
  rewrite plotly_eq. simpl.
  destruct (px c2 x1) as [[[]|x] x2]; simpl.
  - rewrite plotly_eq. simpl. rewrite <- !app_assoc. eexists. split; [done|auto].
  - rewrite <- !app_assoc. eexists. split; [done|auto].
Qed.

Lemma reset_index_fresh (d : DataFrame) :
  index_label d ∉ columns d ->
  reset_index d
  = Ret (Frame None (range_index (length (df_index d)))
               ((index_label d, df_index d) :: df_cols d)).
Proof.
  intros Hfresh. unfold reset_index, mem_string.
  by rewrite bool_decide_eq_false_2.
Qed.

Lemma plot_interest_over_time_heap (data : loc) (title : string) (e : env X) :
  e_heap (snd (plot_interest_over_time px data title e))
  = heap_after_reset data (e_heap e).
Proof.
  unfold plot_interest_over_time, heap_after_reset.
  unfold bind at 1. rewrite reset_index_inplace_eq.
  destruct (e_heap e !! data) as [d|]; [|done].
  destruct (reset_index d) as [d'|x]; [|done].
  unfold bind at 1, read_frame. simpl. rewrite lookup_insert_eq.
  by rewrite render_heap.
Qed.

Lemma plot_interest_by_region_heap (data : loc) (keyword title : string)
    (e : env X) :
  e_heap (snd (plot_interest_by_region px data keyword title e))
  = heap_after_reset data (e_heap e).
Proof.
  unfold plot_interest_by_region, heap_after_reset.
  unfold bind at 1. rewrite reset_index_inplace_eq.
  destruct (e_heap e !! data) as [d|]; [|done].
  destruct (reset_index d) as [d'|x]; [|done].
  unfold bind at 1, read_frame. simpl. rewrite lookup_insert_eq.
  by rewrite render_heap.
Qed.

Lemma plot_interest_by_region_calls (data : loc) (keyword title : string)
    (e : env X) :
  exists more,
    e_calls (snd (plot_interest_by_region px data keyword title e))
    = e_calls e ++ more.
Proof.
  unfold plot_interest_by_region. unfold bind at 1.
  rewrite reset_index_inplace_eq.
  destruct (e_heap e !! data) as [d|]; [|exists []; by rewrite app_nil_r].
  destruct (reset_index d) as [d'|x]; [|exists []; by rewrite app_nil_r].
  unfold bind at 1, read_frame. simpl. rewrite lookup_insert_eq.
  match goal with
  | |- context [bind (plotly px ?c1) (fun _ => bind (plotly px ?c2)
                                        (fun _ => plotly px ?c3)) ?e1] =>
      destruct (render_calls c1 c2 c3 e1) as (rest & Hcalls & _)
  end.
  rewrite Hcalls. by eexists.
Qed.
End PlotFacts.

(** C4, as the code has it.  Both plots reset the index of the frame they are
    given in place, on the caller's object and not on a copy: after the call
    that object holds the frame that [reset_index] produces (the former index
    as first column, the labels [0 .. n-1] as index); it is left as it was
    only when [reset_index] raises.  No other frame changes. *)
Theorem plots_reset_index_in_place {X : Type} (px : Plotly X) (data : loc)
    (keyword title : string) (e : env X) :
  e_heap (snd (plot_interest_over_time px data title e))
  = heap_after_reset data (e_heap e)
  /\ e_heap (snd (plot_interest_by_region px data keyword title e))
     = heap_after_reset data (e_heap e).
Proof.
  split.
  - apply plot_interest_over_time_heap.
  - apply plot_interest_by_region_heap.
Qed.

(** C4, as stated, fails: after either plot the frame the caller passed is
    not the frame it was. *)
Lemma plots_change_the_caller_frame :
  e_heap (snd (plot_interest_over_time Double.fake_plotly 0 "Interest Over Time"
                 (Double.env_holding Double.trend_frame))) !! 0
  <> e_heap (Double.env_holding Double.trend_frame) !! 0
  /\ e_heap (snd (plot_interest_by_region Double.fake_plotly 0 "Holiday Sales"
                    "Regional Interest" (Double.env_holding Double.region_frame))) !! 0
     <> e_heap (Double.env_holding Double.region_frame) !! 0.
Proof.
  rewrite plot_interest_over_time_heap, plot_interest_by_region_heap.
  split; vm_compute; discriminate.
Qed.

(** ** A facade whose first attempt succeeds *)

Section FirstAttempt.
Context {X : Type} (pytrends : TrendReq X).

Lemma async_retry_first_try {St B} (fetch : unit -> act St B) (D : float)
    (w : world St) (v : B) :
  fst (fetch tt (w_env w)) = Ret v ->
  async_retry fetch default_retries D tt w
  = (Ret (Some v),
     World (snd (fetch tt (w_env w))) (w_rng w) (w_draws w)
           (w_trace w ++ [EvCall 0])).
Proof.
  intros Hv. unfold async_retry.
  change (py_range default_retries) with [0; 1; 2]%Z.
  by apply retry_loop_returns.
Qed.

(** A closure whose payload is accepted and whose table arrives. *)
Lemma closure_returns_frame kw_list timeframe geo (c : ext_call)
    (m : act X DataFrame) (e : env X) (d : DataFrame) (x1 x2 : X) :
  tr_build_payload pytrends kw_list timeframe geo (e_ext e) = (Ret tt, x1) ->
  m x1 = (Ret d, x2) ->
  bind (build_payload pytrends kw_list timeframe geo)
       (fun _ => bind (external c m) (fun d => new_frame d)) e
  = (Ret (e_next e),
     Env x2 (<[e_next e := d]> (e_heap e)) (S (e_next e))
         (e_calls e ++ [CallBuildPayload kw_list timeframe geo; c])).
Proof.
  intros Hbuild Hm. unfold bind, build_payload.
  rewrite external_eq, Hbuild. simpl.
  rewrite external_eq. simpl. rewrite Hm. simpl.
  unfold new_frame. simpl. by rewrite <- app_assoc.
Qed.
End FirstAttempt.



(** ** [main] *)

Section MainFacts.
Context {X : Type} (pytrends : TrendReq X) (px : Plotly X).

Lemma get_interest_over_time_first_try keywords timeframe geo
    (w : world (env X)) (d : DataFrame) (x1 x2 : X) :
  tr_build_payload pytrends keywords (Some timeframe) geo (e_ext (w_env w))
  = (Ret tt, x1) ->
  tr_interest_over_time pytrends x1 = (Ret d, x2) ->
  get_interest_over_time pytrends keywords timeframe geo w
  = (Ret (Some (e_next (w_env w))),
     World (Env x2 (<[e_next (w_env w) := d]> (e_heap (w_env w)))
                (S (e_next (w_env w)))
                (e_calls (w_env w)
                   ++ [CallBuildPayload keywords (Some timeframe) geo;
                       CallInterestOverTime]))
           (w_rng w) (w_draws w) (w_trace w ++ [EvCall 0])).
Proof.
  intros Hbuild Hget. unfold get_interest_over_time.
  pose proof (closure_returns_frame pytrends keywords (Some timeframe) geo
                CallInterestOverTime (tr_interest_over_time pytrends)
                (w_env w) d x1 x2 Hbuild Hget) as Hfetch.
  rewrite (async_retry_first_try _ _ _ (e_next (w_env w)));
    unfold fetch_interest_over_time, interest_over_time; by rewrite Hfetch.
Qed.

Lemma get_interest_by_region_first_try keyword resolution geo
    (w : world (env X)) (d : DataFrame) (x1 x2 : X) :
  tr_build_payload pytrends [keyword] None geo (e_ext (w_env w)) = (Ret tt, x1) ->
  tr_interest_by_region pytrends resolution x1 = (Ret d, x2) ->
  get_interest_by_region pytrends keyword resolution geo w
  = (Ret (Some (e_next (w_env w))),
     World (Env x2 (<[e_next (w_env w) := d]> (e_heap (w_env w)))
                (S (e_next (w_env w)))
                (e_calls (w_env w)
                   ++ [CallBuildPayload [keyword] None geo;
                       CallInterestByRegion resolution]))
           (w_rng w) (w_draws w) (w_trace w ++ [EvCall 0])).
Proof.
  intros Hbuild Hget. unfold get_interest_by_region.
  pose proof (closure_returns_frame pytrends [keyword] None geo
                (CallInterestByRegion resolution)
                (tr_interest_by_region pytrends resolution)
                (w_env w) d x1 x2 Hbuild Hget) as Hfetch.
  rewrite (async_retry_first_try _ _ _ (e_next (w_env w)));
    unfold fetch_interest_by_region, interest_by_region; by rewrite Hfetch.
Qed.

Lemma analyze_trends_returns keywords timeframe geo (w : world (env X)) :
  fst (analyze_trends pytrends px keywords timeframe geo w) = Ret tt.
Proof.
  unfold analyze_trends, try_except.
  by destruct (analyze_trends_try pytrends px keywords timeframe geo w)
    as [[[]|x] w1].
Qed.

Lemma regional_analysis_returns geo (w : world (env X)) :
  fst (regional_analysis pytrends px geo w) = Ret tt.
Proof.
  unfold regional_analysis, try_except.
  by destruct (regional_analysis_try pytrends px geo w) as [[[]|x] w1].
Qed.

(** The regional facade always reaches the provider: its first call builds
    the payload. *)
Lemma get_interest_by_region_calls keyword resolution geo (w : world (env X)) :
  exists rest,
    e_calls (w_env (snd (get_interest_by_region pytrends keyword resolution geo w)))
    = e_calls (w_env w) ++ CallBuildPayload [keyword] None geo :: rest.
Proof.
  unfold get_interest_by_region.
  destruct (async_retry_calls
              (fetch_interest_by_region pytrends keyword resolution geo)
              (attempt_calls [keyword] None geo (CallInterestByRegion resolution))
              default_retries default_delay w
              (fun e => fetch_interest_by_region_calls pytrends keyword
                          resolution geo tt e))
    as (blocks & Hcalls & Hlen & Hblocks).
  destruct (retry_loop_env
              (fetch_interest_by_region pytrends keyword resolution geo) tt
              default_retries default_delay (py_range default_retries) w)
    as [_ Hpos].
  specialize (Hpos ltac:(discriminate)). simpl in Hpos.
  unfold async_retry in Hlen.
  destruct blocks as [|block blocks]; [simpl in Hlen; lia|].
  apply Forall_cons in Hblocks as [[-> | ->] _]; rewrite Hcalls; by eexists.
Qed.

(** The regional step starts by building the payload for its keyword,
    whatever happens next. *)
Lemma regional_analysis_calls geo (w : world (env X)) :
  exists rest,
    e_calls (w_env (snd (regional_analysis pytrends px geo w)))
    = e_calls (w_env w) ++ CallBuildPayload ["Holiday Sales"] None geo :: rest.
Proof.
  destruct (get_interest_by_region_calls "Holiday Sales" "COUNTRY" geo w)
    as (rest & Hcalls).
  unfold regional_analysis, try_except, regional_analysis_try, bind at 1.
  destruct (get_interest_by_region pytrends "Holiday Sales" "COUNTRY" geo w)
    as [[[data|]|x] w1]; simpl in *; try by eexists.
  unfold bind, on_env, read_frame.
  destruct (e_heap (w_env w1) !! data) as [d|]; simpl; [|by eexists].
  destruct (empty d); simpl; [by eexists|].
  destruct (plot_interest_by_region_calls px data "Holiday Sales"
              "Regional Interest in the US" (w_env w1)) as (more & Hmore).
  destruct (plot_interest_by_region px data "Holiday Sales"
              "Regional Interest in the US" (w_env w1)) as [[[]|x] e2];
    simpl in *; rewrite Hmore, Hcalls, <- app_assoc; by eexists.
Qed.
End MainFacts.

(** A step of [main] whose facade returned, by [Hfacade], a table that is
    empty by [Hempty]: the step reads it and prints. *)
Ltac step_reads_empty_table Hfacade Hempty :=
  unfold try_except, bind at 1; rewrite Hfacade;
  unfold bind, on_env, read_frame; simpl;
  rewrite lookup_insert_eq, Hempty; reflexivity.

Ltac trace_and_calls_of_empty_step :=
  simpl; split;
  [ apply new_events_app; by rewrite <- app_assoc
  | rewrite filter_app; simpl; apply app_nil_r ].

(** C6. When the provider answers the first request with an empty table, the
    facade returns that very table after a single attempt (no error, no
    backoff), and the step of [main] that asked for it prints its "No data
    retrieved ..." line and makes no call to the renderer.  This holds for
    the time-series step and for the regional step. *)
Theorem empty_table_skips_rendering {X : Type} (pytrends : TrendReq X)
    (px : Plotly X) :
  (forall keywords timeframe geo (w : world (env X)) d x1 x2,
      tr_build_payload pytrends keywords (Some timeframe) geo (e_ext (w_env w))
      = (Ret tt, x1) ->
      tr_interest_over_time pytrends x1 = (Ret d, x2) ->
      empty d = true ->
      exists data w1 w2,
        get_interest_over_time pytrends keywords timeframe geo w
        = (Ret (Some data), w1)
        /\ e_heap (w_env w1) !! data = Some d
        /\ new_events w w1 = [EvCall 0]
        /\ analyze_trends pytrends px keywords timeframe geo w = (Ret tt, w2)
        /\ new_events w w2
           = [EvCall 0; EvPrint "No data retrieved for interest over time."]
        /\ filter is_render (e_calls (w_env w2))
           = filter is_render (e_calls (w_env w)))
  /\ (forall geo (w : world (env X)) d x1 x2,
      tr_build_payload pytrends ["Holiday Sales"] None geo (e_ext (w_env w))
      = (Ret tt, x1) ->
      tr_interest_by_region pytrends "COUNTRY" x1 = (Ret d, x2) ->
      empty d = true ->
      exists data w1 w2,
        get_interest_by_region pytrends "Holiday Sales" "COUNTRY" geo w
        = (Ret (Some data), w1)
        /\ e_heap (w_env w1) !! data = Some d
        /\ new_events w w1 = [EvCall 0]
        /\ regional_analysis pytrends px geo w = (Ret tt, w2)
        /\ new_events w w2
           = [EvCall 0; EvPrint "No data retrieved for regional interest."]
        /\ filter is_render (e_calls (w_env w2))
           = filter is_render (e_calls (w_env w))).
Proof.
  split.
  - intros keywords timeframe geo w d x1 x2 Hbuild Hget Hempty.
    pose proof (get_interest_over_time_first_try pytrends keywords timeframe geo
                  w d x1 x2 Hbuild Hget) as Hfacade.
    eexists _, _, _. split; [exact Hfacade|].
    split; [simpl; apply lookup_insert_eq|].
    split; [by apply new_events_app|].
    split.
    + unfold analyze_trends, analyze_trends_try.
      step_reads_empty_table Hfacade Hempty.
    + trace_and_calls_of_empty_step.
  - intros geo w d x1 x2 Hbuild Hget Hempty.
    pose proof (get_interest_by_region_first_try pytrends "Holiday Sales" "COUNTRY"
                  geo w d x1 x2 Hbuild Hget) as Hfacade.
    eexists _, _, _. split; [exact Hfacade|].
    split; [simpl; apply lookup_insert_eq|].
    split; [by apply new_events_app|].
    split.
    + unfold regional_analysis, regional_analysis_try.
      step_reads_empty_table Hfacade Hempty.
    + trace_and_calls_of_empty_step.
Qed.

(** Scenario B: the provider answers with an empty table at once. *)
Lemma empty_table_skips_rendering_scenario_B :
  let pytrends := Double.fake_pytrends 0 Double.no_data Double.no_data in
  let w := Double.world_drawing 0 Double.fresh_env in
  (exists data w1 w2,
      get_interest_over_time pytrends ["Holiday Sales"] "today 12-m" "US" w
      = (Ret (Some data), w1)
      /\ e_heap (w_env w1) !! data = Some Double.no_data
      /\ new_events w w1 = [EvCall 0]
      /\ analyze_trends pytrends Double.fake_plotly ["Holiday Sales"] "today 12-m"
           "US" w = (Ret tt, w2)
      /\ new_events w w2
         = [EvCall 0; EvPrint "No data retrieved for interest over time."]
      /\ filter is_render (e_calls (w_env w2)) = filter is_render (e_calls (w_env w)))
  /\ (exists data w1 w2,
      get_interest_by_region pytrends "Holiday Sales" "COUNTRY" "US" w
      = (Ret (Some data), w1)
      /\ e_heap (w_env w1) !! data = Some Double.no_data
      /\ new_events w w1 = [EvCall 0]
      /\ regional_analysis pytrends Double.fake_plotly "US" w = (Ret tt, w2)
      /\ new_events w w2
         = [EvCall 0; EvPrint "No data retrieved for regional interest."]
      /\ filter is_render (e_calls (w_env w2)) = filter is_render (e_calls (w_env w))).
Proof.
  intros pytrends w. split.
  - apply (proj1 (empty_table_skips_rendering pytrends Double.fake_plotly)
             ["Holiday Sales"] "today 12-m" "US" w Double.no_data 0 1);
      reflexivity.
  - apply (proj2 (empty_table_skips_rendering pytrends Double.fake_plotly)
             "US" w Double.no_data 0 1);
      reflexivity.
Defined.

(** C8, as the code has it.  The regional facade is called with
    [resolution='COUNTRY'] and the provider answers at once with a two-row
    table whose index label is not also one of its columns, so that the
    index can be reset.  Plotting the result for [keyword] then makes
    exactly one call to the choropleth constructor, and that call carries
    the location mode "country names" and [keyword] as its colour field. *)
Theorem choropleth_gets_country_names_and_keyword {X : Type}
    (pytrends : TrendReq X) (px : Plotly X) (keyword geo title : string)
    (w : world (env X)) (d : DataFrame) (x1 x2 : X) :
  tr_build_payload pytrends [keyword] None geo (e_ext (w_env w)) = (Ret tt, x1) ->
  tr_interest_by_region pytrends "COUNTRY" x1 = (Ret d, x2) ->
  length (df_index d) = 2 ->
  index_label d ∉ columns d ->
  exists data w1 d',
    get_interest_by_region pytrends keyword "COUNTRY" geo w = (Ret (Some data), w1)
    /\ reset_index d = Ret d'
    /\ exists rest,
        e_calls (snd (plot_interest_by_region px data keyword title (w_env w1)))
        = e_calls (w_env w1)
            ++ CallChoropleth d' [CInt 0; CInt 1] "country names" keyword title
                 Viridis
            :: rest
        /\ filter is_choropleth rest = [].
Proof.
  intros Hbuild Hget Hrows Hfresh.
  eexists _, _, _. split.
  { apply (get_interest_by_region_first_try pytrends keyword "COUNTRY" geo
             w d x1 x2 Hbuild Hget). }
  split; [by apply reset_index_fresh|].
  unfold plot_interest_by_region. unfold bind at 1.
  rewrite reset_index_inplace_eq. simpl.
  rewrite lookup_insert_eq, (reset_index_fresh d Hfresh).
  unfold bind at 1, read_frame. simpl. rewrite lookup_insert_eq, Hrows.
  match goal with
  | |- context [bind (plotly px ?c1) (fun _ => bind (plotly px ?c2) (fun _ => plotly px ?c3)) ?e] =>
      destruct (render_calls px c1 c2 c3 e) as (rest & Hcalls & Hrest)
  end.
  exists rest. rewrite Hcalls. simpl.
  split; [reflexivity|].
  destruct Hrest as [-> | [-> | ->]]; reflexivity.
Qed.

(** Scenario D: a two-row regional table for "Holiday Sales". *)
Lemma choropleth_gets_country_names_and_keyword_scenario_D :
  let pytrends := Double.fake_pytrends 0 Double.trend_frame Double.region_frame in
  let w := Double.world_drawing 0 Double.fresh_env in
  length (df_index Double.region_frame) = 2
  /\ (index_label Double.region_frame ∉ columns Double.region_frame)
  /\ exists data w1 d',
      get_interest_by_region pytrends "Holiday Sales" "COUNTRY" "US" w
      = (Ret (Some data), w1)
      /\ reset_index Double.region_frame = Ret d'
      /\ exists rest,
          e_calls (snd (plot_interest_by_region Double.fake_plotly data
                          "Holiday Sales" "Regional Interest in the US" (w_env w1)))
          = e_calls (w_env w1)
              ++ CallChoropleth d' [CInt 0; CInt 1] "country names" "Holiday Sales"
                   "Regional Interest in the US" Viridis
              :: rest
          /\ filter is_choropleth rest = [].
Proof.
  intros pytrends w.
  assert (Hfresh : index_label Double.region_frame ∉ columns Double.region_frame).
  { apply (bool_decide_unpack _). vm_compute. exact I. }
  split; [reflexivity|]. split; [exact Hfresh|].
  apply (choropleth_gets_country_names_and_keyword pytrends Double.fake_plotly
           "Holiday Sales" "US" "Regional Interest in the US" w
           Double.region_frame 0 1).
  - reflexivity.
  - reflexivity.
  - reflexivity.
  - exact Hfresh.
Defined.

(** C8, as stated, fails: for the keyword "geoName" the provider's table has
    a column of that name beside its index of that name.  The facade returns
    this two-row table, the keyword's column is there, and yet the plot
    raises when it resets the index: the choropleth constructor is not
    called. *)
Lemma choropleth_not_called_for_keyword_geoName :
  let pytrends := Double.fake_pytrends 0 Double.trend_frame Double.clashing_frame in
  let w := Double.world_drawing 0 Double.fresh_env in
  let r := get_interest_by_region pytrends "geoName" "COUNTRY" "US" w in
  let plotted := plot_interest_by_region Double.fake_plotly 0 "geoName"
                   "Regional Interest" (w_env (snd r)) in
  fst r = Ret (Some 0)
  /\ e_heap (w_env (snd r)) !! 0 = Some Double.clashing_frame
  /\ length (df_index Double.clashing_frame) = 2
  /\ empty Double.clashing_frame = false
  /\ mem_string "geoName" (columns Double.clashing_frame) = true
  /\ fst plotted
     = Raise (Exn "ValueError" "cannot insert geoName, already exists")
  /\ filter is_choropleth (e_calls (snd plotted)) = [].
Proof. vm_compute. repeat split. Qed.

(** C5. Neither step of [main] lets an error out.  If the [try] block of a
    step raises, whether in the fetch or in the plot, the step still returns
    normally, having written its "Failed to fetch ..." line with the error to
    standard output after what the block had done.  Once the client is built,
    [main] runs the regional step on the world the time-series step left
    behind, whether that step succeeded or failed, and returns normally; the
    regional step always gets to ask the provider for its payload. *)
Theorem main_steps_contain_their_errors {X : Type} (pytrends : TrendReq X)
    (px : Plotly X) (w : world (env X)) :
  (forall keywords timeframe geo,
      match analyze_trends_try pytrends px keywords timeframe geo w with
      | (Ret _, w1) =>
          analyze_trends pytrends px keywords timeframe geo w = (Ret tt, w1)
      | (Raise e, w1) =>
          analyze_trends pytrends px keywords timeframe geo w
          = (Ret tt,
             World (w_env w1) (w_rng w1) (w_draws w1)
                   (w_trace w1
                      ++ [EvPrint ("Failed to fetch interest over time: "
                                     +:+ exc_str e)]))
      end)
  /\ (forall geo,
      match regional_analysis_try pytrends px geo w with
      | (Ret _, w1) => regional_analysis pytrends px geo w = (Ret tt, w1)
      | (Raise e, w1) =>
          regional_analysis pytrends px geo w
          = (Ret tt,
             World (w_env w1) (w_rng w1) (w_draws w1)
                   (w_trace w1
                      ++ [EvPrint ("Failed to fetch regional interest: "
                                     +:+ exc_str e)]))
      end)
  /\ match on_env (init pytrends) w with
     | (Raise e, w0) => main pytrends px w = (Raise e, w0)
     | (Ret _, w0) =>
         let w1 :=
           snd (analyze_trends pytrends px
                  ["Black Friday Deals"; "Cyber Monday Deals"; "Holiday Sales"]
                  "today 12-m" "US" w0) in
         let w2 := snd (regional_analysis pytrends px "US" w1) in
         main pytrends px w = (Ret tt, w2)
         /\ exists rest,
             e_calls (w_env w2)
             = e_calls (w_env w1) ++ CallBuildPayload ["Holiday Sales"] None "US" :: rest
     end.
Proof.
  split; [|split].
  - intros keywords timeframe geo. unfold analyze_trends, try_except.
    by destruct (analyze_trends_try pytrends px keywords timeframe geo w)
      as [[[]|x] w1].
  - intros geo. unfold regional_analysis, try_except.
    by destruct (regional_analysis_try pytrends px geo w) as [[[]|x] w1].
  - destruct (on_env (init pytrends) w) as [[[]|x] w0] eqn:Hinit;
      unfold main; unfold bind at 1; rewrite Hinit; [|done].
    cbv zeta. split; [|apply regional_analysis_calls].
    unfold bind.
    pose proof (analyze_trends_returns pytrends px
                  ["Black Friday Deals"; "Cyber Monday Deals"; "Holiday Sales"]
                  "today 12-m" "US" w0) as H1.
    destruct (analyze_trends pytrends px _ _ _ w0) as [o1 w1]. simpl in *.
    subst o1.
    pose proof (regional_analysis_returns pytrends px "US" w1) as H2.
    destruct (regional_analysis pytrends px "US" w1) as [o2 w2]. simpl in *.
    by subst o2.
Qed.

(** ** Calling a facade twice *)

Section Repeat.
Context {X : Type} (pytrends : TrendReq X).

Lemma async_retry_all_raise {St B} (fetch : unit -> act St B) (D : float)
    (w : world St) (x : exn) :
  (forall e, fst (fetch tt e) = Raise x) ->
  fst (async_retry fetch default_retries D tt w) = Raise x.
Proof.
  intros Hraise.
  rewrite (async_retry_after_failures fetch tt default_retries D w 2).
  - cbn [map seq]. change (Z.to_nat default_retries - 2) with 1. cbn [map seq].
    by rewrite (retry_loop_gives_up _ _ _ _ _ _ _ x (Hraise _)).
  - unfold default_retries. lia.
  - intros j _. exists x. apply Hraise.
Qed.

(** The closure of the time-series facade, by the provider's answer. *)
Lemma fetch_interest_over_time_by_answer keywords timeframe geo (e : env X) :
  match fst (provider_over_time pytrends keywords timeframe geo (e_ext e)) with
  | Ret d =>
      fst (fetch_interest_over_time pytrends keywords timeframe geo tt e)
      = Ret (e_next e)
      /\ e_heap (snd (fetch_interest_over_time pytrends keywords timeframe geo tt e))
         = <[e_next e := d]> (e_heap e)
      /\ e_next (snd (fetch_interest_over_time pytrends keywords timeframe geo tt e))
         = S (e_next e)
  | Raise x =>
      fst (fetch_interest_over_time pytrends keywords timeframe geo tt e) = Raise x
  end.
Proof.
  unfold provider_over_time, fetch_interest_over_time, interest_over_time,
    build_payload, bind.
  rewrite external_eq.
  destruct (tr_build_payload pytrends keywords (Some timeframe) geo (e_ext e))
    as [[[]|x] x1]; simpl; [|done].
  rewrite external_eq. simpl.
  by destruct (tr_interest_over_time pytrends x1) as [[d|x] x2].
Qed.
End Repeat.

(** C7. Against a provider whose answer to a time-series request does not
    depend on its state, two calls of [get_interest_over_time] with the same
    arguments return the same content: equal tables (or the same error), the
    second call leaving the first table as it was. *)
Theorem get_interest_over_time_repeatable {X : Type} (pytrends : TrendReq X)
    (keywords : list string) (timeframe geo : string) (w : world (env X)) :
  deterministic (provider_over_time pytrends keywords timeframe geo) ->
  let r1 := get_interest_over_time pytrends keywords timeframe geo w in
  let r2 := get_interest_over_time pytrends keywords timeframe geo (snd r1) in
  fetched (fst r1) (w_env (snd r1)) = fetched (fst r2) (w_env (snd r2))
  /\ fetched (fst r1) (w_env (snd r2)) = fetched (fst r1) (w_env (snd r1)).
Proof.
  intros Hdet r1 r2. subst r1 r2. unfold get_interest_over_time.
  set (fetch := fetch_interest_over_time pytrends keywords timeframe geo).
  destruct (fst (provider_over_time pytrends keywords timeframe geo
                   (e_ext (w_env w)))) as [d|x] eqn:Hanswer.
  - assert (Hall : forall e : env X,
               fst (fetch tt e) = Ret (e_next e)
               /\ e_heap (snd (fetch tt e)) = <[e_next e := d]> (e_heap e)
               /\ e_next (snd (fetch tt e)) = S (e_next e)).
    { intros e.
      pose proof (fetch_interest_over_time_by_answer pytrends keywords
                    timeframe geo e) as H.
      by rewrite (Hdet (e_ext e) (e_ext (w_env w))), Hanswer in H. }
    destruct (Hall (w_env w)) as (Hret1 & Hheap1 & Hnext1).
    rewrite (async_retry_first_try fetch default_delay w _ Hret1). simpl.
    set (w1 := World _ _ _ _).
    destruct (Hall (w_env w1)) as (Hret2 & Hheap2 & Hnext2).
    rewrite (async_retry_first_try fetch default_delay w1 _ Hret2). simpl.
    subst w1. simpl in *.
    rewrite Hheap2, Hheap1, Hnext1.
    rewrite (lookup_insert_ne _ (S (e_next (w_env w))) (e_next (w_env w)))
      by apply Nat.neq_succ_diag_l.
    by rewrite !lookup_insert_eq.
  - assert (Hall : forall e : env X, fst (fetch tt e) = Raise x).
    { intros e.
      pose proof (fetch_interest_over_time_by_answer pytrends keywords
                    timeframe geo e) as H.
      by rewrite (Hdet (e_ext e) (e_ext (w_env w))), Hanswer in H. }
    by rewrite !(async_retry_all_raise fetch default_delay _ x Hall).
Qed.

(** A provider that always answers with the same table. *)
Lemma get_interest_over_time_repeatable_on_fake :
  let pytrends := Double.fake_pytrends 0 Double.trend_frame Double.region_frame in
  let w := Double.world_drawing 0 Double.fresh_env in
  deterministic (provider_over_time pytrends ["Holiday Sales"] "today 12-m" "US")
  /\ (let r1 := get_interest_over_time pytrends ["Holiday Sales"] "today 12-m" "US" w in
      let r2 := get_interest_over_time pytrends ["Holiday Sales"] "today 12-m" "US"
                  (snd r1) in
      fetched (fst r1) (w_env (snd r1)) = fetched (fst r2) (w_env (snd r2))
      /\ fetched (fst r1) (w_env (snd r2)) = fetched (fst r1) (w_env (snd r1))).
Proof.
  intros pytrends w.
  assert (Hdet : deterministic
                   (provider_over_time pytrends ["Holiday Sales"] "today 12-m" "US")).
  { intros x x'. reflexivity. }
  split; [exact Hdet|].
  apply (get_interest_over_time_repeatable pytrends ["Holiday Sales"] "today 12-m"
           "US" w Hdet).
Defined.

(** * Further properties of the code *)

(** ** Allocation of frames *)

Section Allocation.
Context {X : Type}.

(** Allocation keeps the invariant and hands out an unused location. *)
Lemma heap_ok_fresh (e : env X) : heap_ok e -> e_heap e !! e_next e = None.
Proof. intros Hok. by apply Hok. Qed.

Lemma heap_ok_alloc (e e' : env X) (d : DataFrame) :
  heap_ok e ->
  e_heap e' = <[e_next e := d]> (e_heap e) ->
  e_next e' = S (e_next e) ->
  heap_ok e'.
Proof.
  intros Hok Hheap Hnext l Hl. rewrite Hheap, Hnext in *.
  rewrite lookup_insert_ne by lia. apply Hok. lia.
Qed.

Lemma heap_ok_same (e e' : env X) :
  heap_ok e -> e_heap e' = e_heap e -> e_next e' = e_next e -> heap_ok e'.
Proof. intros Hok Hheap Hnext l Hl. rewrite Hheap. apply Hok. lia. Qed.

(** What the shape of the heap after a table facade means when the
    invariant holds before the call. *)
Lemma only_the_result_is_added (e e' : env X) (o : outcome (option loc)) :
  heap_ok e ->
  match o with
  | Ret (Some data) =>
      data = e_next e
      /\ e_next e' = S (e_next e)
      /\ exists d, e_heap e' = <[data := d]> (e_heap e)
  | Ret None => False
  | Raise _ => e_heap e' = e_heap e /\ e_next e' = e_next e
  end ->
  heap_ok e'
  /\ match o with
     | Ret (Some data) =>
         e_heap e !! data = None
         /\ (exists d, e_heap e' = <[data := d]> (e_heap e))
         /\ (forall l d0, e_heap e !! l = Some d0 -> e_heap e' !! l = Some d0)
     | Ret None => False
     | Raise _ => e_heap e' = e_heap e
     end.
Proof.
  intros Hok. destruct o as [[data|]|x]; [|done|].
  - intros (-> & Hnext & d & Hheap).
    pose proof (heap_ok_fresh e Hok) as Hfresh.
    split; [by apply (heap_ok_alloc e e' d)|].
    split; [done|]. split; [by exists d|].
    intros l d0 Hl. rewrite Hheap, lookup_insert_ne; [done|].
    intros <-. by rewrite Hfresh in Hl.
  - intros [Hheap Hnext]. split; [by apply (heap_ok_same e)|done].
Qed.
End Allocation.

(** X1. For [retries >= 1], whatever the operation does, [async_retry]
    invokes it [n] times for some [1 <= n <= retries] and hands on the
    outcome of the last invocation: its value if it returned, its error if it
    raised.  Every earlier invocation raised, a raising last invocation is
    the [retries]-th, and there is exactly one backoff sleep between two
    invocations and none after the last. *)
Theorem async_retry_hands_on_last_outcome {St A Args : Type}
    (func : Args -> act St A) (args : Args) (R : Z) (D : float) (w : world St) :
  (1 <= R)%Z ->
  let r := async_retry func R D args w in
  exists n : nat,
    1 <= n <= Z.to_nat R
    /\ calls_in (new_events w (snd r)) = n
    /\ sleeps_in (new_events w (snd r)) = n - 1
    /\ fst r = match outcome_at func args (n - 1) (w_env w) with
               | Ret v => Ret (Some v)
               | Raise x => Raise x
               end
    /\ (forall j, j < n - 1 -> exists x, outcome_at func args j (w_env w) = Raise x)
    /\ ((exists x, outcome_at func args (n - 1) (w_env w) = Raise x)
        -> n = Z.to_nat R).
Proof.
  intros HR r. subst r.
  destruct (async_retry_run func args R D w HR)
    as (n & added & Hn & Hres & Htrace & Hcalls & Hsleeps & Hfail & Hlast).
  exists n. rewrite (new_events_app _ _ _ Htrace). auto 10.
Qed.

(** The statement on an operation that fails twice, with [retries = 5]. *)
Lemma async_retry_hands_on_last_outcome_on_flaky :
  (1 <= 5)%Z
  /\ (let w := Double.world_drawing 0 0 in
      let r := async_retry (Double.flaky 2) 5 default_delay tt w in
      exists n : nat,
        1 <= n <= Z.to_nat 5
        /\ calls_in (new_events w (snd r)) = n
        /\ sleeps_in (new_events w (snd r)) = n - 1
        /\ fst r = match outcome_at (Double.flaky 2) tt (n - 1) (w_env w) with
                   | Ret v => Ret (Some v)
                   | Raise x => Raise x
                   end
        /\ (forall j, j < n - 1 ->
              exists x, outcome_at (Double.flaky 2) tt j (w_env w) = Raise x)
        /\ ((exists x, outcome_at (Double.flaky 2) tt (n - 1) (w_env w) = Raise x)
            -> n = Z.to_nat 5)).
Proof.
  assert (HR : (1 <= 5)%Z) by discriminate.
  split; [exact HR|].
  exact (async_retry_hands_on_last_outcome (Double.flaky 2) tt 5 default_delay
           (Double.world_drawing 0 0) HR).
Defined.


(** ** The facades, with their default parameters *)

Section DefaultRuns.
Context {St A : Type} (fetch : unit -> act St A).

(** The sleeps of any run with an integer delay in range. *)
Lemma async_retry_sleeps_in_range (R d : Z) (w : world St) :
  (0 <= d <= 2 ^ 53 - 2)%Z ->
  Forall (fun s => F64.leb (F64.of_int d) s = true
                   /\ F64.leb s (F64.of_int (d + 2)) = true)
         (sleep_times (new_events w (snd (async_retry fetch R (F64.of_int d) tt w)))).
Proof.
  intros Hd. unfold async_retry.
  destruct (retry_loop_shape fetch tt R (F64.of_int d) (py_range R) w)
    as (done & closing & Htrace & Hquiet & _).
  rewrite (new_events_app _ _ _ Htrace), sleep_times_app, sleep_times_backoff,
    Hquiet, app_nil_r.
  apply Forall_map, Forall_forall. intros i _. by apply sleep_in_closed_range.
Qed.

Lemma async_retry_within_default_budget (w : world St) :
  within_default_budget w (async_retry fetch default_retries default_delay tt w).
Proof.
  destruct (async_retry_run fetch tt default_retries default_delay w ltac:(done))
    as (n & added & Hn & Hres & Htrace & Hcalls & Hsleeps & _).
  unfold within_default_budget.
  rewrite (new_events_app _ _ _ Htrace), Hcalls, Hsleeps.
  change (Z.to_nat default_retries) with 3 in Hn.
  repeat split; try lia.
  - rewrite Hres. by destruct (outcome_at fetch tt (n - 1) (w_env w)).
  - rewrite <- (new_events_app _ _ _ Htrace).
    apply (async_retry_sleeps_in_range default_retries 5 w). split; discriminate.
Qed.
End DefaultRuns.

(** X3. Whatever the provider does, a call of any of the three facades makes
    between one and three attempts, sleeps once between two attempts and not
    after the last, requests only sleeps of 5 to 7 seconds, and ends with the
    provider's result or with an error: a facade never returns [None]. *)
Theorem facades_stay_within_default_budget {X : Type} (pytrends : TrendReq X)
    (w : world (env X)) :
  (forall keywords timeframe geo,
      within_default_budget w
        (get_interest_over_time pytrends keywords timeframe geo w))
  /\ (forall keyword resolution geo,
      within_default_budget w
        (get_interest_by_region pytrends keyword resolution geo w))
  /\ (forall keyword geo,
      within_default_budget w (get_related_queries pytrends keyword geo w)).
Proof.
  repeat split; intros; apply async_retry_within_default_budget.
Qed.

Section ClosureOutcomes.
Context {X : Type} (pytrends : TrendReq X).

(** A closure whose payload is accepted and whose retrieval raises. *)
Lemma closure_raises_at_retrieval {T B} kw_list timeframe geo (c : ext_call)
    (m : act X T) (k : T -> act (env X) B) (e : env X) (x : exn) (x1 x2 : X) :
  tr_build_payload pytrends kw_list timeframe geo (e_ext e) = (Ret tt, x1) ->
  m x1 = (Raise x, x2) ->
  bind (build_payload pytrends kw_list timeframe geo)
       (fun _ => bind (external c m) k) e
  = (Raise x,
     Env x2 (e_heap e) (e_next e)
         (e_calls e ++ [CallBuildPayload kw_list timeframe geo; c])).
Proof.
  intros Hbuild Hm. unfold bind, build_payload.
  rewrite external_eq, Hbuild. simpl.
  rewrite external_eq. simpl. rewrite Hm. simpl. by rewrite <- app_assoc.
Qed.

Lemma get_related_queries_first_try keyword geo (w : world (env X))
    (r : related) (x1 x2 : X) :
  tr_build_payload pytrends [keyword] None geo (e_ext (w_env w)) = (Ret tt, x1) ->
  tr_related_queries pytrends x1 = (Ret r, x2) ->
  get_related_queries pytrends keyword geo w
  = (Ret (Some r),
     World (Env x2 (e_heap (w_env w)) (e_next (w_env w))
                (e_calls (w_env w)
                   ++ [CallBuildPayload [keyword] None geo; CallRelatedQueries]))
           (w_rng w) (w_draws w) (w_trace w ++ [EvCall 0])).
Proof.
  intros Hbuild Hget. unfold get_related_queries.
  assert (Hfetch : fetch_related_queries pytrends keyword geo tt (w_env w)
                   = (Ret r,
                      Env x2 (e_heap (w_env w)) (e_next (w_env w))
                          (e_calls (w_env w)
                             ++ [CallBuildPayload [keyword] None geo;
                                 CallRelatedQueries]))).
  { unfold fetch_related_queries, related_queries, bind, build_payload.
    rewrite external_eq, Hbuild. simpl.
    rewrite external_eq. simpl. rewrite Hget. simpl. by rewrite <- app_assoc. }
  rewrite (async_retry_first_try _ _ _ r); by rewrite Hfetch.
Qed.
End ClosureOutcomes.

(** X4. A facade whose first attempt goes through hands the provider's answer
    on as it is, after that single attempt: nothing is printed, no sleep is
    requested and no random value is drawn.  When the heap is in order before
    the call (no object at the next free location or beyond), the two table
    facades return a reference that no object had before, the heap after the
    call is the heap before it with the provider's table stored under that
    reference, and the heap is in order again.  The related-queries facade
    returns the provider's value and leaves the heap alone. *)
Theorem facades_pass_first_answer_through {X : Type} (pytrends : TrendReq X) :
  (forall keywords timeframe geo (w : world (env X)) d x1 x2,
      heap_ok (w_env w) ->
      tr_build_payload pytrends keywords (Some timeframe) geo (e_ext (w_env w))
      = (Ret tt, x1) ->
      tr_interest_over_time pytrends x1 = (Ret d, x2) ->
      exists data w',
        get_interest_over_time pytrends keywords timeframe geo w
        = (Ret (Some data), w')
        /\ e_heap (w_env w) !! data = None
        /\ e_heap (w_env w') = <[data := d]> (e_heap (w_env w))
        /\ heap_ok (w_env w')
        /\ e_ext (w_env w') = x2
        /\ new_events w w' = [EvCall 0]
        /\ w_draws w' = w_draws w)
  /\ (forall keyword resolution geo (w : world (env X)) d x1 x2,
      heap_ok (w_env w) ->
      tr_build_payload pytrends [keyword] None geo (e_ext (w_env w)) = (Ret tt, x1) ->
      tr_interest_by_region pytrends resolution x1 = (Ret d, x2) ->
      exists data w',
        get_interest_by_region pytrends keyword resolution geo w
        = (Ret (Some data), w')
        /\ e_heap (w_env w) !! data = None
        /\ e_heap (w_env w') = <[data := d]> (e_heap (w_env w))
        /\ heap_ok (w_env w')
        /\ e_ext (w_env w') = x2
        /\ new_events w w' = [EvCall 0]
        /\ w_draws w' = w_draws w)
  /\ (forall keyword geo (w : world (env X)) r x1 x2,
      tr_build_payload pytrends [keyword] None geo (e_ext (w_env w)) = (Ret tt, x1) ->
      tr_related_queries pytrends x1 = (Ret r, x2) ->
      exists w',
        get_related_queries pytrends keyword geo w = (Ret (Some r), w')
        /\ e_heap (w_env w') = e_heap (w_env w)
        /\ e_next (w_env w') = e_next (w_env w)
        /\ e_ext (w_env w') = x2
        /\ new_events w w' = [EvCall 0]
        /\ w_draws w' = w_draws w).
Proof.
  split; [|split].
  - intros keywords timeframe geo w d x1 x2 Hok Hbuild Hget.
    eexists _, _. split.
    + apply (get_interest_over_time_first_try pytrends keywords timeframe geo
               w d x1 x2 Hbuild Hget).
    + cbn [w_env e_heap e_ext w_draws].
      split; [by apply heap_ok_fresh|]. split; [done|].
      split; [by apply (heap_ok_alloc (w_env w) _ d)|].
      repeat split; auto. by apply new_events_app.
  - intros keyword resolution geo w d x1 x2 Hok Hbuild Hget.
    eexists _, _. split.
    + apply (get_interest_by_region_first_try pytrends keyword resolution geo
               w d x1 x2 Hbuild Hget).
    + cbn [w_env e_heap e_ext w_draws].
      split; [by apply heap_ok_fresh|]. split; [done|].
      split; [by apply (heap_ok_alloc (w_env w) _ d)|].
      repeat split; auto. by apply new_events_app.
  - intros keyword geo w r x1 x2 Hbuild Hget.
    eexists. split.
    + apply (get_related_queries_first_try pytrends keyword geo w r x1 x2
               Hbuild Hget).
    + simpl. repeat split; auto. by apply new_events_app.
Qed.

(** The statement on a provider that answers at once, from the empty heap. *)
Lemma facades_pass_first_answer_through_on_fake :
  let pytrends := Double.fake_pytrends 0 Double.trend_frame Double.region_frame in
  let w := Double.world_drawing 0 Double.fresh_env in
  heap_ok (w_env w)
  /\ (exists data w',
      get_interest_over_time pytrends ["Holiday Sales"] "today 12-m" "US" w
      = (Ret (Some data), w')
      /\ e_heap (w_env w) !! data = None
      /\ e_heap (w_env w') = <[data := Double.trend_frame]> (e_heap (w_env w))
      /\ heap_ok (w_env w')
      /\ e_ext (w_env w') = 1
      /\ new_events w w' = [EvCall 0]
      /\ w_draws w' = w_draws w)
  /\ (exists data w',
      get_interest_by_region pytrends "Holiday Sales" "REGION" "US" w
      = (Ret (Some data), w')
      /\ e_heap (w_env w) !! data = None
      /\ e_heap (w_env w') = <[data := Double.region_frame]> (e_heap (w_env w))
      /\ heap_ok (w_env w')
      /\ e_ext (w_env w') = 1
      /\ new_events w w' = [EvCall 0]
      /\ w_draws w' = w_draws w)
  /\ (exists w',
      get_related_queries pytrends "Holiday Sales" "US" w = (Ret (Some []), w')
      /\ e_heap (w_env w') = e_heap (w_env w)
      /\ e_next (w_env w') = e_next (w_env w)
      /\ e_ext (w_env w') = 1
      /\ new_events w w' = [EvCall 0]
      /\ w_draws w' = w_draws w).
Proof.
  intros pytrends w.
  assert (Hok : heap_ok (w_env w)) by (intros l _; apply lookup_empty).
  pose proof (facades_pass_first_answer_through pytrends) as (Hot & Hbr & Hrq).
  split; [exact Hok|]. split; [|split].
  - apply (Hot ["Holiday Sales"] "today 12-m" "US" w Double.trend_frame 0 1 Hok);
      reflexivity.
  - apply (Hbr "Holiday Sales" "REGION" "US" w Double.region_frame 0 1 Hok);
      reflexivity.
  - apply (Hrq "Holiday Sales" "US" w [] 0 1); reflexivity.
Defined.

(** X5. A transient failure of the provider: the first retrieval raises, the
    second answers.  [get_interest_over_time] then returns the table of the
    second answer after two attempts; the payload has been built twice, one
    line "Retrying in ...s... (Attempt 1)" has been printed and one sleep
    requested, of the default delay plus the jitter of the next random draw;
    the failed attempt has left no object on the heap. *)
Theorem get_interest_over_time_recovers {X : Type} (pytrends : TrendReq X)
    (keywords : list string) (timeframe geo : string) (w : world (env X))
    (x : exn) (d : DataFrame) (x1 x2 x3 x4 : X) :
  tr_build_payload pytrends keywords (Some timeframe) geo (e_ext (w_env w))
  = (Ret tt, x1) ->
  tr_interest_over_time pytrends x1 = (Raise x, x2) ->
  tr_build_payload pytrends keywords (Some timeframe) geo x2 = (Ret tt, x3) ->
  tr_interest_over_time pytrends x3 = (Ret d, x4) ->
  exists data w',
    get_interest_over_time pytrends keywords timeframe geo w = (Ret (Some data), w')
    /\ e_heap (w_env w') = <[data := d]> (e_heap (w_env w))
    /\ e_ext (w_env w') = x4
    /\ e_calls (w_env w')
       = e_calls (w_env w)
           ++ [CallBuildPayload keywords (Some timeframe) geo; CallInterestOverTime;
               CallBuildPayload keywords (Some timeframe) geo; CallInterestOverTime]
    /\ new_events w w'
       = [EvCall 0;
          EvPrint (retrying_line (sleep_time default_delay (w_rng w) (w_draws w)) 0);
          EvSleep (sleep_time default_delay (w_rng w) (w_draws w));
          EvCall 1]
    /\ w_draws w' = S (w_draws w).
Proof.
  intros Hbuild1 Hget1 Hbuild2 Hget2.
  set (fetch := fetch_interest_over_time pytrends keywords timeframe geo).
  assert (Hfirst : fetch tt (w_env w)
                   = (Raise x,
                      Env x2 (e_heap (w_env w)) (e_next (w_env w))
                          (e_calls (w_env w)
                             ++ [CallBuildPayload keywords (Some timeframe) geo;
                                 CallInterestOverTime]))).
  { apply (closure_raises_at_retrieval pytrends keywords (Some timeframe) geo
             CallInterestOverTime (tr_interest_over_time pytrends)
             (fun d => new_frame d) (w_env w) x x1 x2 Hbuild1 Hget1). }
  unfold get_interest_over_time. fold fetch.
  rewrite (async_retry_after_failures fetch tt default_retries default_delay w 1).
  - change (Z.to_nat default_retries - 1) with 2. cbn [seq map].
    cbn [env_after length py_range]. rewrite Hfirst. cbn [snd].
    change (py_range (Z.of_nat 1)) with [0%Z].
    set (w1 := World _ _ _ _).
    pose proof (closure_returns_frame pytrends keywords (Some timeframe) geo
                  CallInterestOverTime (tr_interest_over_time pytrends)
                  (w_env w1) d x3 x4 Hbuild2 Hget2) as Hsecond.
    rewrite (retry_loop_returns fetch tt default_retries default_delay _ _ w1
               (e_next (w_env w1)))
      by (unfold fetch, fetch_interest_over_time, interest_over_time;
          by rewrite Hsecond).
    unfold fetch, fetch_interest_over_time, interest_over_time.
    rewrite Hsecond. subst w1.
    cbn [w_env w_trace w_draws w_rng e_heap e_ext e_calls e_next fst snd
         backoff_events].
    eexists _, _. split; [reflexivity|].
    cbn [w_env w_trace w_draws w_rng e_heap e_ext e_calls e_next fst snd].
    repeat split; auto.
    + by rewrite <- app_assoc.
    + apply new_events_app. cbn [w_trace]. by rewrite <- app_assoc.
    + lia.
  - change (Z.to_nat default_retries) with 3. lia.
  - intros j Hj. assert (j = 0) as -> by lia. exists x.
    unfold outcome_at. cbn [env_after]. by rewrite Hfirst.
Qed.

(** The statement on a provider whose first retrieval fails. *)
Lemma get_interest_over_time_recovers_on_fake :
  let pytrends := Double.fake_pytrends 1 Double.trend_frame Double.region_frame in
  let w := Double.world_drawing 0 Double.fresh_env in
  exists data w',
    get_interest_over_time pytrends ["Holiday Sales"] "today 12-m" "US" w
    = (Ret (Some data), w')
    /\ e_heap (w_env w') = <[data := Double.trend_frame]> (e_heap (w_env w))
    /\ e_ext (w_env w') = 2
    /\ e_calls (w_env w')
       = e_calls (w_env w)
           ++ [CallBuildPayload ["Holiday Sales"] (Some "today 12-m") "US";
               CallInterestOverTime;
               CallBuildPayload ["Holiday Sales"] (Some "today 12-m") "US";
               CallInterestOverTime]
    /\ new_events w w'
       = [EvCall 0;
          EvPrint (retrying_line (sleep_time default_delay (w_rng w) (w_draws w)) 0);
          EvSleep (sleep_time default_delay (w_rng w) (w_draws w));
          EvCall 1]
    /\ w_draws w' = S (w_draws w).
Proof.
  intros pytrends w.
  apply (get_interest_over_time_recovers pytrends ["Holiday Sales"] "today 12-m"
           "US" w
           (Exn "ResponseError"
                "The request failed: Google returned a response with code 429")
           Double.trend_frame 0 1 1 2);
    reflexivity.
Defined.

(** ** The plots, call by call *)

Section PlotRuns.
Context {X : Type} (px : Plotly X).

Lemma render_all_accepted (c1 c2 c3 : ext_call) (e : env X) :
  (forall c x, fst (px c x) = Ret tt) ->
  exists x',
    bind (plotly px c1) (fun _ => bind (plotly px c2) (fun _ => plotly px c3)) e
    = (Ret tt, Env x' (e_heap e) (e_next e) (e_calls e ++ [c1; c2; c3])).
Proof.
  intros Hok. unfold bind.
  rewrite plotly_eq, Hok. simpl. rewrite plotly_eq, Hok. simpl.
  rewrite plotly_eq, Hok. simpl. eexists. by rewrite <- !app_assoc.
Qed.

Lemma render_first_raises (c1 c2 c3 : ext_call) (e : env X) (x : exn) :
  fst (px c1 (e_ext e)) = Raise x ->
  bind (plotly px c1) (fun _ => bind (plotly px c2) (fun _ => plotly px c3)) e
  = (Raise x,
     Env (snd (px c1 (e_ext e))) (e_heap e) (e_next e) (e_calls e ++ [c1])).
Proof. intros Hx. unfold bind. by rewrite plotly_eq, Hx. Qed.

Lemma plot_interest_over_time_after_reset data title (e : env X) d :
  e_heap e !! data = Some d ->
  index_label d ∉ columns d ->
  plot_interest_over_time px data title e
  = bind (plotly px (CallLine (reset_frame d) "date"
                       (all_but_last (columns (reset_frame d))) title))
         (fun _ => bind (plotly px (CallUpdateLayout
                                      (AxisTitles "Date" "Search Interest")))
                        (fun _ => plotly px CallShow))
         (Env (e_ext e) (<[data := reset_frame d]> (e_heap e)) (e_next e)
              (e_calls e)).
Proof.
  intros Hd Hfresh. unfold plot_interest_over_time. unfold bind at 1.
  rewrite reset_index_inplace_eq, Hd, (reset_index_fresh d Hfresh).
  unfold bind at 1, read_frame. cbn [e_heap]. by rewrite lookup_insert_eq.
Qed.

Lemma plot_interest_by_region_after_reset data keyword title (e : env X) d :
  e_heap e !! data = Some d ->
  index_label d ∉ columns d ->
  plot_interest_by_region px data keyword title e
  = bind (plotly px (CallChoropleth (reset_frame d) (df_index (reset_frame d))
                       "country names" keyword title Viridis))
         (fun _ => bind (plotly px (CallUpdateLayout (Geo false false)))
                        (fun _ => plotly px CallShow))
         (Env (e_ext e) (<[data := reset_frame d]> (e_heap e)) (e_next e)
              (e_calls e)).
Proof.
  intros Hd Hfresh. unfold plot_interest_by_region. unfold bind at 1.
  rewrite reset_index_inplace_eq, Hd, (reset_index_fresh d Hfresh).
  unfold bind at 1, read_frame. cbn [e_heap]. by rewrite lookup_insert_eq.
Qed.

Lemma reset_index_clash (d : DataFrame) :
  index_label d ∈ columns d ->
  reset_index d
  = Raise (Exn "ValueError"
               ("cannot insert " +:+ index_label d +:+ ", already exists")).
Proof.
  intros Hclash. unfold reset_index, mem_string.
  by rewrite bool_decide_eq_true_2.
Qed.

Lemma plots_on_clash data keyword title (e : env X) d :
  e_heap e !! data = Some d ->
  index_label d ∈ columns d ->
  plot_interest_over_time px data title e
  = (Raise (Exn "ValueError"
                ("cannot insert " +:+ index_label d +:+ ", already exists")), e)
  /\ plot_interest_by_region px data keyword title e
     = (Raise (Exn "ValueError"
                   ("cannot insert " +:+ index_label d +:+ ", already exists")), e).
Proof.
  intros Hd Hclash.
  split; [unfold plot_interest_over_time | unfold plot_interest_by_region];
    unfold bind at 1;
    by rewrite reset_index_inplace_eq, Hd, (reset_index_clash d Hclash).
Qed.

(** Both plots against a renderer that accepts every call. *)
Lemma plot_interest_over_time_accepted data title (e : env X) d :
  e_heap e !! data = Some d ->
  index_label d ∉ columns d ->
  (forall c x, fst (px c x) = Ret tt) ->
  exists x',
    plot_interest_over_time px data title e
    = (Ret tt,
       Env x' (<[data := reset_frame d]> (e_heap e)) (e_next e)
           (e_calls e
              ++ [CallLine (reset_frame d) "date"
                    (all_but_last (index_label d :: columns d)) title;
                  CallUpdateLayout (AxisTitles "Date" "Search Interest");
                  CallShow])).
Proof.
  intros Hd Hfresh Hok.
  rewrite (plot_interest_over_time_after_reset data title e d Hd Hfresh).
  match goal with
  | |- context [bind (plotly px ?c1) (fun _ => bind (plotly px ?c2) (fun _ => plotly px ?c3)) ?e1] =>
      destruct (render_all_accepted c1 c2 c3 e1 Hok) as [x' Hrun]
  end.
  exists x'. exact Hrun.
Qed.

Lemma plot_interest_by_region_accepted data keyword title (e : env X) d :
  e_heap e !! data = Some d ->
  index_label d ∉ columns d ->
  (forall c x, fst (px c x) = Ret tt) ->
  exists x',
    plot_interest_by_region px data keyword title e
    = (Ret tt,
       Env x' (<[data := reset_frame d]> (e_heap e)) (e_next e)
           (e_calls e
              ++ [CallChoropleth (reset_frame d)
                    (range_index (length (df_index d))) "country names"
                    keyword title Viridis;
                  CallUpdateLayout (Geo false false);
                  CallShow])).
Proof.
  intros Hd Hfresh Hok.
  rewrite (plot_interest_by_region_after_reset data keyword title e d Hd Hfresh).
  match goal with
  | |- context [bind (plotly px ?c1) (fun _ => bind (plotly px ?c2) (fun _ => plotly px ?c3)) ?e1] =>
      destruct (render_all_accepted c1 c2 c3 e1 Hok) as [x' Hrun]
  end.
  exists x'. exact Hrun.
Qed.
End PlotRuns.

(** X6. When the label that [reset_index] would give the old index is
    already the name of a column, both plots raise pandas' [ValueError]
    "cannot insert ..., already exists" before anything is drawn: no call
    reaches plotly and the frame is left as it was. *)
Theorem plots_raise_on_index_label_clash {X : Type} (px : Plotly X)
    (data : loc) (keyword title : string) (e : env X) (d : DataFrame) :
  e_heap e !! data = Some d ->
  index_label d ∈ columns d ->
  plot_interest_over_time px data title e
  = (Raise (Exn "ValueError"
                ("cannot insert " +:+ index_label d +:+ ", already exists")), e)
  /\ plot_interest_by_region px data keyword title e
     = (Raise (Exn "ValueError"
                   ("cannot insert " +:+ index_label d +:+ ", already exists")), e).
Proof. intros Hd Hclash. by apply plots_on_clash. Qed.

(** The statement on a regional table whose column is called "geoName". *)
Lemma plots_raise_on_index_label_clash_on_geoName :
  let e := Double.env_holding Double.clashing_frame in
  e_heap e !! 0 = Some Double.clashing_frame
  /\ (index_label Double.clashing_frame ∈ columns Double.clashing_frame)
  /\ plot_interest_over_time Double.fake_plotly 0 "Interest Over Time" e
     = (Raise (Exn "ValueError"
                   ("cannot insert " +:+ index_label Double.clashing_frame
                      +:+ ", already exists")), e)
  /\ plot_interest_by_region Double.fake_plotly 0 "geoName" "Regional Interest" e
     = (Raise (Exn "ValueError"
                   ("cannot insert " +:+ index_label Double.clashing_frame
                      +:+ ", already exists")), e).
Proof.
  intros e.
  assert (Hd : e_heap e !! 0 = Some Double.clashing_frame) by reflexivity.
  assert (Hclash : index_label Double.clashing_frame
                   ∈ columns Double.clashing_frame).
  { apply (bool_decide_unpack _). vm_compute. exact I. }
  split; [exact Hd|]. split; [exact Hclash|].
  exact (plots_raise_on_index_label_clash Double.fake_plotly 0 "geoName"
           "Interest Over Time" e Double.clashing_frame Hd Hclash).
Defined.

(** X7. The line chart, for a frame whose index label is not already one of
    its columns (so that the index can be reset) and a renderer that accepts
    every call.  The frame is reset in place first, so the chart is made of
    the reset frame, with x = "date" and, as y, every column of the reset
    frame but the last: the label of the former index, followed by the
    frame's original columns without the last one.  The layout is then given
    the two axis titles and the figure is shown; these three are the only
    calls, in this order. *)
Theorem plot_interest_over_time_draws {X : Type} (px : Plotly X) (data : loc)
    (title : string) (e : env X) (d : DataFrame) :
  e_heap e !! data = Some d ->
  index_label d ∉ columns d ->
  (forall c x, fst (px c x) = Ret tt) ->
  exists x',
    plot_interest_over_time px data title e
    = (Ret tt,
       Env x' (<[data := reset_frame d]> (e_heap e)) (e_next e)
           (e_calls e
              ++ [CallLine (reset_frame d) "date"
                    (all_but_last (index_label d :: columns d)) title;
                  CallUpdateLayout (AxisTitles "Date" "Search Interest");
                  CallShow]))
    /\ (columns d <> [] ->
        all_but_last (index_label d :: columns d)
        = index_label d :: all_but_last (columns d)).
Proof.
  intros Hd Hfresh Hok.
  destruct (plot_interest_over_time_accepted px data title e d Hd Hfresh Hok)
    as [x' Hrun].
  exists x'. split; [exact Hrun|].
  unfold all_but_last. by destruct (columns d).
Qed.

(** The statement on a time-series table of the provider. *)
Lemma plot_interest_over_time_draws_trend_frame :
  exists x',
    plot_interest_over_time Double.fake_plotly 0 "Emerging Trends in the US"
      (Double.env_holding Double.trend_frame)
    = (Ret tt,
       Env x' (<[0 := reset_frame Double.trend_frame]>
                 (e_heap (Double.env_holding Double.trend_frame)))
           (e_next (Double.env_holding Double.trend_frame))
           (e_calls (Double.env_holding Double.trend_frame)
              ++ [CallLine (reset_frame Double.trend_frame) "date"
                    (all_but_last (index_label Double.trend_frame
                                     :: columns Double.trend_frame))
                    "Emerging Trends in the US";
                  CallUpdateLayout (AxisTitles "Date" "Search Interest");
                  CallShow]))
    /\ (columns Double.trend_frame <> [] ->
        all_but_last (index_label Double.trend_frame :: columns Double.trend_frame)
        = index_label Double.trend_frame
            :: all_but_last (columns Double.trend_frame)).
Proof.
  apply (plot_interest_over_time_draws Double.fake_plotly 0
           "Emerging Trends in the US" (Double.env_holding Double.trend_frame)
           Double.trend_frame).
  - reflexivity.
  - apply (bool_decide_unpack _). vm_compute. exact I.
  - reflexivity.
Defined.

(** X8. The choropleth, for a frame whose index label is not already one of
    its columns (so that the index can be reset) and a renderer that accepts
    every call.  The frame is reset in place first, so the chart is made of
    the reset frame and its [locations] are the index of that frame: the row
    numbers [0 .. n-1], the former index (the region names) being by then the
    first column.  The layout is then given the [geo] settings and the
    figure is shown; these three are the only calls, in this order. *)
Theorem plot_interest_by_region_draws {X : Type} (px : Plotly X) (data : loc)
    (keyword title : string) (e : env X) (d : DataFrame) :
  e_heap e !! data = Some d ->
  index_label d ∉ columns d ->
  (forall c x, fst (px c x) = Ret tt) ->
  exists x',
    plot_interest_by_region px data keyword title e
    = (Ret tt,
       Env x' (<[data := reset_frame d]> (e_heap e)) (e_next e)
           (e_calls e
              ++ [CallChoropleth (reset_frame d)
                    (range_index (length (df_index d))) "country names"
                    keyword title Viridis;
                  CallUpdateLayout (Geo false false);
                  CallShow]))
    /\ df_cols (reset_frame d) !! 0 = Some (index_label d, df_index d).
Proof.
  intros Hd Hfresh Hok.
  destruct (plot_interest_by_region_accepted px data keyword title e d
              Hd Hfresh Hok) as [x' Hrun].
  by exists x'.
Qed.

(** The statement on a regional table of the provider. *)
Lemma plot_interest_by_region_draws_region_frame :
  exists x',
    plot_interest_by_region Double.fake_plotly 0 "Holiday Sales"
      "Regional Interest in the US" (Double.env_holding Double.region_frame)
    = (Ret tt,
       Env x' (<[0 := reset_frame Double.region_frame]>
                 (e_heap (Double.env_holding Double.region_frame)))
           (e_next (Double.env_holding Double.region_frame))
           (e_calls (Double.env_holding Double.region_frame)
              ++ [CallChoropleth (reset_frame Double.region_frame)
                    (range_index (length (df_index Double.region_frame)))
                    "country names" "Holiday Sales"
                    "Regional Interest in the US" Viridis;
                  CallUpdateLayout (Geo false false);
                  CallShow]))
    /\ df_cols (reset_frame Double.region_frame) !! 0
       = Some (index_label Double.region_frame, df_index Double.region_frame).
Proof.
  apply (plot_interest_by_region_draws Double.fake_plotly 0 "Holiday Sales"
           "Regional Interest in the US" (Double.env_holding Double.region_frame)
           Double.region_frame).
  - reflexivity.
  - apply (bool_decide_unpack _). vm_compute. exact I.
  - reflexivity.
Defined.

(** ** Plotting the same frame again *)

Lemma index_label_unnamed_fresh (d : DataFrame) :
  df_index_name d = None -> "index" ∉ columns d -> index_label d = "index".
Proof.
  intros Hname Hfresh. unfold index_label, mem_string.
  by rewrite Hname, bool_decide_eq_false_2.
Qed.

Lemma index_label_unnamed_taken (d : DataFrame) :
  df_index_name d = None -> "index" ∈ columns d -> index_label d = "level_0".
Proof.
  intros Hname Htaken. unfold index_label, mem_string.
  by rewrite Hname, bool_decide_eq_true_2.
Qed.

(** X9. Plotting is not repeatable on the same frame.  Take a frame whose
    index label is not one of its columns, where neither "index" nor
    "level_0" is the index label or a column, and a renderer that accepts
    every call.  Each plot resets the index of the caller's frame once more:
    the first puts the former index in front of the columns, the second adds
    a column "index", the third a column "level_0", and the fourth raises
    pandas' [ValueError] "cannot insert level_0, already exists" before it
    draws anything. *)
Theorem fourth_plot_of_a_frame_raises {X : Type} (px : Plotly X) (data : loc)
    (title : string) (e : env X) (d : DataFrame) :
  e_heap e !! data = Some d ->
  index_label d ∉ columns d ->
  "index" ∉ index_label d :: columns d ->
  "level_0" ∉ index_label d :: columns d ->
  (forall c x, fst (px c x) = Ret tt) ->
  exists e3,
    bind (plot_interest_over_time px data title)
         (fun _ => bind (plot_interest_over_time px data title)
                        (fun _ => plot_interest_over_time px data title)) e
    = (Ret tt, e3)
    /\ columns <$> (e_heap e3 !! data)
       = Some ("level_0" :: "index" :: index_label d :: columns d)
    /\ plot_interest_over_time px data title e3
       = (Raise (Exn "ValueError" "cannot insert level_0, already exists"), e3).
Proof.
  intros Hd Hfresh Hindex Hlevel Hok.
  destruct (plot_interest_over_time_accepted px data title e d Hd Hfresh Hok)
    as [x1 Hrun1].
  set (d1 := reset_frame d) in *.
  assert (Hcols1 : columns d1 = index_label d :: columns d) by reflexivity.
  assert (Hlabel1 : index_label d1 = "index").
  { apply index_label_unnamed_fresh; [done|by rewrite Hcols1]. }
  match type of Hrun1 with _ = (_, ?e') => set (e1 := e') in * end.
  assert (Hd1 : e_heap e1 !! data = Some d1) by apply lookup_insert_eq.
  assert (Hfresh1 : index_label d1 ∉ columns d1) by (by rewrite Hlabel1, Hcols1).
  destruct (plot_interest_over_time_accepted px data title e1 d1 Hd1 Hfresh1 Hok)
    as [x2 Hrun2].
  set (d2 := reset_frame d1) in *.
  assert (Hcols2 : columns d2 = "index" :: index_label d :: columns d).
  { unfold d2, reset_frame, columns. cbn [df_cols map fst].
    by rewrite Hlabel1. }
  assert (Hlabel2 : index_label d2 = "level_0").
  { apply index_label_unnamed_taken; [done|]. rewrite Hcols2. set_solver. }
  match type of Hrun2 with _ = (_, ?e') => set (e2 := e') in * end.
  assert (Hd2 : e_heap e2 !! data = Some d2) by apply lookup_insert_eq.
  assert (Hfresh2 : index_label d2 ∉ columns d2).
  { rewrite Hlabel2, Hcols2. intros [Heq|Hin]%elem_of_cons; [done|].
    by apply Hlevel. }
  destruct (plot_interest_over_time_accepted px data title e2 d2 Hd2 Hfresh2 Hok)
    as [x3 Hrun3].
  set (d3 := reset_frame d2) in *.
  assert (Hcols3 : columns d3 = "level_0" :: "index" :: index_label d :: columns d).
  { unfold d3, reset_frame, columns. cbn [df_cols map fst].
    rewrite Hlabel2. f_equal. exact Hcols2. }
  assert (Hlabel3 : index_label d3 = "level_0").
  { apply index_label_unnamed_taken; [done|]. rewrite Hcols3. set_solver. }
  match type of Hrun3 with _ = (_, ?e') => set (e3 := e') in * end.
  assert (Hd3 : e_heap e3 !! data = Some d3) by apply lookup_insert_eq.
  exists e3. split; [|split].
  - unfold bind at 1. rewrite Hrun1. unfold bind at 1. by rewrite Hrun2.
  - by rewrite Hd3, <- Hcols3.
  - destruct (plots_on_clash px data "" title e3 d3 Hd3) as [Hraise _].
    + rewrite Hlabel3, Hcols3. set_solver.
    + by rewrite Hlabel3 in Hraise.
Qed.

(** The statement on a time-series table of the provider. *)
Lemma fourth_plot_of_a_frame_raises_trend_frame :
  exists e3,
    bind (plot_interest_over_time Double.fake_plotly 0 "Interest Over Time")
         (fun _ => bind (plot_interest_over_time Double.fake_plotly 0
                           "Interest Over Time")
                        (fun _ => plot_interest_over_time Double.fake_plotly 0
                                    "Interest Over Time"))
         (Double.env_holding Double.trend_frame)
    = (Ret tt, e3)
    /\ columns <$> (e_heap e3 !! 0)
       = Some ("level_0" :: "index" :: index_label Double.trend_frame
                 :: columns Double.trend_frame)
    /\ plot_interest_over_time Double.fake_plotly 0 "Interest Over Time" e3
       = (Raise (Exn "ValueError" "cannot insert level_0, already exists"), e3).
Proof.
  apply (fourth_plot_of_a_frame_raises Double.fake_plotly 0 "Interest Over Time"
           (Double.env_holding Double.trend_frame) Double.trend_frame).
  - reflexivity.
  - apply (bool_decide_unpack _). vm_compute. exact I.
  - apply (bool_decide_unpack _). vm_compute. exact I.
  - apply (bool_decide_unpack _). vm_compute. exact I.
  - reflexivity.
Defined.

(** ** The steps of [main], run by run *)

Section StepRuns.
Context {X : Type} (pytrends : TrendReq X) (px : Plotly X).

Lemma on_env_eq {St A} (m : act St A) (w : world St) :
  on_env m w
  = (fst (m (w_env w)),
     World (snd (m (w_env w))) (w_rng w) (w_draws w) (w_trace w)).
Proof. unfold on_env. by destruct (m (w_env w)). Qed.

(** A step whose facade returned a table with data goes on to its plot. *)
Lemma analyze_trends_try_plots keywords timeframe geo (w w1 : world (env X))
    (data : loc) (d : DataFrame) :
  get_interest_over_time pytrends keywords timeframe geo w = (Ret (Some data), w1) ->
  e_heap (w_env w1) !! data = Some d ->
  empty d = false ->
  analyze_trends_try pytrends px keywords timeframe geo w
  = on_env (plot_interest_over_time px data "Emerging Trends in the US") w1.
Proof.
  intros Hfacade Hd Hdata. unfold analyze_trends_try. unfold bind at 1.
  rewrite Hfacade. unfold bind at 1. rewrite on_env_eq. unfold read_frame.
  rewrite Hd. cbn [fst snd]. rewrite Hdata. by destruct w1.
Qed.

Lemma regional_analysis_try_plots geo (w w1 : world (env X)) (data : loc)
    (d : DataFrame) :
  get_interest_by_region pytrends "Holiday Sales" "COUNTRY" geo w
  = (Ret (Some data), w1) ->
  e_heap (w_env w1) !! data = Some d ->
  empty d = false ->
  regional_analysis_try pytrends px geo w
  = on_env (plot_interest_by_region px data "Holiday Sales"
              "Regional Interest in the US") w1.
Proof.
  intros Hfacade Hd Hdata. unfold regional_analysis_try. unfold bind at 1.
  rewrite Hfacade. unfold bind at 1. rewrite on_env_eq. unfold read_frame.
  rewrite Hd. cbn [fst snd]. rewrite Hdata. by destruct w1.
Qed.

(** The time-series step when the provider answers at once with data and
    the renderer accepts every call. *)
Lemma analyze_trends_plots keywords timeframe geo (w : world (env X))
    (d : DataFrame) (x1 x2 : X) :
  tr_build_payload pytrends keywords (Some timeframe) geo (e_ext (w_env w))
  = (Ret tt, x1) ->
  tr_interest_over_time pytrends x1 = (Ret d, x2) ->
  empty d = false ->
  index_label d ∉ columns d ->
  (forall c x, fst (px c x) = Ret tt) ->
  exists x',
    analyze_trends pytrends px keywords timeframe geo w
    = (Ret tt,
       World (Env x' (<[e_next (w_env w) := reset_frame d]> (e_heap (w_env w)))
                  (S (e_next (w_env w)))
                  (e_calls (w_env w)
                     ++ [CallBuildPayload keywords (Some timeframe) geo;
                         CallInterestOverTime;
                         CallLine (reset_frame d) "date"
                           (all_but_last (index_label d :: columns d))
                           "Emerging Trends in the US";
                         CallUpdateLayout (AxisTitles "Date" "Search Interest");
                         CallShow]))
             (w_rng w) (w_draws w) (w_trace w ++ [EvCall 0])).
Proof.
  intros Hbuild Hget Hdata Hfresh Hok.
  pose proof (get_interest_over_time_first_try pytrends keywords timeframe geo
                w d x1 x2 Hbuild Hget) as Hfacade.
  unfold analyze_trends, try_except.
  rewrite (analyze_trends_try_plots _ _ _ _ _ _ d Hfacade)
    by (done || apply lookup_insert_eq).
  rewrite on_env_eq. cbn [w_env w_rng w_draws w_trace].
  match goal with
  | |- context [plot_interest_over_time px ?l ?t ?e1] =>
      destruct (plot_interest_over_time_accepted px l t e1 d
                  ltac:(apply lookup_insert_eq) Hfresh Hok) as [x' Hplot]
  end.
  rewrite Hplot. cbn [fst snd e_heap e_next e_calls].
  exists x'. by rewrite insert_insert_eq, <- app_assoc.
Qed.

Lemma regional_analysis_plots geo (w : world (env X)) (d : DataFrame)
    (x1 x2 : X) :
  tr_build_payload pytrends ["Holiday Sales"] None geo (e_ext (w_env w))
  = (Ret tt, x1) ->
  tr_interest_by_region pytrends "COUNTRY" x1 = (Ret d, x2) ->
  empty d = false ->
  index_label d ∉ columns d ->
  (forall c x, fst (px c x) = Ret tt) ->
  exists x',
    regional_analysis pytrends px geo w
    = (Ret tt,
       World (Env x' (<[e_next (w_env w) := reset_frame d]> (e_heap (w_env w)))
                  (S (e_next (w_env w)))
                  (e_calls (w_env w)
                     ++ [CallBuildPayload ["Holiday Sales"] None geo;
                         CallInterestByRegion "COUNTRY";
                         CallChoropleth (reset_frame d)
                           (range_index (length (df_index d))) "country names"
                           "Holiday Sales" "Regional Interest in the US" Viridis;
                         CallUpdateLayout (Geo false false);
                         CallShow]))
             (w_rng w) (w_draws w) (w_trace w ++ [EvCall 0])).
Proof.
  intros Hbuild Hget Hdata Hfresh Hok.
  pose proof (get_interest_by_region_first_try pytrends "Holiday Sales" "COUNTRY"
                geo w d x1 x2 Hbuild Hget) as Hfacade.
  unfold regional_analysis, try_except.
  rewrite (regional_analysis_try_plots _ _ _ _ d Hfacade)
    by (done || apply lookup_insert_eq).
  rewrite on_env_eq. cbn [w_env w_rng w_draws w_trace].
  match goal with
  | |- context [plot_interest_by_region px ?l ?k ?t ?e1] =>
      destruct (plot_interest_by_region_accepted px l k t e1 d
                  ltac:(apply lookup_insert_eq) Hfresh Hok) as [x' Hplot]
  end.
  rewrite Hplot. cbn [fst snd e_heap e_next e_calls].
  exists x'. by rewrite insert_insert_eq, <- app_assoc.
Qed.
End StepRuns.

Lemma outcome_and_state {A B} (p : A * B) (a : A) : fst p = a -> p = (a, snd p).
Proof. intros <-. by destruct p. Qed.

(** X10. [main] on a good day.  The provider accepts every payload and
    answers every request with a table that has data and whose index label is
    not one of its columns; the renderer accepts every call; the heap is in
    order when [main] starts (no object at the next free location or
    beyond).  Then [main] returns after one attempt per step, without
    printing, sleeping or drawing a random value.  The calls it has made
    are, in this order: the client's constructor; payload, time series, line
    chart, layout and show; payload, regional table at resolution COUNTRY,
    choropleth, layout and show.  Its two tables are stored under two
    references that no object had before, and both are left with their index
    reset. *)
Theorem main_on_a_healthy_provider {X : Type} (pytrends : TrendReq X)
    (px : Plotly X) (w : world (env X)) (d1 d2 : DataFrame) :
  heap_ok (w_env w) ->
  fst (tr_init pytrends "en-US" 360 (e_ext (w_env w))) = Ret tt ->
  (forall kw_list timeframe geo x,
      fst (tr_build_payload pytrends kw_list timeframe geo x) = Ret tt) ->
  (forall x, fst (tr_interest_over_time pytrends x) = Ret d1) ->
  (forall x, fst (tr_interest_by_region pytrends "COUNTRY" x) = Ret d2) ->
  empty d1 = false ->
  index_label d1 ∉ columns d1 ->
  empty d2 = false ->
  index_label d2 ∉ columns d2 ->
  (forall c x, fst (px c x) = Ret tt) ->
  exists x',
    main pytrends px w
    = (Ret tt,
       World (Env x'
                  (<[S (e_next (w_env w)) := reset_frame d2]>
                     (<[e_next (w_env w) := reset_frame d1]> (e_heap (w_env w))))
                  (S (S (e_next (w_env w))))
                  (e_calls (w_env w)
                     ++ [CallTrendReq "en-US" 360;
                         CallBuildPayload
                           ["Black Friday Deals"; "Cyber Monday Deals";
                            "Holiday Sales"] (Some "today 12-m") "US";
                         CallInterestOverTime;
                         CallLine (reset_frame d1) "date"
                           (all_but_last (index_label d1 :: columns d1))
                           "Emerging Trends in the US";
                         CallUpdateLayout (AxisTitles "Date" "Search Interest");
                         CallShow;
                         CallBuildPayload ["Holiday Sales"] None "US";
                         CallInterestByRegion "COUNTRY";
                         CallChoropleth (reset_frame d2)
                           (range_index (length (df_index d2))) "country names"
                           "Holiday Sales" "Regional Interest in the US" Viridis;
                         CallUpdateLayout (Geo false false);
                         CallShow]))
             (w_rng w) (w_draws w) (w_trace w ++ [EvCall 0; EvCall 0]))
    /\ e_heap (w_env w) !! e_next (w_env w) = None
    /\ e_heap (w_env w) !! S (e_next (w_env w)) = None.
Proof.
  intros Hheap Hinit Hbuild Hot Hbr Hdata1 Hfresh1 Hdata2 Hfresh2 Hok.
  assert (Hnew : e_heap (w_env w) !! e_next (w_env w) = None
                 /\ e_heap (w_env w) !! S (e_next (w_env w)) = None)
    by (split; apply Hheap; lia).
  unfold main. unfold bind at 1. rewrite on_env_eq. unfold init.
  rewrite external_eq, (outcome_and_state _ _ Hinit). cbn [fst snd].
  set (w0 := World _ _ _ _).
  destruct (analyze_trends_plots pytrends px
              ["Black Friday Deals"; "Cyber Monday Deals"; "Holiday Sales"]
              "today 12-m" "US" w0 d1 _ _
              (outcome_and_state _ _ (Hbuild _ _ _ _))
              (outcome_and_state _ _ (Hot _)) Hdata1 Hfresh1 Hok)
    as [xa Hstep1].
  unfold bind at 1. rewrite Hstep1.
  set (w1 := World _ _ _ _).
  destruct (regional_analysis_plots pytrends px "US" w1 d2 _ _
              (outcome_and_state _ _ (Hbuild _ _ _ _))
              (outcome_and_state _ _ (Hbr _)) Hdata2 Hfresh2 Hok)
    as [xb Hstep2].
  rewrite Hstep2. subst w1 w0.
  cbn [w_env w_rng w_draws w_trace e_heap e_next e_calls e_ext].
  exists xb. split; [by rewrite <- !app_assoc|exact Hnew].
Qed.

(** The statement on a provider and a renderer that always answer. *)
Lemma main_on_a_healthy_provider_on_fake :
  exists x',
    main (Double.fake_pytrends 0 Double.trend_frame Double.region_frame)
      Double.fake_plotly (Double.world_drawing 0 Double.fresh_env)
    = (Ret tt,
       World (Env x'
                  (<[1 := reset_frame Double.region_frame]>
                     (<[0 := reset_frame Double.trend_frame]> ∅))
                  2
                  ([]
                     ++ [CallTrendReq "en-US" 360;
                         CallBuildPayload
                           ["Black Friday Deals"; "Cyber Monday Deals";
                            "Holiday Sales"] (Some "today 12-m") "US";
                         CallInterestOverTime;
                         CallLine (reset_frame Double.trend_frame) "date"
                           (all_but_last (index_label Double.trend_frame
                                            :: columns Double.trend_frame))
                           "Emerging Trends in the US";
                         CallUpdateLayout (AxisTitles "Date" "Search Interest");
                         CallShow;
                         CallBuildPayload ["Holiday Sales"] None "US";
                         CallInterestByRegion "COUNTRY";
                         CallChoropleth (reset_frame Double.region_frame)
                           (range_index (length (df_index Double.region_frame)))
                           "country names" "Holiday Sales"
                           "Regional Interest in the US" Viridis;
                         CallUpdateLayout (Geo false false);
                         CallShow]))
             (fun _ => 0%Z) 0 ([] ++ [EvCall 0; EvCall 0]))
    /\ e_heap Double.fresh_env !! 0 = None
    /\ e_heap Double.fresh_env !! 1 = None.
Proof.
  apply (main_on_a_healthy_provider
           (Double.fake_pytrends 0 Double.trend_frame Double.region_frame)
           Double.fake_plotly (Double.world_drawing 0 Double.fresh_env)
           Double.trend_frame Double.region_frame).
  - intros l _. apply lookup_empty.
  - reflexivity.
  - reflexivity.
  - reflexivity.
  - reflexivity.
  - reflexivity.
  - apply (bool_decide_unpack _). vm_compute. exact I.
  - reflexivity.
  - apply (bool_decide_unpack _). vm_compute. exact I.
  - reflexivity.
Defined.

Section RenderFailure.
Context {X : Type} (pytrends : TrendReq X) (px : Plotly X).

Lemma analyze_trends_chart_raises keywords timeframe geo (w : world (env X))
    (d : DataFrame) (x : exn) (x1 x2 : X) :
  tr_build_payload pytrends keywords (Some timeframe) geo (e_ext (w_env w))
  = (Ret tt, x1) ->
  tr_interest_over_time pytrends x1 = (Ret d, x2) ->
  empty d = false ->
  index_label d ∉ columns d ->
  fst (px (CallLine (reset_frame d) "date"
             (all_but_last (index_label d :: columns d))
             "Emerging Trends in the US") x2) = Raise x ->
  exists x',
    analyze_trends pytrends px keywords timeframe geo w
    = (Ret tt,
       World (Env x' (<[e_next (w_env w) := reset_frame d]> (e_heap (w_env w)))
                  (S (e_next (w_env w)))
                  (e_calls (w_env w)
                     ++ [CallBuildPayload keywords (Some timeframe) geo;
                         CallInterestOverTime;
                         CallLine (reset_frame d) "date"
                           (all_but_last (index_label d :: columns d))
                           "Emerging Trends in the US"]))
             (w_rng w) (w_draws w)
             (w_trace w
                ++ [EvCall 0;
                    EvPrint ("Failed to fetch interest over time: "
                               +:+ exc_str x)])).
Proof.
  intros Hbuild Hget Hdata Hfresh Hchart.
  pose proof (get_interest_over_time_first_try pytrends keywords timeframe geo
                w d x1 x2 Hbuild Hget) as Hfacade.
  unfold analyze_trends, try_except.
  rewrite (analyze_trends_try_plots _ _ _ _ _ _ _ _ d Hfacade)
    by (done || apply lookup_insert_eq).
  rewrite on_env_eq. cbn [w_env w_rng w_draws w_trace].
  match goal with
  | |- context [plot_interest_over_time px ?l ?t ?e1] =>
      rewrite (plot_interest_over_time_after_reset px l t e1 d
                 ltac:(apply lookup_insert_eq) Hfresh)
  end.
  cbn [e_heap e_next e_calls e_ext].
  rewrite (render_first_raises px _ _ _ _ x) by exact Hchart.
  cbn [fst snd]. unfold print, emit.
  cbn [w_env w_rng w_draws w_trace e_ext e_heap e_next e_calls].
  eexists. rewrite insert_insert_eq, <- !app_assoc. reflexivity.
Qed.

Lemma regional_analysis_chart_raises geo (w : world (env X)) (d : DataFrame)
    (x : exn) (x1 x2 : X) :
  tr_build_payload pytrends ["Holiday Sales"] None geo (e_ext (w_env w))
  = (Ret tt, x1) ->
  tr_interest_by_region pytrends "COUNTRY" x1 = (Ret d, x2) ->
  empty d = false ->
  index_label d ∉ columns d ->
  fst (px (CallChoropleth (reset_frame d) (range_index (length (df_index d)))
             "country names" "Holiday Sales" "Regional Interest in the US"
             Viridis) x2) = Raise x ->
  exists x',
    regional_analysis pytrends px geo w
    = (Ret tt,
       World (Env x' (<[e_next (w_env w) := reset_frame d]> (e_heap (w_env w)))
                  (S (e_next (w_env w)))
                  (e_calls (w_env w)
                     ++ [CallBuildPayload ["Holiday Sales"] None geo;
                         CallInterestByRegion "COUNTRY";
                         CallChoropleth (reset_frame d)
                           (range_index (length (df_index d))) "country names"
                           "Holiday Sales" "Regional Interest in the US"
                           Viridis]))
             (w_rng w) (w_draws w)
             (w_trace w
                ++ [EvCall 0;
                    EvPrint ("Failed to fetch regional interest: "
                               +:+ exc_str x)])).
Proof.
  intros Hbuild Hget Hdata Hfresh Hchart.
  pose proof (get_interest_by_region_first_try pytrends "Holiday Sales" "COUNTRY"
                geo w d x1 x2 Hbuild Hget) as Hfacade.
  unfold regional_analysis, try_except.
  rewrite (regional_analysis_try_plots _ _ _ _ _ _ d Hfacade)
    by (done || apply lookup_insert_eq).
  rewrite on_env_eq. cbn [w_env w_rng w_draws w_trace].
  match goal with
  | |- context [plot_interest_by_region px ?l ?k ?t ?e1] =>
      rewrite (plot_interest_by_region_after_reset px l k t e1 d
                 ltac:(apply lookup_insert_eq) Hfresh)
  end.
  cbn [e_heap e_next e_calls e_ext].
  rewrite (render_first_raises px _ _ _ _ x) by exact Hchart.
  cbn [fst snd]. unfold print, emit.
  cbn [w_env w_rng w_draws w_trace e_ext e_heap e_next e_calls].
  eexists. rewrite insert_insert_eq, <- !app_assoc. reflexivity.
Qed.
End RenderFailure.

(** X11. A step of [main] whose table was fetched at the first attempt and
    whose chart constructor raises: the step returns normally and reports the
    renderer's error under its "Failed to fetch ..." heading.  The chart
    constructor is the last call made (no layout, no show), and the fetched
    table has had its index reset all the same. *)
Theorem chart_errors_are_reported_as_fetch_failures {X : Type}
    (pytrends : TrendReq X) (px : Plotly X) (w : world (env X)) (d : DataFrame)
    (x : exn) (x1 x2 : X) :
  empty d = false ->
  index_label d ∉ columns d ->
  (forall keywords timeframe geo,
      tr_build_payload pytrends keywords (Some timeframe) geo (e_ext (w_env w))
      = (Ret tt, x1) ->
      tr_interest_over_time pytrends x1 = (Ret d, x2) ->
      fst (px (CallLine (reset_frame d) "date"
                 (all_but_last (index_label d :: columns d))
                 "Emerging Trends in the US") x2) = Raise x ->
      exists w',
        analyze_trends pytrends px keywords timeframe geo w = (Ret tt, w')
        /\ new_events w w'
           = [EvCall 0;
              EvPrint ("Failed to fetch interest over time: " +:+ exc_str x)]
        /\ e_calls (w_env w')
           = e_calls (w_env w)
               ++ [CallBuildPayload keywords (Some timeframe) geo;
                   CallInterestOverTime;
                   CallLine (reset_frame d) "date"
                     (all_but_last (index_label d :: columns d))
                     "Emerging Trends in the US"]
        /\ e_heap (w_env w')
           = <[e_next (w_env w) := reset_frame d]> (e_heap (w_env w)))
  /\ (forall geo,
      tr_build_payload pytrends ["Holiday Sales"] None geo (e_ext (w_env w))
      = (Ret tt, x1) ->
      tr_interest_by_region pytrends "COUNTRY" x1 = (Ret d, x2) ->
      fst (px (CallChoropleth (reset_frame d)
                 (range_index (length (df_index d))) "country names"
                 "Holiday Sales" "Regional Interest in the US" Viridis) x2)
      = Raise x ->
      exists w',
        regional_analysis pytrends px geo w = (Ret tt, w')
        /\ new_events w w'
           = [EvCall 0;
              EvPrint ("Failed to fetch regional interest: " +:+ exc_str x)]
        /\ e_calls (w_env w')
           = e_calls (w_env w)
               ++ [CallBuildPayload ["Holiday Sales"] None geo;
                   CallInterestByRegion "COUNTRY";
                   CallChoropleth (reset_frame d)
                     (range_index (length (df_index d))) "country names"
                     "Holiday Sales" "Regional Interest in the US" Viridis]
        /\ e_heap (w_env w')
           = <[e_next (w_env w) := reset_frame d]> (e_heap (w_env w))).
Proof.
  intros Hdata Hfresh. split.
  - intros keywords timeframe geo Hbuild Hget Hchart.
    destruct (analyze_trends_chart_raises pytrends px keywords timeframe geo w
                d x x1 x2 Hbuild Hget Hdata Hfresh Hchart) as [x' Hrun].
    eexists. split; [exact Hrun|].
    cbn [w_env e_calls e_heap]. repeat split. by apply new_events_app.
  - intros geo Hbuild Hget Hchart.
    destruct (regional_analysis_chart_raises pytrends px geo w
                d x x1 x2 Hbuild Hget Hdata Hfresh Hchart) as [x' Hrun].
    eexists. split; [exact Hrun|].
    cbn [w_env e_calls e_heap]. repeat split. by apply new_events_app.
Qed.

(** The statement on a renderer whose chart constructors raise; the regional
    table serves for both steps. *)
Lemma chart_errors_are_reported_as_fetch_failures_on_fake :
  (exists w',
      analyze_trends
        (Double.fake_pytrends 0 Double.region_frame Double.region_frame)
        Double.failing_plotly ["Holiday Sales"] "today 12-m" "US"
        (Double.world_drawing 0 Double.fresh_env)
      = (Ret tt, w')
      /\ new_events (Double.world_drawing 0 Double.fresh_env) w'
         = [EvCall 0;
            EvPrint ("Failed to fetch interest over time: "
                       +:+ exc_str Double.no_chart)]
      /\ e_calls (w_env w')
         = [] ++ [CallBuildPayload ["Holiday Sales"] (Some "today 12-m") "US";
                  CallInterestOverTime;
                  CallLine (reset_frame Double.region_frame) "date"
                    (all_but_last (index_label Double.region_frame
                                     :: columns Double.region_frame))
                    "Emerging Trends in the US"]
      /\ e_heap (w_env w') = <[0 := reset_frame Double.region_frame]> ∅)
  /\ (exists w',
      regional_analysis
        (Double.fake_pytrends 0 Double.region_frame Double.region_frame)
        Double.failing_plotly "US" (Double.world_drawing 0 Double.fresh_env)
      = (Ret tt, w')
      /\ new_events (Double.world_drawing 0 Double.fresh_env) w'
         = [EvCall 0;
            EvPrint ("Failed to fetch regional interest: "
                       +:+ exc_str Double.no_chart)]
      /\ e_calls (w_env w')
         = [] ++ [CallBuildPayload ["Holiday Sales"] None "US";
                  CallInterestByRegion "COUNTRY";
                  CallChoropleth (reset_frame Double.region_frame)
                    (range_index (length (df_index Double.region_frame)))
                    "country names" "Holiday Sales"
                    "Regional Interest in the US" Viridis]
      /\ e_heap (w_env w') = <[0 := reset_frame Double.region_frame]> ∅).
Proof.
  assert (Hfresh : index_label Double.region_frame ∉ columns Double.region_frame).
  { apply (bool_decide_unpack _). vm_compute. exact I. }
  destruct (chart_errors_are_reported_as_fetch_failures
              (Double.fake_pytrends 0 Double.region_frame Double.region_frame)
              Double.failing_plotly (Double.world_drawing 0 Double.fresh_env)
              Double.region_frame Double.no_chart 0 1 eq_refl Hfresh)
    as [Hot Hbr].
  split.
  - apply (Hot ["Holiday Sales"] "today 12-m" "US"); reflexivity.
  - apply (Hbr "US"); reflexivity.
Defined.

(** ** What the facades do to the heap *)

Section LastInvocation.
Context {St A Args : Type} (func : Args -> act St A) (args : Args).

Lemma env_after_succ (n : nat) (e : St) :
  env_after func args (S n) e = snd (func args (env_after func args n e)).
Proof. revert e. induction n as [|n IH]; intros e; [done|]. apply (IH _). Qed.

(** What raising invocations leave alone is as it was after any number of
    them. *)
Lemma env_after_raising {T} (proj : St -> T) (n : nat) (e : St) :
  (forall e1 x, fst (func args e1) = Raise x -> proj (snd (func args e1)) = proj e1) ->
  (forall j, j < n -> exists x, outcome_at func args j e = Raise x) ->
  proj (env_after func args n e) = proj e.
Proof.
  intros Hkeep. revert e. induction n as [|n IH]; intros e Hfail; [done|].
  destruct (Hfail 0 ltac:(lia)) as [x Hx].
  cbn [env_after]. rewrite IH.
  - by apply (Hkeep e x).
  - intros j Hj. apply (Hfail (S j)). lia.
Qed.

(** The run of [async_retry], seen from its last invocation. *)
Lemma async_retry_last_invocation (R : Z) (D : float) (w : world St) :
  (1 <= R)%Z ->
  exists n : nat,
    fst (async_retry func R D args w)
    = match fst (func args (env_after func args n (w_env w))) with
      | Ret v => Ret (Some v)
      | Raise x => Raise x
      end
    /\ w_env (snd (async_retry func R D args w))
       = snd (func args (env_after func args n (w_env w)))
    /\ (forall j, j < n -> exists x, outcome_at func args j (w_env w) = Raise x).
Proof.
  intros HR.
  destruct (async_retry_run func args R D w HR)
    as (n & added & Hn & Hres & Htrace & Hcalls & _ & Hfail & _).
  destruct (retry_loop_env func args R D (py_range R) w) as [Henv _].
  fold (async_retry func R D args w) in Henv. cbn zeta in Henv.
  rewrite (new_events_app _ _ _ Htrace), Hcalls in Henv.
  exists (n - 1). split; [exact Hres|]. split; [|exact Hfail].
  rewrite Henv. replace n with (S (n - 1)) at 1 by lia. apply env_after_succ.
Qed.
End LastInvocation.

Section FacadeHeap.
Context {X : Type} (pytrends : TrendReq X).

(** One run of the closure of a table facade. *)
Lemma frame_closure_heap kw_list timeframe geo (c : ext_call)
    (m : act X DataFrame) (e : env X) :
  let r := bind (build_payload pytrends kw_list timeframe geo)
                (fun _ => bind (external c m) (fun d => new_frame d)) e in
  match fst r with
  | Ret data =>
      data = e_next e
      /\ e_next (snd r) = S (e_next e)
      /\ exists d, e_heap (snd r) = <[data := d]> (e_heap e)
  | Raise _ => e_heap (snd r) = e_heap e /\ e_next (snd r) = e_next e
  end.
Proof.
  unfold bind, build_payload. rewrite external_eq.
  destruct (tr_build_payload pytrends kw_list timeframe geo (e_ext e))
    as [[[]|x] x1]; cbn [fst snd]; [|done].
  rewrite external_eq. cbn [e_ext].
  destruct (m x1) as [[d|x] x2]; cbn [fst snd]; [|done].
  unfold new_frame. cbn. eauto.
Qed.

(** A table facade, as [async_retry] runs its closure. *)
Lemma frame_facade_heap (fetch : unit -> act (env X) loc) (w : world (env X)) :
  (forall e,
      match fst (fetch tt e) with
      | Ret data =>
          data = e_next e
          /\ e_next (snd (fetch tt e)) = S (e_next e)
          /\ exists d, e_heap (snd (fetch tt e)) = <[data := d]> (e_heap e)
      | Raise _ =>
          e_heap (snd (fetch tt e)) = e_heap e
          /\ e_next (snd (fetch tt e)) = e_next e
      end) ->
  let r := async_retry fetch default_retries default_delay tt w in
  match fst r with
  | Ret (Some data) =>
      data = e_next (w_env w)
      /\ e_next (w_env (snd r)) = S (e_next (w_env w))
      /\ exists d, e_heap (w_env (snd r)) = <[data := d]> (e_heap (w_env w))
  | Ret None => False
  | Raise _ =>
      e_heap (w_env (snd r)) = e_heap (w_env w)
      /\ e_next (w_env (snd r)) = e_next (w_env w)
  end.
Proof.
  intros Hfetch r. subst r.
  destruct (async_retry_last_invocation fetch tt default_retries default_delay w
              ltac:(done)) as (n & Hres & Henv & Hfail).
  assert (Hkeep : (fun e => (e_heap e, e_next e)) (env_after fetch tt n (w_env w))
                  = (e_heap (w_env w), e_next (w_env w))).
  { apply (env_after_raising fetch tt (fun e => (e_heap e, e_next e)));
      [|exact Hfail].
    intros e1 x Hx. pose proof (Hfetch e1) as H1. rewrite Hx in H1.
    destruct H1 as [-> ->]. done. }
  injection Hkeep as Hheap Hnext.
  rewrite Hres, Henv.
  pose proof (Hfetch (env_after fetch tt n (w_env w))) as Hlast.
  destruct (fst (fetch tt (env_after fetch tt n (w_env w)))) as [data|x].
  - by rewrite <- Hheap, <- Hnext.
  - by rewrite <- Hheap, <- Hnext.
Qed.
End FacadeHeap.

(** The heap after a call of a facade, whatever the provider does. *)
Lemma facades_heap_shape {X : Type} (pytrends : TrendReq X)
    (w : world (env X)) :
  (forall keywords timeframe geo,
      let r := get_interest_over_time pytrends keywords timeframe geo w in
      match fst r with
      | Ret (Some data) =>
          data = e_next (w_env w)
          /\ e_next (w_env (snd r)) = S (e_next (w_env w))
          /\ exists d, e_heap (w_env (snd r)) = <[data := d]> (e_heap (w_env w))
      | Ret None => False
      | Raise _ =>
          e_heap (w_env (snd r)) = e_heap (w_env w)
          /\ e_next (w_env (snd r)) = e_next (w_env w)
      end)
  /\ (forall keyword resolution geo,
      let r := get_interest_by_region pytrends keyword resolution geo w in
      match fst r with
      | Ret (Some data) =>
          data = e_next (w_env w)
          /\ e_next (w_env (snd r)) = S (e_next (w_env w))
          /\ exists d, e_heap (w_env (snd r)) = <[data := d]> (e_heap (w_env w))
      | Ret None => False
      | Raise _ =>
          e_heap (w_env (snd r)) = e_heap (w_env w)
          /\ e_next (w_env (snd r)) = e_next (w_env w)
      end)
  /\ (forall keyword geo,
      let r := get_related_queries pytrends keyword geo w in
      e_heap (w_env (snd r)) = e_heap (w_env w)
      /\ e_next (w_env (snd r)) = e_next (w_env w)).
Proof.
  split; [|split].
  - intros keywords timeframe geo.
    apply (frame_facade_heap
             (fetch_interest_over_time pytrends keywords timeframe geo) w).
    intros e. apply (frame_closure_heap pytrends keywords (Some timeframe) geo
                       CallInterestOverTime (tr_interest_over_time pytrends) e).
  - intros keyword resolution geo.
    apply (frame_facade_heap
             (fetch_interest_by_region pytrends keyword resolution geo) w).
    intros e. apply (frame_closure_heap pytrends [keyword] None geo
                       (CallInterestByRegion resolution)
                       (tr_interest_by_region pytrends resolution) e).
  - intros keyword geo r. subst r. unfold get_related_queries.
    destruct (retry_loop_env (fetch_related_queries pytrends keyword geo) tt
                default_retries default_delay (py_range default_retries) w)
      as [Henv _].
    fold (async_retry (fetch_related_queries pytrends keyword geo)
            default_retries default_delay tt w) in Henv.
    cbn zeta in Henv. rewrite Henv.
    generalize (calls_in (new_events w
                  (snd (async_retry (fetch_related_queries pytrends keyword geo)
                          default_retries default_delay tt w)))).
    intros n. generalize (w_env w). induction n as [|n IH]; intros e; [done|].
    cbn [env_after]. destruct (IH (snd (fetch_related_queries pytrends keyword
                                          geo tt e))) as [-> ->].
    unfold fetch_related_queries, related_queries, bind, build_payload.
    rewrite external_eq.
    destruct (tr_build_payload pytrends [keyword] None geo (e_ext e))
      as [[[]|x] x1]; cbn [fst snd]; [|done].
    rewrite external_eq. cbn [e_ext e_heap e_next].
    by destruct (tr_related_queries pytrends x1) as [[v|x] x2].
Qed.


(** X12. Whatever the provider does, a table facade changes the heap only by
    the table it returns.  Let the heap be in order before the call: no
    object lives at the next free location or beyond.  When
    [get_interest_over_time] or [get_interest_by_region] returns, its result
    is a reference that no object had before the call, the heap after the
    call is the heap before it with one table stored under that reference,
    and every object that was there is still there, unchanged.  When the
    facade raises, after however many attempts, the heap is as it was before
    the call.  The related-queries facade never touches the heap.  In all
    cases the heap is in order after the call. *)
Theorem facades_only_add_their_result {X : Type} (pytrends : TrendReq X)
    (w : world (env X)) :
  heap_ok (w_env w) ->
  (forall keywords timeframe geo,
      let r := get_interest_over_time pytrends keywords timeframe geo w in
      heap_ok (w_env (snd r))
      /\ match fst r with
         | Ret (Some data) =>
             e_heap (w_env w) !! data = None
             /\ (exists d, e_heap (w_env (snd r)) = <[data := d]> (e_heap (w_env w)))
             /\ (forall l d0, e_heap (w_env w) !! l = Some d0 ->
                              e_heap (w_env (snd r)) !! l = Some d0)
         | Ret None => False
         | Raise _ => e_heap (w_env (snd r)) = e_heap (w_env w)
         end)
  /\ (forall keyword resolution geo,
      let r := get_interest_by_region pytrends keyword resolution geo w in
      heap_ok (w_env (snd r))
      /\ match fst r with
         | Ret (Some data) =>
             e_heap (w_env w) !! data = None
             /\ (exists d, e_heap (w_env (snd r)) = <[data := d]> (e_heap (w_env w)))
             /\ (forall l d0, e_heap (w_env w) !! l = Some d0 ->
                              e_heap (w_env (snd r)) !! l = Some d0)
         | Ret None => False
         | Raise _ => e_heap (w_env (snd r)) = e_heap (w_env w)
         end)
  /\ (forall keyword geo,
      let r := get_related_queries pytrends keyword geo w in
      heap_ok (w_env (snd r))
      /\ e_heap (w_env (snd r)) = e_heap (w_env w)).
Proof.
  intros Hok.
  destruct (facades_heap_shape pytrends w) as (Hot & Hbr & Hrq).
  split; [|split].
  - intros keywords timeframe geo r.
    apply (only_the_result_is_added (w_env w) (w_env (snd r)) (fst r) Hok).
    apply Hot.
  - intros keyword resolution geo r.
    apply (only_the_result_is_added (w_env w) (w_env (snd r)) (fst r) Hok).
    apply Hbr.
  - intros keyword geo r. destruct (Hrq keyword geo) as [Hheap Hnext].
    split; [by apply (heap_ok_same (w_env w))|done].
Qed.

(** The statement from the empty heap, on a provider whose first retrieval
    fails. *)
Lemma facades_only_add_their_result_from_empty_heap :
  let pytrends := Double.fake_pytrends 1 Double.trend_frame Double.region_frame in
  let w := Double.world_drawing 0 Double.fresh_env in
  heap_ok (w_env w)
  /\ (let r := get_interest_over_time pytrends ["Holiday Sales"] "today 12-m"
                 "US" w in
      heap_ok (w_env (snd r))
      /\ match fst r with
         | Ret (Some data) =>
             e_heap (w_env w) !! data = None
             /\ (exists d, e_heap (w_env (snd r)) = <[data := d]> (e_heap (w_env w)))
             /\ (forall l d0, e_heap (w_env w) !! l = Some d0 ->
                              e_heap (w_env (snd r)) !! l = Some d0)
         | Ret None => False
         | Raise _ => e_heap (w_env (snd r)) = e_heap (w_env w)
         end).
Proof.
  intros pytrends w.
  assert (Hok : heap_ok (w_env w)) by (intros l _; apply lookup_empty).
  split; [exact Hok|].
  destruct (facades_only_add_their_result pytrends w Hok) as (Hot & _ & _).
  apply (Hot ["Holiday Sales"] "today 12-m" "US").
Defined.

(** ** A provider that is down *)

Section ProviderDown.
Context {X : Type} (pytrends : TrendReq X) (px : Plotly X).

(** Three attempts that all raise [x]. *)
Lemma async_retry_default_exhausts {St B} (fetch : unit -> act St B)
    (w : world St) (x : exn) :
  (forall e, fst (fetch tt e) = Raise x) ->
  async_retry fetch default_retries default_delay tt w
  = (Raise x,
     World (env_after fetch tt 3 (w_env w)) (w_rng w) (w_draws w + 2)
           (w_trace w
              ++ backoff_events default_delay (w_rng w) (w_draws w) [0; 1]%Z
              ++ [EvCall 2; EvPrint (max_retries_line x)])).
Proof.
  intros Hraise.
  rewrite (async_retry_after_failures fetch tt default_retries default_delay w 2).
  - change (Z.to_nat default_retries - 2) with 1.
    change (map Z.of_nat (seq 2 1)) with [2%Z].
    change (py_range (Z.of_nat 2)) with [0; 1]%Z.
    rewrite (retry_loop_gives_up _ _ _ _ _ _ _ x (Hraise _)) by done.
    cbn [w_env w_rng w_draws w_trace]. by rewrite <- app_assoc.
  - change (Z.to_nat default_retries) with 3. lia.
  - intros j _. exists x. apply Hraise.
Qed.

(** A closure whose payload is refused. *)
Lemma closure_raises_at_build {B} kw_list timeframe geo
    (k : unit -> act (env X) B) (e : env X) (x : exn) :
  fst (tr_build_payload pytrends kw_list timeframe geo (e_ext e)) = Raise x ->
  bind (build_payload pytrends kw_list timeframe geo) k e
  = (Raise x,
     Env (snd (tr_build_payload pytrends kw_list timeframe geo (e_ext e)))
         (e_heap e) (e_next e)
         (e_calls e ++ [CallBuildPayload kw_list timeframe geo])).
Proof.
  intros Hx. unfold bind, build_payload.
  by rewrite external_eq, (outcome_and_state _ _ Hx).
Qed.

(** Three runs of such a closure. *)
Lemma env_after_refused_payloads {B} kw_list timeframe geo
    (k : unit -> act (env X) B) (e : env X) (x : exn) :
  (forall x0, fst (tr_build_payload pytrends kw_list timeframe geo x0) = Raise x) ->
  exists x',
    env_after (fun _ : unit => bind (build_payload pytrends kw_list timeframe geo) k)
      tt 3 e
    = Env x' (e_heap e) (e_next e)
          (e_calls e ++ [CallBuildPayload kw_list timeframe geo;
                         CallBuildPayload kw_list timeframe geo;
                         CallBuildPayload kw_list timeframe geo]).
Proof.
  intros Hdown. cbn [env_after].
  rewrite !(closure_raises_at_build _ _ _ _ _ x (Hdown _)).
  cbn [snd e_ext e_heap e_next e_calls]. eexists. by rewrite <- !app_assoc.
Qed.

Lemma analyze_trends_facade_raises keywords timeframe geo
    (w w1 : world (env X)) (x : exn) :
  get_interest_over_time pytrends keywords timeframe geo w = (Raise x, w1) ->
  analyze_trends pytrends px keywords timeframe geo w
  = (Ret tt,
     World (w_env w1) (w_rng w1) (w_draws w1)
           (w_trace w1
              ++ [EvPrint ("Failed to fetch interest over time: " +:+ exc_str x)])).
Proof.
  intros Hfacade.
  unfold analyze_trends, try_except, analyze_trends_try. unfold bind at 1.
  by rewrite Hfacade.
Qed.

Lemma regional_analysis_facade_raises geo (w w1 : world (env X)) (x : exn) :
  get_interest_by_region pytrends "Holiday Sales" "COUNTRY" geo w = (Raise x, w1) ->
  regional_analysis pytrends px geo w
  = (Ret tt,
     World (w_env w1) (w_rng w1) (w_draws w1)
           (w_trace w1
              ++ [EvPrint ("Failed to fetch regional interest: " +:+ exc_str x)])).
Proof.
  intros Hfacade.
  unfold regional_analysis, try_except, regional_analysis_try. unfold bind at 1.
  by rewrite Hfacade.
Qed.
End ProviderDown.

(** X13. [main] against a provider that refuses every payload with the error
    [x]: [main] still returns normally.  Each step makes three attempts with
    a backoff after the first and the second, prints "Max retries reached
    ..." and then its own "Failed to fetch ..." line, both carrying [x].
    The calls made are the client's constructor and six payloads: no
    retrieval is asked for and nothing is drawn.  Four random values are
    used and the heap is left as it was. *)
Theorem main_on_a_provider_that_is_down {X : Type} (pytrends : TrendReq X)
    (px : Plotly X) (w : world (env X)) (x : exn) :
  fst (tr_init pytrends "en-US" 360 (e_ext (w_env w))) = Ret tt ->
  (forall kw_list timeframe geo x0,
      fst (tr_build_payload pytrends kw_list timeframe geo x0) = Raise x) ->
  let keywords := ["Black Friday Deals"; "Cyber Monday Deals"; "Holiday Sales"] in
  let s := fun i => sleep_time default_delay (w_rng w) (w_draws w + i) in
  exists x',
    main pytrends px w
    = (Ret tt,
       World (Env x' (e_heap (w_env w)) (e_next (w_env w))
                  (e_calls (w_env w)
                     ++ [CallTrendReq "en-US" 360;
                         CallBuildPayload keywords (Some "today 12-m") "US";
                         CallBuildPayload keywords (Some "today 12-m") "US";
                         CallBuildPayload keywords (Some "today 12-m") "US";
                         CallBuildPayload ["Holiday Sales"] None "US";
                         CallBuildPayload ["Holiday Sales"] None "US";
                         CallBuildPayload ["Holiday Sales"] None "US"]))
             (w_rng w) (w_draws w + 4)
             (w_trace w
                ++ [EvCall 0; EvPrint (retrying_line (s 0) 0); EvSleep (s 0);
                    EvCall 1; EvPrint (retrying_line (s 1) 1); EvSleep (s 1);
                    EvCall 2; EvPrint (max_retries_line x);
                    EvPrint ("Failed to fetch interest over time: " +:+ exc_str x);
                    EvCall 0; EvPrint (retrying_line (s 2) 0); EvSleep (s 2);
                    EvCall 1; EvPrint (retrying_line (s 3) 1); EvSleep (s 3);
                    EvCall 2; EvPrint (max_retries_line x);
                    EvPrint ("Failed to fetch regional interest: " +:+ exc_str x)])).
Proof.
  intros Hinit Hdown keywords s. subst keywords.
  unfold main. unfold bind at 1. rewrite on_env_eq. unfold init.
  rewrite external_eq, (outcome_and_state _ _ Hinit). cbn [fst snd].
  set (w0 := World _ _ _ _).
  set (keywords := ["Black Friday Deals"; "Cyber Monday Deals"; "Holiday Sales"]).
  assert (Hstep1 : forall e,
             fst (fetch_interest_over_time pytrends keywords "today 12-m" "US" tt e)
             = Raise x).
  { intros e. unfold fetch_interest_over_time.
    by rewrite (closure_raises_at_build pytrends _ _ _ _ _ x (Hdown _ _ _ _)). }
  assert (Hstep2 : forall e,
             fst (fetch_interest_by_region pytrends "Holiday Sales" "COUNTRY" "US"
                    tt e) = Raise x).
  { intros e. unfold fetch_interest_by_region.
    by rewrite (closure_raises_at_build pytrends _ _ _ _ _ x (Hdown _ _ _ _)). }
  unfold bind at 1.
  rewrite (analyze_trends_facade_raises pytrends px keywords "today 12-m" "US"
             w0 _ x (async_retry_default_exhausts _ w0 x Hstep1)).
  cbn [w_env w_rng w_draws w_trace].
  destruct (env_after_refused_payloads pytrends keywords (Some "today 12-m") "US"
              (fun _ => interest_over_time pytrends) (w_env w0) x
              (Hdown _ _ _)) as [xa Henv1].
  unfold fetch_interest_over_time at 1. rewrite Henv1.
  set (w1 := World _ _ _ _).
  rewrite (regional_analysis_facade_raises pytrends px "US" w1 _ x
             (async_retry_default_exhausts _ w1 x Hstep2)).
  destruct (env_after_refused_payloads pytrends ["Holiday Sales"] None "US"
              (fun _ => interest_by_region pytrends "COUNTRY") (w_env w1) x
              (Hdown _ _ _)) as [xb Henv2].
  unfold fetch_interest_by_region at 1. rewrite Henv2.
  subst w1 w0 s.
  cbn [w_env w_rng w_draws w_trace e_heap e_next e_calls e_ext backoff_events].
  exists xb. rewrite <- !app_assoc. cbn [app].
  replace (w_draws w + 0) with (w_draws w) by lia.
  replace (w_draws w + 1) with (S (w_draws w)) by lia.
  replace (w_draws w + 2 + 2) with (w_draws w + 4) by lia.
  replace (w_draws w + 3) with (S (w_draws w + 2)) by lia.
  reflexivity.
Qed.

(** The statement on a provider that answers every payload with a 429. *)
Lemma main_on_a_provider_that_is_down_on_fake :
  let w := Double.world_drawing 0 Double.fresh_env in
  let keywords := ["Black Friday Deals"; "Cyber Monday Deals"; "Holiday Sales"] in
  let s := fun i => sleep_time default_delay (w_rng w) (w_draws w + i) in
  exists x',
    main Double.down_pytrends Double.fake_plotly w
    = (Ret tt,
       World (Env x' (e_heap (w_env w)) (e_next (w_env w))
                  (e_calls (w_env w)
                     ++ [CallTrendReq "en-US" 360;
                         CallBuildPayload keywords (Some "today 12-m") "US";
                         CallBuildPayload keywords (Some "today 12-m") "US";
                         CallBuildPayload keywords (Some "today 12-m") "US";
                         CallBuildPayload ["Holiday Sales"] None "US";
                         CallBuildPayload ["Holiday Sales"] None "US";
                         CallBuildPayload ["Holiday Sales"] None "US"]))
             (w_rng w) (w_draws w + 4)
             (w_trace w
                ++ [EvCall 0; EvPrint (retrying_line (s 0) 0); EvSleep (s 0);
                    EvCall 1; EvPrint (retrying_line (s 1) 1); EvSleep (s 1);
                    EvCall 2; EvPrint (max_retries_line Double.rate_limited);
                    EvPrint ("Failed to fetch interest over time: "
                               +:+ exc_str Double.rate_limited);
                    EvCall 0; EvPrint (retrying_line (s 2) 0); EvSleep (s 2);
                    EvCall 1; EvPrint (retrying_line (s 3) 1); EvSleep (s 3);
                    EvCall 2; EvPrint (max_retries_line Double.rate_limited);
                    EvPrint ("Failed to fetch regional interest: "
                               +:+ exc_str Double.rate_limited)])).
Proof.
  intros w.
  apply (main_on_a_provider_that_is_down Double.down_pytrends Double.fake_plotly
           w Double.rate_limited).
  - reflexivity.
  - reflexivity.
Defined.

(** ** The budget of a whole run of [main] *)

Section Budget.
Context {X : Type} (pytrends : TrendReq X) (px : Plotly X).

(** What a call with the default parameters adds to the trace. *)
Lemma default_run_adds {St B} (fetch : unit -> act St B) (w : world St) :
  exists added,
    w_trace (snd (async_retry fetch default_retries default_delay tt w))
    = w_trace w ++ added
    /\ 1 <= calls_in added <= 3
    /\ sleeps_in added = calls_in added - 1
    /\ Forall (fun s => F64.leb (F64.of_int 5) s = true
                        /\ F64.leb s (F64.of_int 7) = true)
              (sleep_times added)
    /\ w_draws (snd (async_retry fetch default_retries default_delay tt w))
       = w_draws w + sleeps_in added.
Proof.
  destruct (async_retry_run fetch tt default_retries default_delay w ltac:(done))
    as (n & added & Hn & _ & Htrace & Hcalls & Hsleeps & _).
  change (Z.to_nat default_retries) with 3 in Hn.
  exists added. split; [exact Htrace|]. split; [lia|]. split; [lia|]. split.
  - rewrite <- (new_events_app _ _ _ Htrace).
    apply (async_retry_sleeps_in_range fetch default_retries 5 w).
    split; discriminate.
  - destruct (retry_loop_shape fetch tt default_retries default_delay
                (py_range default_retries) w)
      as (done & closing & Htrace' & Hquiet & _ & _ & Hdraws).
    fold (async_retry fetch default_retries default_delay tt w) in Htrace', Hdraws.
    rewrite Htrace in Htrace'. apply app_inv_head in Htrace'.
    rewrite Hdraws, Htrace', sleeps_in_app, sleeps_in_backoff,
      (sleeps_in_sleep_times closing), Hquiet.
    simpl. lia.
Qed.

(** After its facade has returned or raised, a step prints at most one line
    and does nothing else that shows in the trace. *)
Lemma analyze_trends_trace keywords timeframe geo (w : world (env X)) :
  exists prints e',
    snd (analyze_trends pytrends px keywords timeframe geo w)
    = (let w1 := snd (get_interest_over_time pytrends keywords timeframe geo w) in
       World e' (w_rng w1) (w_draws w1) (w_trace w1 ++ prints))
    /\ (prints = [] \/ exists line, prints = [EvPrint line]).
Proof.
  unfold analyze_trends, try_except, analyze_trends_try. unfold bind at 1.
  destruct (get_interest_over_time pytrends keywords timeframe geo w)
    as [[[data|]|x] w1]; cbn [snd]; [|by eexists _, _; eauto..].
  unfold bind at 1. rewrite on_env_eq. unfold read_frame.
  destruct (e_heap (w_env w1) !! data) as [d|]; cbn [fst snd];
    [|by eexists _, _; eauto].
  destruct (empty d); [by eexists _, _; eauto|].
  rewrite on_env_eq. cbn [w_env w_rng w_draws w_trace].
  destruct (plot_interest_over_time px data "Emerging Trends in the US"
              (w_env w1)) as [[[]|x] e2]; simpl.
  - exists [], e2. rewrite app_nil_r. split; [reflexivity|by left].
  - by eexists _, _; eauto.
Qed.

Lemma regional_analysis_trace geo (w : world (env X)) :
  exists prints e',
    snd (regional_analysis pytrends px geo w)
    = (let w1 := snd (get_interest_by_region pytrends "Holiday Sales" "COUNTRY"
                        geo w) in
       World e' (w_rng w1) (w_draws w1) (w_trace w1 ++ prints))
    /\ (prints = [] \/ exists line, prints = [EvPrint line]).
Proof.
  unfold regional_analysis, try_except, regional_analysis_try. unfold bind at 1.
  destruct (get_interest_by_region pytrends "Holiday Sales" "COUNTRY" geo w)
    as [[[data|]|x] w1]; cbn [snd]; [|by eexists _, _; eauto..].
  unfold bind at 1. rewrite on_env_eq. unfold read_frame.
  destruct (e_heap (w_env w1) !! data) as [d|]; cbn [fst snd];
    [|by eexists _, _; eauto].
  destruct (empty d); [by eexists _, _; eauto|].
  rewrite on_env_eq. cbn [w_env w_rng w_draws w_trace].
  destruct (plot_interest_by_region px data "Holiday Sales"
              "Regional Interest in the US" (w_env w1)) as [[[]|x] e2];
    simpl.
  - exists [], e2. rewrite app_nil_r. split; [reflexivity|by left].
  - by eexists _, _; eauto.
Qed.

Lemma quiet_prints (prints : list event) :
  prints = [] \/ (exists line, prints = [EvPrint line]) ->
  calls_in prints = 0 /\ sleeps_in prints = 0 /\ sleep_times prints = [].
Proof. by intros [->|[line ->]]. Qed.
End Budget.

Section MainRun.
Context {X : Type} (pytrends : TrendReq X) (px : Plotly X).

(** [main] when the client cannot be built, and when it can. *)
Lemma main_init_raises (w : world (env X)) (x : exn) :
  fst (tr_init pytrends "en-US" 360 (e_ext (w_env w))) = Raise x ->
  main pytrends px w
  = (Raise x,
     World (Env (snd (tr_init pytrends "en-US" 360 (e_ext (w_env w))))
                (e_heap (w_env w)) (e_next (w_env w))
                (e_calls (w_env w) ++ [CallTrendReq "en-US" 360]))
           (w_rng w) (w_draws w) (w_trace w)).
Proof.
  intros Hinit. unfold main. unfold bind at 1. rewrite on_env_eq. unfold init.
  by rewrite external_eq, (outcome_and_state _ _ Hinit).
Qed.

Lemma main_init_returns (w : world (env X)) :
  fst (tr_init pytrends "en-US" 360 (e_ext (w_env w))) = Ret tt ->
  main pytrends px w
  = regional_analysis pytrends px "US"
      (snd (analyze_trends pytrends px
              ["Black Friday Deals"; "Cyber Monday Deals"; "Holiday Sales"]
              "today 12-m" "US"
              (World (Env (snd (tr_init pytrends "en-US" 360 (e_ext (w_env w))))
                          (e_heap (w_env w)) (e_next (w_env w))
                          (e_calls (w_env w) ++ [CallTrendReq "en-US" 360]))
                     (w_rng w) (w_draws w) (w_trace w)))).
Proof.
  intros Hinit. unfold main. unfold bind at 1. rewrite on_env_eq. unfold init.
  rewrite external_eq, (outcome_and_state _ _ Hinit). cbn [fst snd].
  unfold bind.
  match goal with
  | |- context [analyze_trends pytrends px ?k ?t ?g ?w0] =>
      pose proof (analyze_trends_returns pytrends px k t g w0) as Hret;
      destruct (analyze_trends pytrends px k t g w0) as [o w1]
  end.
  cbn [fst snd] in *. by rewrite Hret.
Qed.

(** What a run of [main] adds to the trace once the client is built: the
    events of two calls of a facade, each followed by at most one line. *)
Lemma main_adds (w : world (env X)) :
  fst (tr_init pytrends "en-US" 360 (e_ext (w_env w))) = Ret tt ->
  exists added1 prints1 added2 prints2,
    fst (main pytrends px w) = Ret tt
    /\ w_trace (snd (main pytrends px w))
       = w_trace w ++ added1 ++ prints1 ++ added2 ++ prints2
    /\ w_draws (snd (main pytrends px w))
       = w_draws w + sleeps_in added1 + sleeps_in added2
    /\ (1 <= calls_in added1 <= 3 /\ sleeps_in added1 = calls_in added1 - 1)
    /\ (1 <= calls_in added2 <= 3 /\ sleeps_in added2 = calls_in added2 - 1)
    /\ Forall (fun s => F64.leb (F64.of_int 5) s = true
                        /\ F64.leb s (F64.of_int 7) = true)
              (sleep_times added1 ++ sleep_times added2)
    /\ (calls_in prints1 = 0 /\ sleeps_in prints1 = 0 /\ sleep_times prints1 = [])
    /\ (calls_in prints2 = 0 /\ sleeps_in prints2 = 0 /\ sleep_times prints2 = []).
Proof.
  intros Hinit. rewrite (main_init_returns w Hinit).
  set (w0 := World _ _ _ _).
  set (keywords := ["Black Friday Deals"; "Cyber Monday Deals"; "Holiday Sales"]).
  destruct (analyze_trends_trace pytrends px keywords "today 12-m" "US" w0)
    as (prints1 & e1 & Hstep1 & Hprints1).
  destruct (default_run_adds
              (fetch_interest_over_time pytrends keywords "today 12-m" "US") w0)
    as (added1 & Htrace1 & Hcalls1 & Hsleeps1 & Hrange1 & Hdraws1).
  fold (get_interest_over_time pytrends keywords "today 12-m" "US" w0)
    in Htrace1, Hdraws1.
  cbn zeta in Hstep1. rewrite Htrace1, Hdraws1 in Hstep1.
  rewrite Hstep1. set (w1 := World _ _ _ _).
  destruct (regional_analysis_trace pytrends px "US" w1)
    as (prints2 & e2 & Hstep2 & Hprints2).
  destruct (default_run_adds
              (fetch_interest_by_region pytrends "Holiday Sales" "COUNTRY" "US") w1)
    as (added2 & Htrace2 & Hcalls2 & Hsleeps2 & Hrange2 & Hdraws2).
  fold (get_interest_by_region pytrends "Holiday Sales" "COUNTRY" "US" w1)
    in Htrace2, Hdraws2.
  cbn zeta in Hstep2. rewrite Htrace2, Hdraws2 in Hstep2.
  exists added1, prints1, added2, prints2.
  rewrite regional_analysis_returns, Hstep2. subst w1 w0.
  cbn [w_trace w_draws].
  split; [done|]. split; [by rewrite <- !app_assoc|]. split; [done|].
  split; [done|]. split; [done|]. split; [by apply Forall_app|].
  split; by apply quiet_prints.
Qed.
End MainRun.

(** X14. The budget of a run of [main], whatever the provider and the
    renderer do: at most six attempts and at most four backoff sleeps, each
    sleep between 5 and 7 seconds, and one random value drawn per sleep.
    When the client is built, [main] returns normally after at least one
    attempt per step, with one sleep less than attempts in each step; when
    building the client raises, [main] raises that error and nothing has been
    attempted, printed or slept. *)
Theorem main_stays_within_its_budget {X : Type} (pytrends : TrendReq X)
    (px : Plotly X) (w : world (env X)) :
  let r := main pytrends px w in
  calls_in (new_events w (snd r)) <= 6
  /\ sleeps_in (new_events w (snd r)) <= 4
  /\ Forall (fun s => F64.leb (F64.of_int 5) s = true
                      /\ F64.leb s (F64.of_int 7) = true)
            (sleep_times (new_events w (snd r)))
  /\ w_draws (snd r) = w_draws w + sleeps_in (new_events w (snd r))
  /\ match fst (tr_init pytrends "en-US" 360 (e_ext (w_env w))) with
     | Ret _ =>
         fst r = Ret tt
         /\ 2 <= calls_in (new_events w (snd r))
         /\ sleeps_in (new_events w (snd r)) = calls_in (new_events w (snd r)) - 2
     | Raise x => fst r = Raise x /\ new_events w (snd r) = []
     end.
Proof.
  intros r. subst r.
  destruct (fst (tr_init pytrends "en-US" 360 (e_ext (w_env w))))
    as [[]|x] eqn:Hinit.
  - destruct (main_adds pytrends px w Hinit)
      as (added1 & prints1 & added2 & prints2 & Hret & Htrace & Hdraws
          & [Hcalls1 Hsleeps1] & [Hcalls2 Hsleeps2] & Hrange
          & (Hc1 & Hs1 & Ht1) & (Hc2 & Hs2 & Ht2)).
    rewrite (new_events_app _ _ _ Htrace), Hdraws, Hret.
    rewrite !calls_in_app, !sleeps_in_app, !sleep_times_app.
    rewrite Hc1, Hc2, Hs1, Hs2, Ht1, Ht2, app_nil_r. cbn [app].
    repeat split; try lia. exact Hrange.
  - rewrite (main_init_raises pytrends px w x Hinit). cbn [fst snd].
    assert (Hnone : new_events w
                      (World (Env (snd (tr_init pytrends "en-US" 360
                                          (e_ext (w_env w))))
                                  (e_heap (w_env w)) (e_next (w_env w))
                                  (e_calls (w_env w) ++ [CallTrendReq "en-US" 360]))
                             (w_rng w) (w_draws w) (w_trace w)) = []).
    { apply new_events_app. cbn [w_trace]. by rewrite app_nil_r. }
    rewrite Hnone. cbn [w_draws sleep_times].
    repeat split; try constructor; unfold calls_in, sleeps_in; simpl; lia.
Qed.

(** ** The whole trace of a run of the retry wrapper *)

Section WholeTrace.
Context {St A Args : Type} (func : Args -> act St A) (args : Args).

Lemma async_retry_whole_trace (R : Z) (D : float) (w : world St) :
  (1 <= R)%Z ->
  exists n : nat,
    1 <= n <= Z.to_nat R
    /\ w_trace (snd (async_retry func R D args w))
       = w_trace w
           ++ backoff_events D (w_rng w) (w_draws w) (py_range (Z.of_nat (n - 1)))
           ++ EvCall (Z.of_nat (n - 1))
           :: match fst (async_retry func R D args w) with
              | Raise x => [EvPrint (max_retries_line x)]
              | Ret _ => []
              end.
Proof.
  intros HR.
  destruct (async_retry_run func args R D w HR)
    as (n & added & Hn & _ & _ & _ & _ & Hfail & Hlast).
  exists n. split; [exact Hn|].
  rewrite (async_retry_after_failures func args R D w (n - 1)) by (lia || done).
  replace (Z.to_nat R - (n - 1)) with (S (Z.to_nat R - n)) by lia.
  cbn [seq map].
  destruct (outcome_at func args (n - 1) (w_env w)) as [v|x] eqn:Hout.
  - rewrite (retry_loop_returns func args R D _ _ _ v) by exact Hout.
    cbn [fst snd w_trace]. by rewrite <- app_assoc.
  - rewrite (retry_loop_gives_up func args R D _ _ _ x) by (exact Hout || (specialize (Hlast ltac:(eauto)); lia)).
    cbn [fst snd w_trace]. by rewrite <- app_assoc.
Qed.
End WholeTrace.

(** X15. The whole trace of a run of [async_retry] with [retries >= 1]: for
    some [1 <= n <= retries], attempts [0 .. n-2] are each followed by their
    line "Retrying in ...s... (Attempt i+1)" and by the sleep of the duration
    that line shows, then comes attempt [n-1], and a run that raises ends
    with the line "Max retries reached. Last error: ..." carrying the error
    it raises.  Nothing else is printed and nothing follows. *)
Theorem async_retry_trace {St A Args : Type} (func : Args -> act St A)
    (args : Args) (R : Z) (D : float) (w : world St) :
  (1 <= R)%Z ->
  let r := async_retry func R D args w in
  exists n : nat,
    1 <= n <= Z.to_nat R
    /\ new_events w (snd r)
       = backoff_events D (w_rng w) (w_draws w) (py_range (Z.of_nat (n - 1)))
           ++ EvCall (Z.of_nat (n - 1))
           :: match fst r with
              | Raise x => [EvPrint (max_retries_line x)]
              | Ret _ => []
              end.
Proof.
  intros HR r. subst r.
  destruct (async_retry_whole_trace func args R D w HR) as (n & Hn & Htrace).
  exists n. split; [exact Hn|]. by apply new_events_app.
Qed.

(** The statement on an operation that fails twice, with [retries = 5]. *)
Lemma async_retry_trace_on_flaky :
  let w := Double.world_drawing 0 0 in
  let r := async_retry (Double.flaky 2) 5 default_delay tt w in
  exists n : nat,
    1 <= n <= Z.to_nat 5
    /\ new_events w (snd r)
       = backoff_events default_delay (w_rng w) (w_draws w)
           (py_range (Z.of_nat (n - 1)))
           ++ EvCall (Z.of_nat (n - 1))
           :: match fst r with
              | Raise x => [EvPrint (max_retries_line x)]
              | Ret _ => []
              end.
Proof.
  intros w.
  apply (async_retry_trace (Double.flaky 2) tt 5 default_delay w).
  discriminate.
Defined.
